(** * Donor wall: the extraction / fallback / sync pipeline

    A shallow embedding of the donor-wall scraper:
    - [src/donor/routes.py]: [parse_amount_to_number], [_extract_donor_names],
      [_load_local_donors], [_cache_response], [_find_campaign_id],
      [scrape_givecampus_recent_donors], [scrape_donors];
    - [src/admin/routes.py]: [_parse_amount];
    - [src/db.py]: [get_db];
    - [src/main.py]: the interval computation of [schedule_scrape].

    Python [str] values are modelled by [string]; a character is a code point
    in U+0000..U+00FF (Latin-1).  Python's [None] is [None] of an option
    type.  A raised exception is [None] (or an [Error] constructor) in the
    result of the function that raises. *)

From Stdlib Require Import String Ascii List Bool Arith ZArith NArith QArith Qround Lia.
Import ListNotations.

Set Warnings "-register-all".

Open Scope string_scope.
Open Scope Z_scope.

(* ------------------------------------------------------------------------- *)
(** * Characters and strings *)

Module PyStr.

Definition code (c : ascii) : N := N_of_ascii c.

(** [str.isspace] on a Latin-1 code point: the characters [str.strip()]
    removes. *)
Definition isspace (c : ascii) : bool :=
  let n := code c in
  ((9 <=? n) && (n <=? 13) || (28 <=? n) && (n <=? 32)
   || (n =? 133) || (n =? 160))%N.

(** [Py_ISSPACE] after [_PyUnicode_TransformDecimalAndSpaceToASCII]: the
    characters [float()] strips from both ends of its argument. *)
Definition float_isspace (c : ascii) : bool :=
  let n := code c in
  ((9 <=? n) && (n <=? 13) || (n =? 32) || (n =? 133) || (n =? 160))%N.

(** The ASCII digits ['0'..'9']. *)
Definition is_ascii_digit (c : ascii) : bool :=
  let n := code c in ((48 <=? n) && (n <=? 57))%N.

(** [str.isdigit] on a Latin-1 code point: the ASCII digits and the
    superscripts U+00B2, U+00B3, U+00B9. *)
Definition isdigit (c : ascii) : bool :=
  let n := code c in
  (is_ascii_digit c || (n =? 178) || (n =? 179) || (n =? 185))%N.

Definition digit_val (c : ascii) : Z := Z.of_N (code c) - 48.

(** [str.lower] on the ASCII letters. *)
Definition tolower (c : ascii) : ascii :=
  let n := code c in
  if ((65 <=? n) && (n <=? 90))%N then ascii_of_N (n + 32) else c.

Fixpoint lower (s : string) : string :=
  match s with
  | EmptyString => EmptyString
  | String c r => String (tolower c) (lower r)
  end.

Fixpoint lstrip_by (p : ascii -> bool) (s : string) : string :=
  match s with
  | EmptyString => EmptyString
  | String c r => if p c then lstrip_by p r else s
  end.

Fixpoint rstrip_by (p : ascii -> bool) (s : string) : string :=
  match s with
  | EmptyString => EmptyString
  | String c r =>
      match rstrip_by p r with
      | EmptyString => if p c then EmptyString else String c EmptyString
      | r' => String c r'
      end
  end.

(** [s.strip()] *)
Definition strip (s : string) : string := rstrip_by isspace (lstrip_by isspace s).

(** [''.join(ch for ch in s if p(ch))] *)
Fixpoint filter (p : ascii -> bool) (s : string) : string :=
  match s with
  | EmptyString => EmptyString
  | String c r => if p c then String c (filter p r) else filter p r
  end.

(** The longest prefix of characters satisfying [p], and the rest. *)
Fixpoint span (p : ascii -> bool) (s : string) : string * string :=
  match s with
  | EmptyString => (EmptyString, EmptyString)
  | String c r =>
      if p c then let '(a, b) := span p r in (String c a, b)
      else (EmptyString, s)
  end.

Fixpoint forallb (p : ascii -> bool) (s : string) : bool :=
  match s with
  | EmptyString => true
  | String c r => p c && forallb p r
  end.

(** [sep.join(l)] *)
Fixpoint join (sep : string) (l : list string) : string :=
  match l with
  | [] => EmptyString
  | [x] => x
  | x :: r => x ++ sep ++ join sep r
  end.

(** Python truthiness of a [str]. *)
Definition truthy (s : string) : bool :=
  match s with EmptyString => false | _ => true end.

End PyStr.

(* ------------------------------------------------------------------------- *)
(** * Floats

    A Python [float] is an IEEE binary64 value.  A finite value is carried
    as the rational it denotes (the sign of zero is dropped: [-0.0] and
    [0.0] compare equal, and no modelled code looks at the sign bit).  The
    integer [0] returned by [parse_amount_to_number] is carried as the
    float it compares equal to. *)

Module PyFloat.

Inductive t : Type :=
| Fin (q : Q)
| Inf (neg : bool)
| NaN.

Definition zero : t := Fin 0.

(** [2^k] for any integer [k]. *)
Definition pow2 (k : Z) : Q :=
  if 0 <=? k then inject_Z (2 ^ k) else / inject_Z (2 ^ (- k)).

(** [floor(log2 q)] for [q > 0]. *)
Definition ilog2 (q : Q) : Z :=
  let e0 := Z.log2 (Qnum q) - Z.log2 (Zpos (Qden q)) in
  if Qle_bool (pow2 e0) q then e0 else e0 - 1.

(** Round to the nearest integer, ties to even. *)
Definition round_half_even (x : Q) : Z :=
  let f := Qfloor x in
  match Qcompare (x - inject_Z f) (1 # 2) with
  | Lt => f
  | Gt => f + 1
  | Eq => if Z.even f then f else f + 1
  end.

(** Round a positive rational to binary64 (round to nearest, ties to even;
    53-bit significand, exponents -1022..1023, gradual underflow). *)
Definition round_pos (q : Q) : t :=
  let u := Z.max (ilog2 q) (-1022) - 52 in
  let m := round_half_even (q / pow2 u) in
  let v := (inject_Z m * pow2 u)%Q in
  if Qle_bool (pow2 1024) v then Inf false else Fin (Qred v).

Definition neg (x : t) : t :=
  match x with
  | Fin q => Fin (Qred (- q))
  | Inf b => Inf (negb b)
  | NaN => NaN
  end.

(** The binary64 value nearest to the rational [q]. *)
Definition round (q : Q) : t :=
  match Qcompare q 0 with
  | Eq => zero
  | Gt => round_pos q
  | Lt => neg (round_pos (- q))
  end.

(** [x >= 0] *)
Definition ge0 (x : t) : bool :=
  match x with
  | Fin q => Qle_bool 0 q
  | Inf b => negb b
  | NaN => false
  end.

(** [x <= 0] *)
Definition le0 (x : t) : bool :=
  match x with
  | Fin q => Qle_bool q 0
  | Inf b => b
  | NaN => false
  end.

(** [x * k] for a float [x] and a positive integer constant [k]. *)
Definition mul_const (x : t) (k : Z) : t :=
  match x with
  | Fin q => round (q * inject_Z k)
  | Inf b => Inf b
  | NaN => NaN
  end.

(** [math.ceil(x)]: [None] where Python raises ([ValueError] on NaN,
    [OverflowError] on an infinity). *)
Definition ceil (x : t) : option Z :=
  match x with
  | Fin q => Some (Qceiling q)
  | Inf _ => None
  | NaN => None
  end.

End PyFloat.

(* ------------------------------------------------------------------------- *)
(** * [float(str)] *)

Module FloatParse.
Import PyStr.

(** [_Py_string_to_number_with_underscores]: an underscore is accepted
    only between two digits; [prev] is the previous character of the
    input ([None] at its start).  [None] is the [ValueError]. *)
Fixpoint drop_underscores (prev : option ascii) (s : string) : option string :=
  let prev_digit := match prev with Some p => is_ascii_digit p | None => false end in
  let prev_us := match prev with Some p => Ascii.eqb p "_" | None => false end in
  match s with
  | EmptyString => if prev_us then None else Some EmptyString
  | String c r =>
      if Ascii.eqb c "_" then
        if prev_digit then drop_underscores (Some c) r else None
      else if prev_us && negb (is_ascii_digit c) then None
      else option_map (String c) (drop_underscores (Some c) r)
  end.

(** An optional sign: whether it is ['-'], and what follows it. *)
Definition sign (s : string) : bool * string :=
  match s with
  | String c r =>
      if Ascii.eqb c "-" then (true, r)
      else if Ascii.eqb c "+" then (false, r)
      else (false, s)
  | EmptyString => (false, s)
  end.

(** The number a string of ASCII digits denotes, most significant first. *)
Fixpoint digits_val (acc : Z) (s : string) : Z :=
  match s with
  | EmptyString => acc
  | String c r => digits_val (10 * acc + digit_val c) r
  end.

Definition pow10 (k : Z) : Q :=
  if 0 <=? k then inject_Z (10 ^ k) else / inject_Z (10 ^ (- k)).

(** The exponent part: empty, or [e]/[E], an optional sign and at least
    one digit, up to the end of the string.  [None]: characters are left
    over, which [float_from_string_inner] rejects ([end != last]). *)
Definition exponent (s : string) : option Z :=
  match s with
  | EmptyString => Some 0
  | String c r =>
      if Ascii.eqb (tolower c) "e" then
        let '(eneg, r1) := sign r in
        let '(ds, r2) := span is_ascii_digit r1 in
        match ds, r2 with
        | String _ _, EmptyString =>
            Some (if eneg then - digits_val 0 ds else digits_val 0 ds)
        | _, _ => None
        end
      else None
  end.

(** [_Py_dg_strtod] on the whole string: sign, digits with an optional
    point (at least one digit), optional exponent; correctly rounded. *)
Definition decimal (s : string) : option PyFloat.t :=
  let '(sneg, r0) := sign s in
  let '(ip, r1) := span is_ascii_digit r0 in
  let '(fp, r2) :=
    match r1 with
    | String c r => if Ascii.eqb c "." then span is_ascii_digit r else (EmptyString, r1)
    | EmptyString => (EmptyString, r1)
    end in
  match (ip ++ fp)%string with
  | EmptyString => None
  | _ =>
      match exponent r2 with
      | None => None
      | Some e =>
          let mag := (inject_Z (digits_val 0 (ip ++ fp))
                      * pow10 (e - Z.of_nat (String.length fp)))%Q in
          Some (PyFloat.round (if sneg then - mag else mag)%Q)
      end
  end.

(** [_Py_parse_inf_or_nan] on the whole string. *)
Definition inf_or_nan (s : string) : option PyFloat.t :=
  let '(sneg, r) := sign s in
  let l := lower r in
  if (String.eqb l "inf" || String.eqb l "infinity")%bool then Some (PyFloat.Inf sneg)
  else if String.eqb l "nan" then Some PyFloat.NaN
  else None.

(** [float(s)] for a [str] [s]; [None] is the [ValueError]. *)
Definition float (s : string) : option PyFloat.t :=
  match drop_underscores None s with
  | None => None
  | Some s1 =>
      let s2 := rstrip_by float_isspace (lstrip_by float_isspace s1) in
      match decimal s2 with
      | Some x => Some x
      | None => inf_or_nan s2
      end
  end.

End FloatParse.

(* ------------------------------------------------------------------------- *)
(** * Exceptions

    A computation that may raise: [Ret v] is a normal return, [Raise e] an
    exception that propagates to the caller unless a [try_except] catches
    it.  Every handler of the modelled code is [except Exception], which
    catches all of these. *)

Inductive exn : Type :=
| ValueError          (* float() of a malformed string, math.ceil(nan) *)
| OverflowError       (* math.ceil(inf) *)
| RequestError        (* requests: connection error, timeout, raise_for_status *)
| OSError             (* Path.read_text / Path.write_text *)
| DatabaseError.      (* sqlite3 *)

Inductive exc (A : Type) : Type :=
| Ret (a : A)
| Raise (e : exn).

Arguments Ret {A} a.
Arguments Raise {A} e.

Definition bind {A B : Type} (m : exc A) (k : A -> exc B) : exc B :=
  match m with
  | Ret a => k a
  | Raise e => Raise e
  end.

(** [try: m except Exception: h] *)
Definition try_except {A : Type} (m : exc A) (h : exn -> exc A) : exc A :=
  match m with
  | Ret a => Ret a
  | Raise e => h e
  end.

Notation "x <- m ;; k" := (bind m (fun x => k))
  (at level 61, m at next level, right associativity).

(** [float(s)] as a computation. *)
Definition py_float (s : string) : exc PyFloat.t :=
  match FloatParse.float s with
  | Some x => Ret x
  | None => Raise ValueError
  end.

(* ------------------------------------------------------------------------- *)
(** * The amount normalizers *)

(** [ch.isdigit() or ch == '.'] *)
Definition digit_or_period (ch : ascii) : bool :=
  PyStr.isdigit ch || Ascii.eqb ch ".".

(** [''.join(ch for ch in amount if ch.isdigit() or ch == '.')] *)
Definition cleaned (amount : string) : string :=
  PyStr.filter digit_or_period amount.

(** [parse_amount_to_number] of [src/donor/routes.py]; [not amount] holds of
    [None] and of the empty string. *)
Definition parse_amount_to_number (amount : option string) : exc PyFloat.t :=
  match amount with
  | None => Ret PyFloat.zero
  | Some s =>
      if negb (PyStr.truthy s) then Ret PyFloat.zero
      else try_except (py_float (cleaned s)) (fun _ => Ret PyFloat.zero)
  end.

(** The value [parse_amount_to_number] returns. *)
Definition amount_value (amount : option string) : PyFloat.t :=
  match amount with
  | None => PyFloat.zero
  | Some s =>
      match FloatParse.float (cleaned s) with
      | Some x => if PyStr.truthy s then x else PyFloat.zero
      | None => PyFloat.zero
      end
  end.

(** [_parse_amount] of [src/admin/routes.py]; [str(raw)] of a [str] is the
    string itself. *)
Definition _parse_amount (raw : option string) : exc PyFloat.t :=
  match raw with
  | None => Ret PyFloat.zero
  | Some s =>
      let text := PyStr.strip s in
      if (String.eqb text "" || String.eqb text "None")%bool then Ret PyFloat.zero
      else try_except (py_float text) (fun _ => Ret PyFloat.zero)
  end.

(* ------------------------------------------------------------------------- *)
(** * The scheduler's interval ([schedule_scrape] of [src/main.py]) *)

(** [os.getenv(name, default)] *)
Definition getenv_default (env : string -> option string) (name default : string) : string :=
  match env name with
  | Some v => v
  | None => default
  end.

Definition default_interval_minutes : PyFloat.t := PyFloat.Fin 15.

(** The seconds handed to [scheduler.add_job]; the [try] covers the
    [float()] call only and catches [ValueError] only, which is the one
    exception [float()] of a [str] raises. *)
Definition interval_seconds (env : string -> option string) : exc Z :=
  interval_minutes <-
    try_except (py_float (getenv_default env "SCRAPE_INTERVAL_MINUTES" "15"))
               (fun _ => Ret default_interval_minutes) ;;
  let interval_minutes :=
    if PyFloat.le0 interval_minutes then default_interval_minutes else interval_minutes in
  match PyFloat.ceil (PyFloat.mul_const interval_minutes 60) with
  | Some c => Ret (Z.max c 30)
  | None =>
      match PyFloat.mul_const interval_minutes 60 with
      | PyFloat.NaN => Raise ValueError
      | _ => Raise OverflowError
      end
  end.

(* ------------------------------------------------------------------------- *)
(** * Documents

    A parsed document ([BeautifulSoup(text, 'html.parser')]) is a forest of
    nodes.  An element carries the attributes the scraper reads: its tag
    name, [id], the list of its classes, and [href]. *)

Module Html.

Record attrs : Type := {
  tag : string;
  id : option string;
  classes : list string;
  href : option string
}.

Inductive node : Type :=
| Text (s : string)
| Elem (a : attrs) (children : list node).

Definition soup : Type := list node.

(** The elements below (and including) a node in document order, each
    with the attributes of its ancestors, outermost first. *)
Fixpoint elements_node (anc : list attrs) (n : node) : list (list attrs * node) :=
  match n with
  | Text _ => []
  | Elem a ch => (anc, n) :: flat_map (elements_node (anc ++ [a])%list) ch
  end.

Definition elements (anc : list attrs) (f : list node) : list (list attrs * node) :=
  flat_map (elements_node anc) f.

(** The descendants of an element (the element itself excluded). *)
Definition descendants (n : node) : list node :=
  match n with
  | Text _ => []
  | Elem a ch => map snd (elements [] ch)
  end.

Definition attrs_of (n : node) : option attrs :=
  match n with
  | Text _ => None
  | Elem a _ => Some a
  end.

(** [_all_strings(strip=True)]: the text strings below a node in document
    order, each stripped, the empty ones dropped. *)
Fixpoint strings (n : node) : list string :=
  match n with
  | Text s => let t := PyStr.strip s in if PyStr.truthy t then [t] else []
  | Elem _ ch => flat_map strings ch
  end.

(** [node.get_text(sep, strip=True)] *)
Definition get_text (sep : string) (n : node) : string :=
  PyStr.join sep (strings n).

(** ** CSS selectors: compound selectors joined by the descendant
    combinator *)

Record compound : Type := {
  ctag : option string;
  cid : option string;
  cclasses : list string
}.

Record selector : Type := {
  ancestors : list compound;   (* outermost first *)
  subject : compound
}.

Definition opt_matches (want : option string) (have : option string) : bool :=
  match want with
  | None => true
  | Some w => match have with Some h => String.eqb w h | None => false end
  end.

Definition has_class (a : attrs) (k : string) : bool :=
  existsb (String.eqb k) (classes a).

Definition matches_compound (c : compound) (a : attrs) : bool :=
  opt_matches (ctag c) (Some (tag a))
  && opt_matches (cid c) (id a)
  && forallb (has_class a) (cclasses c).

(** Whether the chain of ancestors holds elements matching [cs] in this
    order (each compound is matched at the outermost possible element). *)
Fixpoint chain_matches (cs : list compound) (anc : list attrs) : bool :=
  match cs with
  | [] => true
  | c :: cs' =>
      match anc with
      | [] => false
      | a :: anc' =>
          if matches_compound c a then chain_matches cs' anc'
          else chain_matches cs anc'
      end
  end.

Definition matches (sel : selector) (anc : list attrs) (n : node) : bool :=
  match n with
  | Text _ => false
  | Elem a _ => matches_compound (subject sel) a && chain_matches (ancestors sel) anc
  end.

(** [soup.select(sel)]: the matching elements in document order. *)
Definition select (sel : selector) (f : soup) : list node :=
  map snd (filter (fun '(anc, n) => matches sel anc n) (elements [] f)).

(** [node.find(...)]: the first descendant element satisfying [p]. *)
Definition find (p : attrs -> bool) (n : node) : option node :=
  List.find (fun d => match attrs_of d with Some a => p a | None => false end)
            (descendants n).

(** [soup.find(...)] and [soup.find_all(...)] on the whole document. *)
Definition find_all (p : attrs -> bool) (f : soup) : list attrs :=
  filter p (flat_map (fun '(_, n) => match attrs_of n with Some a => [a] | None => [] end)
                     (elements [] f)).

(** Shorthands for writing selectors and documents. *)
Definition by_class (ks : list string) : compound :=
  {| ctag := None; cid := None; cclasses := ks |}.
Definition by_tag (t : string) : compound :=
  {| ctag := Some t; cid := None; cclasses := [] |}.
Definition by_id (i : string) : compound :=
  {| ctag := None; cid := Some i; cclasses := [] |}.
Definition by_tag_id (t i : string) : compound :=
  {| ctag := Some t; cid := Some i; cclasses := [] |}.
Definition by_tag_class (t : string) (ks : list string) : compound :=
  {| ctag := Some t; cid := None; cclasses := ks |}.
Definition descend (cs : list compound) (c : compound) : selector :=
  {| ancestors := cs; subject := c |}.

Definition el (t : string) (ks : list string) (ch : list node) : node :=
  Elem {| tag := t; id := None; classes := ks; href := None |} ch.
Definition el_id (t : string) (i : string) (ch : list node) : node :=
  Elem {| tag := t; id := Some i; classes := []; href := None |} ch.
Definition anchor (h : string) (ch : list node) : node :=
  Elem {| tag := "a"; id := None; classes := []; href := Some h |} ch.

End Html.

(* ------------------------------------------------------------------------- *)
(** * The name extractor ([_extract_donor_names]) *)

Module Extractor.
Import Html.

(** The eight selectors, in the order of the source list. *)
Definition selectors : list selector := [
  (* '#recent_donors_block .profile_block.small .profile_block-content span' *)
  descend [by_id "recent_donors_block"; by_class ["profile_block"; "small"];
           by_class ["profile_block-content"]] (by_tag "span");
  (* '.donor-listing .text-xl' *)
  descend [by_class ["donor-listing"]] (by_class ["text-xl"]);
  (* '.donor-listing .donor-name' *)
  descend [by_class ["donor-listing"]] (by_class ["donor-name"]);
  (* '.donor .name' *)
  descend [by_class ["donor"]] (by_class ["name"]);
  (* '.donor-name' *)
  descend [] (by_class ["donor-name"]);
  (* '.donor_name' *)
  descend [] (by_class ["donor_name"]);
  (* '.campaign-donor .name' *)
  descend [by_class ["campaign-donor"]] (by_class ["name"]);
  (* '.profile_block-content span' *)
  descend [by_class ["profile_block-content"]] (by_tag "span")
].

(** "table#all-table tr.leaderboard-row" *)
Definition row_selector : selector :=
  descend [by_tag_id "table" "all-table"] (by_tag_class "tr" ["leaderboard-row"]).

(** The two accumulators of the function: the list [names] and the set
    [seen]. *)
Record acc : Type := { names : list string; seen : list string }.

Definition empty : acc := {| names := []; seen := [] |}.

(** [name in seen] *)
Definition mem (name : string) (s : list string) : bool :=
  existsb (String.eqb name) s.

(** The inner function [_add_name]. *)
Definition _add_name (raw : string) (st : acc) : acc :=
  let name := if PyStr.truthy raw then PyStr.strip raw else "" in
  if PyStr.truthy name && negb (mem name (seen st))
  then {| names := (names st ++ [name])%list; seen := name :: seen st |}
  else st.

(** The first loop: every selector in turn, every node it selects. *)
Definition selector_loop (f : soup) (st : acc) : acc :=
  fold_left
    (fun st sel =>
       fold_left (fun st n => _add_name (get_text "" n) st) (select sel f) st)
    selectors st.

(** One row of the "all donors" table. *)
Definition row_step (st : acc) (row : node) : acc :=
  match find (fun a => String.eqb (tag a) "td") row with
  | None => st
  | Some first_col =>
      match find (fun a => String.eqb (tag a) "div" && has_class a "col-sm-6") first_col with
      | Some name_div => _add_name (get_text " " name_div) st
      | None => _add_name (get_text " " first_col) st
      end
  end.

Definition row_loop (f : soup) (st : acc) : acc :=
  fold_left row_step (select row_selector f) st.

Definition _extract_donor_names (f : soup) : list string :=
  names (row_loop f (selector_loop f empty)).

(** ** The same, seen as a list of candidates

    The raw texts handed to [_add_name], in the order of the calls. *)
Definition row_candidate (row : node) : list string :=
  match find (fun a => String.eqb (tag a) "td") row with
  | None => []
  | Some first_col =>
      match find (fun a => String.eqb (tag a) "div" && has_class a "col-sm-6") first_col with
      | Some name_div => [get_text " " name_div]
      | None => [get_text " " first_col]
      end
  end.

Definition candidates (f : soup) : list string :=
  (flat_map (fun sel => map (get_text "") (select sel f)) selectors
   ++ flat_map row_candidate (select row_selector f))%list.

(** What [_add_name] makes of a raw text before it tests it. *)
Definition normalize (raw : string) : string :=
  if PyStr.truthy raw then PyStr.strip raw else "".

(** Keep the first occurrence of every string: the head stays, and its
    later copies are removed from what the rest yields. *)
Fixpoint dedup_first (l : list string) : list string :=
  match l with
  | [] => []
  | x :: r => x :: List.filter (fun y => negb (String.eqb x y)) (dedup_first r)
  end.

(** [_add_name] called on a list of raw texts in turn. *)
Definition add_all (raws : list string) (st : acc) : acc :=
  fold_left (fun st raw => _add_name raw st) raws st.

(** The names a list of raw texts yields: normalized, the empty ones
    dropped. *)
Definition clean (raws : list string) : list string :=
  List.filter PyStr.truthy (map normalize raws).

(** The set [seen] holds exactly the members of [names]. *)
Definition consistent (st : acc) : Prop :=
  forall y, mem y (seen st) = mem y (names st).

(** For comparison, the order the spec's words attribute to the
    extractor ("first-occurrence document order, independent of which
    selector matched"): the elements are visited once in document order,
    and an element contributes its text when any selector matches it. *)
Definition document_order_candidates (f : soup) : list string :=
  flat_map
    (fun '(anc, n) =>
       ((if existsb (fun sel => matches sel anc n) selectors
         then [get_text "" n] else [])
        ++ (if matches row_selector anc n then row_candidate n else []))%list)
    (elements [] f).

Definition document_order_names (f : soup) : list string :=
  dedup_first (clean (document_order_candidates f)).

End Extractor.

(* ------------------------------------------------------------------------- *)
(** * The two regular expressions of [_find_campaign_id]

    Both have the shape [literal (\d+) literal], and in both the literal
    after the group starts with a character that is not a digit, so the
    greedy [\d+] takes the whole run of digits and backtracking into it
    cannot produce a match.  On Latin-1 text [\d] is ['0'..'9']. *)

Module Re.

(** What follows [lit] in [s], when [s] starts with [lit]. *)
Fixpoint after_prefix (lit s : string) : option string :=
  match lit with
  | EmptyString => Some s
  | String c lit' =>
      match s with
      | String d s' => if Ascii.eqb c d then after_prefix lit' s' else None
      | EmptyString => None
      end
  end.

(** A match of [pre (\d+) suf] starting at the first character of [s]:
    its group 1. *)
Definition match_here (pre suf s : string) : option string :=
  match after_prefix pre s with
  | None => None
  | Some r =>
      let '(ds, r') := PyStr.span PyStr.is_ascii_digit r in
      if PyStr.truthy ds then
        match after_prefix suf r' with
        | Some _ => Some ds
        | None => None
        end
      else None
  end.

(** [re.search(pre (\d+) suf, s)]: group 1 of the leftmost match. *)
Fixpoint search (pre suf s : string) : option string :=
  match match_here pre suf s with
  | Some g => Some g
  | None =>
      match s with
      | EmptyString => None
      | String _ r => search pre suf r
      end
  end.

(** [r"myModal(\d+)_all"] *)
Definition modal_id (s : string) : option string := search "myModal" "_all" s.

(** [r"/campaigns/(\d+)/campaign_donors\.html"] *)
Definition donors_href (s : string) : option string :=
  search "/campaigns/" "/campaign_donors.html" s.

End Re.

Definition is_some {A : Type} (o : option A) : bool :=
  match o with Some _ => true | None => false end.

(** [_find_campaign_id] *)
Definition _find_campaign_id (f : Html.soup) : option string :=
  let modal :=
    (* soup.find(id=re.compile(...)) *)
    List.find (fun a => match Html.id a with
                        | Some i => is_some (Re.modal_id i)
                        | None => false
                        end)
              (Html.find_all (fun _ => true) f) in
  let from_modal :=
    match modal with
    | Some a =>
        match Html.id a with
        | Some i => if PyStr.truthy i then Re.modal_id i else None
        | None => None
        end
    | None => None
    end in
  match from_modal with
  | Some g => Some g
  | None =>
      (* for a in soup.find_all("a", href=True) *)
      let anchors :=
        Html.find_all (fun a => String.eqb (Html.tag a) "a" && is_some (Html.href a)) f in
      List.fold_right
        (fun a later =>
           match Html.href a with
           | Some h => match Re.donors_href h with Some g => Some g | None => later end
           | None => later
           end)
        None anchors
  end.

(** The URL of the "all donors" page of a campaign. *)
Definition modal_url (campaign_id : string) : string :=
  "https://give.njit.edu/campaigns/" ++ campaign_id ++ "/campaign_donors.html?show=all".

(* ------------------------------------------------------------------------- *)
(** * The world the pipeline runs in

    A response body and the content of a snapshot file are carried as the
    document they parse to: [write_text] followed by [read_text] gives the
    text back, and [BeautifulSoup] is a function of the text. *)

Inductive file : Type :=
| Missing                         (* path.exists() is false *)
| Unreadable                      (* exists, reading raises *)
| Content (doc : Html.soup).

(** A row of the [donors] table: name and amount. *)
Definition table : Type := list (string * PyFloat.t).

(** What a run may change: the snapshot files, the requests sent so far, and
    the committed content of the [donors] table, which is what every other
    connection reads. *)
Record world : Type := {
  fs : string -> file;
  requests : list string;
  donors : table
}.

(** What a run is given: the environment variables, the outcome of the
    settings query (the row, and in it the [donor_website] column), the
    remote site (the outcome of the n-th request of the run, by URL), the
    paths that cannot be written, and the database operations that fail
    (numbered within one connection: 0 is [sqlite3.connect], then every
    [execute], then [commit]). *)
Record env : Type := {
  getenv : string -> option string;
  settings_row : exc (option (option string));
  remote : nat -> string -> exc Html.soup;
  write_fails : string -> bool;
  db_fault : nat -> bool
}.

(** A computation over a state that may raise; what it did to the state
    before raising stays done. *)
Definition ST (S A : Type) : Type := S -> exc A * S.

Definition ret {S A : Type} (a : A) : ST S A := fun w => (Ret a, w).

Definition lift {S A : Type} (m : exc A) : ST S A := fun w => (m, w).

Definition bindM {S A B : Type} (m : ST S A) (k : A -> ST S B) : ST S B :=
  fun w =>
    match m w with
    | (Ret a, w') => k a w'
    | (Raise e, w') => (Raise e, w')
    end.

(** [try: m except Exception: h] *)
Definition tryM {S A : Type} (m : ST S A) (h : exn -> ST S A) : ST S A :=
  fun w =>
    match m w with
    | (Ret a, w') => (Ret a, w')
    | (Raise e, w') => h e w'
    end.

(** The pipeline runs over the world. *)
Definition M (A : Type) : Type := ST world A.

Notation "x <<- m ;; k" := (bindM m (fun x => k))
  (at level 61, m at next level, right associativity).
Notation "m ;;; k" := (bindM m (fun _ => k))
  (at level 61, right associativity).

Definition update (f : string -> file) (path : string) (v : file) : string -> file :=
  fun p => if String.eqb p path then v else f p.

Section Pipeline.
Variable E : env.

(** [session.get(url, timeout=15)], [raise_for_status()], and the parse of
    the body. *)
Definition session_get (url : string) : M Html.soup :=
  fun w =>
    (remote E (length (requests w)) url,
     {| fs := fs w; requests := (requests w ++ [url])%list; donors := donors w |}).

(** [Path(path).write_text(text)] *)
Definition write_text (path : string) (doc : Html.soup) : M unit :=
  fun w =>
    if write_fails E path then (Raise OSError, w)
    else (Ret tt, {| fs := update (fs w) path (Content doc);
                     requests := requests w; donors := donors w |}).

(** [path.read_text(encoding="utf-8")] and the parse of the text. *)
Definition read_text (path : string) : M Html.soup :=
  fun w =>
    match fs w path with
    | Content doc => (Ret doc, w)
    | _ => (Raise OSError, w)
    end.

(** [path.exists()] *)
Definition path_exists (path : string) : M bool :=
  fun w => (Ret (match fs w path with Missing => false | _ => true end), w).

(** [_cache_response] *)
Definition _cache_response (doc : Html.soup) (path_value : string) : M unit :=
  if negb (PyStr.truthy path_value) then ret tt
  else tryM (write_text path_value doc) (fun _ => ret tt).

(** The loop "deduplicate while preserving order", which the source
    writes out twice: [deduped] and [seen], and the test [keep] made of a
    name before the membership test. *)
Definition dedupe_loop (keep : string -> bool) (l : list string)
           (st : list string * list string) : list string * list string :=
  fold_left
    (fun '(deduped, seen) name =>
       if keep name && negb (Extractor.mem name seen)
       then ((deduped ++ [name])%list, name :: seen)
       else (deduped, seen))
    l st.

(** In [scrape_givecampus_recent_donors]: [if name not in seen]. *)
Definition dedupe (donors : list string) : list string :=
  fst (dedupe_loop (fun _ => true) donors ([], [])).

(** [(name, None)] *)
Definition no_amount (name : string) : string * option string := (name, None).

(** [scrape_givecampus_recent_donors] *)
Definition scrape_givecampus_recent_donors (url : string)
  : M (list (string * option string)) :=
  soup <<- session_get url ;;
  _cache_response soup
    (getenv_default (getenv E) "DONOR_CACHE_MAIN_FILE" "honors-winter-gala.html") ;;;
  let donors := Extractor._extract_donor_names soup in
  donors <<-
    match _find_campaign_id soup with
    | Some campaign_id =>
        if PyStr.truthy campaign_id then
          tryM (modal_soup <<- session_get (modal_url campaign_id) ;;
                _cache_response modal_soup
                  (getenv_default (getenv E) "DONOR_CACHE_MODAL_FILE"
                                  "campaign_donors_72810_all.html") ;;;
                ret (donors ++ Extractor._extract_donor_names modal_soup)%list)
               (fun _ => ret donors)
        else ret donors
    | None => ret donors
    end ;;
  ret (map no_amount (dedupe donors)).

(** The request for the "all donors" page, when one is made: its number
    in the run is [n]. *)
Definition secondary_outcome (n : nat) (soup : Html.soup) : option (exc Html.soup) :=
  match _find_campaign_id soup with
  | Some campaign_id =>
      if PyStr.truthy campaign_id then Some (remote E n (modal_url campaign_id))
      else None
  | None => None
  end.

(** The names the "all donors" page adds: none when it is not requested
    or the request fails. *)
Definition secondary_names (n : nat) (soup : Html.soup) : list string :=
  match secondary_outcome n soup with
  | Some (Ret modal_soup) => Extractor._extract_donor_names modal_soup
  | _ => []
  end.

(** The requests that follow the one for the primary page. *)
Definition secondary_requests (soup : Html.soup) : list string :=
  match _find_campaign_id soup with
  | Some campaign_id => if PyStr.truthy campaign_id then [modal_url campaign_id] else []
  | None => []
  end.

(** In [_load_local_donors]: [if name and name not in seen]. *)
Definition dedupe_truthy (collected : list string) : list string :=
  fst (dedupe_loop PyStr.truthy collected ([], [])).

(** The first loop of [_load_local_donors]: [collected] after the
    candidates. *)
Fixpoint collect (file_candidates : list (option string)) (collected : list string)
  : M (list string) :=
  match file_candidates with
  | [] => ret collected
  | path_str :: rest =>
      match path_str with
      | None => collect rest collected
      | Some path =>
          if negb (PyStr.truthy path) then collect rest collected
          else
            present <<- path_exists path ;;
            if negb present then collect rest collected
            else
              collected' <<-
                tryM (soup <<- read_text path ;;
                      ret (collected ++ Extractor._extract_donor_names soup)%list)
                     (fun _ => ret collected) ;;
              collect rest collected'
      end
  end.

(** The names one candidate contributes in a given state of the files:
    those of its document when it is named, exists and can be read. *)
Definition candidate_names (files : string -> file) (path_str : option string)
  : list string :=
  match path_str with
  | Some path =>
      if PyStr.truthy path then
        match files path with
        | Content doc => Extractor._extract_donor_names doc
        | _ => []
        end
      else []
  | None => []
  end.

(** [_load_local_donors] *)
Definition _load_local_donors (file_candidates : list (option string))
  : M (list string) :=
  collected <<- collect file_candidates [] ;;
  ret (dedupe_truthy collected).

(** ** The destination store *)

(** An open connection: the table as this connection sees it (the
    committed rows and its own uncommitted changes), and the number of
    operations done on it. *)
Record conn : Type := { view : table; ops : nat }.

Definition DB (A : Type) : Type := ST conn A.

Inductive stmt : Type :=
| DeleteDonors                                    (* DELETE FROM donors *)
| InsertDonor (name : string) (amount : PyFloat.t). (* INSERT INTO donors ... *)

Definition apply_stmt (s : stmt) (t : table) : table :=
  match s with
  | DeleteDonors => []
  | InsertDonor name amount => (t ++ [(name, amount)])%list
  end.

(** [c.execute(...)] *)
Definition execute (s : stmt) : DB unit :=
  fun c =>
    if db_fault E (ops c)
    then (Raise DatabaseError, {| view := view c; ops := S (ops c) |})
    else (Ret tt, {| view := apply_stmt s (view c); ops := S (ops c) |}).

(** [with get_db() as conn: body] of [src/db.py]: connect, run the body,
    commit; on any exception roll back and raise it again. *)
Definition get_db {A : Type} (body : DB A) : M A :=
  fun w =>
    if db_fault E 0 then (Raise DatabaseError, w)
    else
      match body {| view := donors w; ops := 1 |} with
      | (Ret a, c) =>
          if db_fault E (ops c) then (Raise DatabaseError, w)
          else (Ret a, {| fs := fs w; requests := requests w; donors := view c |})
      | (Raise e, _) => (Raise e, w)
      end.

(** ** The sync entry point *)

(** The body of the [for] loop over [donors_list]. *)
Fixpoint insert_loop (donors_list : list (string * option string)) : DB unit :=
  match donors_list with
  | [] => ret tt
  | (name, amount) :: rest =>
      if negb (PyStr.truthy name) then insert_loop rest
      else
        numeric_amount <<- lift (parse_amount_to_number amount) ;;
        execute (InsertDonor name numeric_amount) ;;;
        insert_loop rest
  end.

(** What the route returns: the HTTP status and the JSON body. *)
Record response : Type := {
  status : nat;
  message : string;
  donors_count : option nat
}.

Definition no_data : response :=
  {| status := 400; message := "No donor data found from configured source.";
     donors_count := None |}.

Definition success (count : nat) : response :=
  {| status := 200; message := "Donors scraped successfully.";
     donors_count := Some count |}.

Definition local_candidates : list (option string) := [
  getenv E "DONOR_LOCAL_MODAL_FILE";
  getenv E "DONOR_LOCAL_FILE";
  getenv E "DONOR_CACHE_MODAL_FILE";
  getenv E "DONOR_CACHE_MAIN_FILE";
  Some "campaign_donors_72810_all.html";
  Some "honors-winter-gala.html"
].

Definition is_empty {A : Type} (l : list A) : bool :=
  match l with [] => true | _ => false end.

(** The remote step: [donors_list] after it. *)
Definition remote_step (row : option (option string))
  : M (list (string * option string)) :=
  match row with
  | Some (Some donor_website) =>
      if PyStr.truthy donor_website
      then tryM (scrape_givecampus_recent_donors donor_website) (fun _ => ret [])
      else ret []
  | _ => ret []
  end.

(** The fallback step. *)
Definition fallback_step (donors_list : list (string * option string))
  : M (list (string * option string)) :=
  if is_empty donors_list then
    local_names <<- _load_local_donors local_candidates ;;
    ret (donors_list ++ map no_amount local_names)%list
  else ret donors_list.

(** The write: one [with get_db()] block. *)
Definition replace_donors (donors_list : list (string * option string)) : M unit :=
  get_db (execute DeleteDonors ;;; insert_loop donors_list).

(** The rows the write inserts: one for every tuple with a non-empty
    name, its amount normalized. *)
Definition rows (donors_list : list (string * option string)) : table :=
  map (fun '(name, amount) => (name, amount_value amount))
      (List.filter (fun '(name, _) => PyStr.truthy name) donors_list).

(** The result set after the remote step and the fallback step. *)
Definition gather : M (list (string * option string)) :=
  row <<- lift (settings_row E) ;;
  donors_list <<- remote_step row ;;
  fallback_step donors_list.

(** [scrape_donors]; an exception that leaves it becomes the framework's
    error response. *)
Definition scrape_donors : M response :=
  row <<- lift (settings_row E) ;;
  donors_list <<- remote_step row ;;
  donors_list <<- fallback_step donors_list ;;
  if is_empty donors_list then ret no_data
  else
    replace_donors donors_list ;;;
    ret (success (length donors_list)).

End Pipeline.

(** What the two steps hand to the write: names without amounts, non-empty
    and pairwise distinct. *)
Definition well_formed (donors_list : list (string * option string)) : Prop :=
  exists names,
    donors_list = map no_amount names
    /\ Forall (fun n => PyStr.truthy n = true) names /\ NoDup names.

(* ------------------------------------------------------------------------- *)
(** * Sample documents *)

Module Samples.
Import Html.

(** [<span class="donor-name">Alice</span>
     <div class="donor-listing"><span class="text-xl">Bob</span></div>] *)
Definition alice_before_bob : soup := [
  el "span" ["donor-name"] [Text "Alice"];
  el "div" ["donor-listing"] [el "span" ["text-xl"] [Text "Bob"]]
].

End Samples.

(** A campaign whose primary page holds the modal id [myModal501_all] and
    two names, and whose "all donors" page holds three names, one of them
    shared; a run, and a world with one donor record and no snapshot file. *)
Module Scenario.
Import Html.

Definition primary_url : string := "https://giving.example.org/winter-gala".

Definition primary_page : soup := [
  el_id "div" "myModal501_all" [];
  el "div" ["donor-listing"] [
    el "span" ["donor-name"] [Text " Ann Lee "];
    el "span" ["donor-name"] [Text "Ben Ode"]
  ]
].

Definition modal_page : soup := [
  el_id "table" "all-table" [
    el "tr" ["leaderboard-row"] [el "td" [] [el "div" ["col-sm-6"] [Text "Ben Ode"]]];
    el "tr" ["leaderboard-row"] [el "td" [] [el "div" ["col-sm-6"] [Text "Cy Day"]]];
    el "tr" ["leaderboard-row"] [el "td" [] [Text "Di Eng"]]
  ]
].

(** A snapshot file with five names. *)
Definition five_names : soup := [
  el "div" ["donor-listing"]
     (map (fun n => el "span" ["donor-name"] [Text n])
          ["Ann Lee"; "Ben Ode"; "Cy Day"; "Di Eng"; "Ed Fox"])
].

(** The site: the primary page is served; the "all donors" page is served
    when [modal_up], and times out otherwise. *)
Definition site (modal_up : bool) (n : nat) (url : string) : exc soup :=
  if String.eqb url primary_url then Ret primary_page
  else if String.eqb url (modal_url "501") && modal_up then Ret modal_page
  else Raise RequestError.

Definition run (website : option string) (remote : nat -> string -> exc soup)
           (faults : nat -> bool) : env :=
  {| getenv := fun _ => None;
     settings_row := Ret (Some website);
     remote := remote;
     write_fails := fun _ => false;
     db_fault := faults |}.

Definition old_rows : table := [("Old Donor", PyFloat.Fin 25)].

Definition no_files : world :=
  {| fs := fun _ => Missing; requests := []; donors := old_rows |}.

Definition with_snapshot : world :=
  {| fs := fun p => if String.eqb p "honors-winter-gala.html"
                    then Content five_names else Missing;
     requests := []; donors := old_rows |}.

Definition never (n : nat) : bool := false.

Definition offline (n : nat) (url : string) : exc soup := Raise RequestError.

End Scenario.

(* ------------------------------------------------------------------------- *)
(** * The donor list API ([get_donors] of [src/donor/routes.py])

    [page] and [per_page] are the integers [request.args.get(..., type=int)]
    hands to the function.  The rows of the table are in rowid order, which
    is the order the [SELECT] without [ORDER BY] returns them in. *)

Module Api.

(** A Python [int] bound to a statement parameter must fit SQLite's 64-bit
    integer; [sqlite3] raises [OverflowError] otherwise. *)
Definition fits_int64 (n : Z) : bool :=
  (- 2 ^ 63 <=? n) && (n <? 2 ^ 63).

(** [OFFSET n]: a negative offset counts as zero. *)
Definition sql_offset {A : Type} (n : Z) (l : list A) : list A :=
  skipn (Z.to_nat n) l.

(** [LIMIT n]: a negative limit is no limit. *)
Definition sql_limit {A : Type} (n : Z) (l : list A) : list A :=
  if n <? 0 then l else firstn (Z.to_nat n) l.

(** [get_donors]: the rows of the JSON list. *)
Definition get_donors (page per_page : Z) (t : table) : exc table :=
  let offset := (page - 1) * per_page in
  if fits_int64 per_page && fits_int64 offset
  then Ret (sql_limit per_page (sql_offset offset t))
  else Raise OverflowError.

(** The rows of the pages [1 .. k], one page after the other. *)
Definition pages (k : nat) (per_page : Z) (t : table) : list (exc table) :=
  map (fun p => get_donors (Z.of_nat p) per_page t) (seq 1 k).

End Api.

(* ------------------------------------------------------------------------- *)
(** * Upload file names ([allowed_file] of [src/admin/routes.py]) *)

Module Upload.

(** [str.lower] on a Latin-1 code point: the ASCII capitals and the
    capitals U+00C0..U+00DE, the multiplication sign U+00D7 left out. *)
Definition lower_char (c : ascii) : ascii :=
  let n := PyStr.code c in
  if ((65 <=? n) && (n <=? 90)
      || (192 <=? n) && (n <=? 222) && negb (n =? 215))%N
  then ascii_of_N (n + 32) else c.

Fixpoint lower (s : string) : string :=
  match s with
  | EmptyString => EmptyString
  | String c r => String (lower_char c) (lower r)
  end.

(** ['.' in s] *)
Fixpoint has_dot (s : string) : bool :=
  match s with
  | EmptyString => false
  | String c r => Ascii.eqb c "." || has_dot r
  end.

(** [s.rsplit('.', 1)[1]]: what follows the last period of [s]; [None]
    when [s] has no period (the list has one element then). *)
Fixpoint after_last_dot (s : string) : option string :=
  match s with
  | EmptyString => None
  | String c r =>
      match after_last_dot r with
      | Some ext => Some ext
      | None => if Ascii.eqb c "." then Some r else None
      end
  end.

Definition ALLOWED_EXTENSIONS : list string := ["png"; "jpg"; "jpeg"; "gif"].

Definition allowed_file (filename : string) : bool :=
  has_dot filename
  && match after_last_dot filename with
     | Some ext => existsb (String.eqb (lower ext)) ALLOWED_EXTENSIONS
     | None => false   (* not reached: the list has two elements when there is a period *)
     end.

End Upload.

(* ------------------------------------------------------------------------- *)
(** * The admin screens for donors ([src/admin/routes.py])

    Here the [donors] table is seen with its [id] column.  The column is
    [INTEGER PRIMARY KEY AUTOINCREMENT]: a new row gets an id one above the
    largest id the table ever held, which SQLite keeps in [sqlite_sequence]
    and which no [DELETE] lowers. *)

Module Admin.

Record donor : Type := { did : Z; dname : string; damount : PyFloat.t }.

(** The committed state: the rows in rowid order and the sequence value. *)
Record store : Type := { drows : list donor; last_id : Z }.

(** An open connection: what it sees, what is committed, and the number of
    operations done on it.  [fault n] says that operation [n] raises; 0 is
    [sqlite3.connect], the others are the [execute] and [commit] calls in
    the order they are made. *)
Record conn : Type := { seen : store; committed : store; nops : nat }.

Definition DB (A : Type) : Type := ST conn A.

Section Handlers.
Variable fault : nat -> bool.

(** [c.execute(...)] of a statement that changes the table by [f]. *)
Definition execute (f : store -> store) : DB unit :=
  fun c =>
    if fault (nops c)
    then (Raise DatabaseError,
          {| seen := seen c; committed := committed c; nops := S (nops c) |})
    else (Ret tt,
          {| seen := f (seen c); committed := committed c; nops := S (nops c) |}).

(** [c.execute('SELECT ...')] followed by [fetchall()] or [fetchone()]. *)
Definition query {A : Type} (q : store -> A) : DB A :=
  fun c =>
    if fault (nops c)
    then (Raise DatabaseError,
          {| seen := seen c; committed := committed c; nops := S (nops c) |})
    else (Ret (q (seen c)),
          {| seen := seen c; committed := committed c; nops := S (nops c) |}).

(** [conn.commit()] *)
Definition commit : DB unit :=
  fun c =>
    if fault (nops c)
    then (Raise DatabaseError,
          {| seen := seen c; committed := committed c; nops := S (nops c) |})
    else (Ret tt,
          {| seen := seen c; committed := seen c; nops := S (nops c) |}).

(** [with get_db() as conn: body]: the outcome and the committed state
    afterwards.  The rollback gives up what was not committed. *)
Definition get_db {A : Type} (body : DB A) (s : store) : exc A * store :=
  if fault 0 then (Raise DatabaseError, s)
  else
    match body {| seen := s; committed := s; nops := 1 |} with
    | (Ret a, c) =>
        if fault (nops c) then (Raise DatabaseError, committed c)
        else (Ret a, seen c)
    | (Raise e, c) => (Raise e, committed c)
    end.

(** [INSERT INTO donors (name, amount) VALUES (?, ?)] *)
Definition insert_donor (name : string) (amount : PyFloat.t) (s : store) : store :=
  {| drows := (drows s ++ [{| did := last_id s + 1; dname := name; damount := amount |}])%list;
     last_id := last_id s + 1 |}.

(** [DELETE FROM donors WHERE id = ?] *)
Definition delete_where (donor_id : Z) (s : store) : store :=
  {| drows := List.filter (fun d => negb (did d =? donor_id)) (drows s);
     last_id := last_id s |}.

(** [UPDATE donors SET name = ?, amount = ? WHERE id = ?] *)
Definition update_where (donor_id : Z) (name : string) (amount : PyFloat.t) (s : store)
  : store :=
  {| drows := map (fun d => if did d =? donor_id
                            then {| did := did d; dname := name; damount := amount |}
                            else d)
                  (drows s);
     last_id := last_id s |}.

(** [SELECT id, name, amount FROM donors WHERE id = ?] and [fetchone()] *)
Definition select_one (donor_id : Z) (s : store) : option donor :=
  List.find (fun d => did d =? donor_id) (drows s).

(** Python truthiness of [request.form.get('name')]. *)
Definition given (name : option string) : option string :=
  match name with
  | Some n => if PyStr.truthy n then Some n else None
  | None => None
  end.

(** The form of a POST request: [request.form.get('name')] and
    [request.form.get('amount', '')]. *)
Record form : Type := { f_name : option string; f_amount : string }.

(** [manage_donors]: [post] is the form of a POST request, [None] a GET
    request; the result is the list handed to the template. *)
Definition manage_donors (post : option form) : store -> exc (list donor) * store :=
  get_db
    (match post with
     | Some f =>
         amount <<- lift (_parse_amount (Some (f_amount f))) ;;
         match given (f_name f) with
         | Some name => execute (insert_donor name amount) ;;; commit
         | None => ret tt
         end
     | None => ret tt
     end ;;;
     query drows).

(** [delete_donor] *)
Definition delete_donor (donor_id : Z) : store -> exc unit * store :=
  get_db (execute (delete_where donor_id) ;;; commit).

(** [edit_donor]: [inl tt] is the redirect after an update, [inr d] the
    donor handed to the edit template. *)
Definition edit_donor (donor_id : Z) (post : option form)
  : store -> exc (unit + option donor) * store :=
  get_db
    (match post with
     | Some f =>
         amount <<- lift (_parse_amount (Some (f_amount f))) ;;
         match given (f_name f) with
         | Some name =>
             execute (update_where donor_id name amount) ;;; commit ;;; ret (inl tt)
         | None => d <<- query (select_one donor_id) ;; ret (inr d)
         end
     | None => d <<- query (select_one donor_id) ;; ret (inr d)
     end).

End Handlers.

(** The ids grow along the rows and none exceeds the sequence value. *)
Fixpoint increasing (l : list donor) : Prop :=
  match l with
  | [] => True
  | d :: r => Forall (fun d' => did d < did d') r /\ increasing r
  end.

Definition well_formed (s : store) : Prop :=
  increasing (drows s) /\ Forall (fun d => did d <= last_id s) (drows s).

(** The value [_parse_amount] returns for the text of the amount field. *)
Definition amount_of (text : string) : PyFloat.t :=
  match FloatParse.float (PyStr.strip text) with
  | Some x => if String.eqb (PyStr.strip text) "None" then PyFloat.zero else x
  | None => PyFloat.zero
  end.

Definition no_fault (n : nat) : bool := false.

End Admin.

(** A donors table with two rows left after deletions. *)
Module AdminScenario.

Definition two_rows : Admin.store :=
  {| Admin.drows :=
       [{| Admin.did := 2; Admin.dname := "Ann Lee"; Admin.damount := PyFloat.Fin 50 |};
        {| Admin.did := 5; Admin.dname := "Ben Ode"; Admin.damount := PyFloat.zero |}];
     Admin.last_id := 7 |}.

Definition cy : Admin.form :=
  {| Admin.f_name := Some "Cy Day"; Admin.f_amount := " 12.5 " |}.

(** The listing query of [manage_donors] fails; everything before works. *)
Definition listing_fails (n : nat) : bool := Nat.eqb n 3.

End AdminScenario.

(* ------------------------------------------------------------------------- *)
(** * The database schema ([_ensure_settings_schema] and [init_db] of
      [src/db.py])

    The run modelled is the one in which no statement fails. *)

Module Schema.

Inductive value : Type :=
| VInt (n : Z)
| VText (s : string).

(** A row of [settings] without its id: one entry per column of the table,
    in the order of the columns; [None] is NULL. *)
Definition row : Type := list (string * option value).

Record settings_table : Type := { cols : list string; srows : list (Z * row) }.

Record user : Type := {
  uid : Z; username : string; password_hash : string; is_admin : Z
}.

Record users_table : Type := { urows : list user; useq : Z }.

(** The three tables; [None] when the table does not exist. *)
Record database : Type := {
  donors_t : option Admin.store;
  settings_t : option settings_table;
  users_t : option users_table
}.

(** The value of column [c] in a row. *)
Definition get (c : string) (r : row) : option value :=
  match List.find (fun '(k, _) => String.eqb k c) r with
  | Some (_, v) => v
  | None => None
  end.

(** The row with id 1. *)
Definition row1 (t : settings_table) : option row :=
  match List.find (fun '(i, _) => i =? 1) (srows t) with
  | Some (_, r) => Some r
  | None => None
  end.

Section Init.
Variable getenv : string -> option string.
Variable pbkdf2_hash : string -> string.

Definition SETTINGS_DEFAULTS : list (string * value) := [
  ("background_image", VText "default.jpg");
  ("font_size", VInt 24);
  ("scroll_speed", VInt 50);
  ("google_sheet_id", VText (getenv_default getenv "GOOGLE_SHEET_ID" ""));
  ("donor_website", VText (getenv_default getenv "DONOR_WEBSITE_URL" ""));
  ("font_color", VText "#FFFFFF");
  ("scroll_direction", VText "up");
  ("scroll_position", VText "center");
  ("scroll_width", VInt 300);
  ("scroll_height", VInt 500)
].

Definition SETTINGS_COLUMNS : list (string * string) := [
  ("background_image", "TEXT");
  ("font_size", "INTEGER");
  ("scroll_speed", "INTEGER");
  ("google_sheet_id", "TEXT");
  ("donor_website", "TEXT");
  ("font_color", "TEXT");
  ("scroll_direction", "TEXT");
  ("scroll_position", "TEXT");
  ("scroll_width", "INTEGER");
  ("scroll_height", "INTEGER")
].

(** [SETTINGS_DEFAULTS[c]] *)
Definition default_of (c : string) : option value :=
  match List.find (fun '(k, _) => String.eqb k c) SETTINGS_DEFAULTS with
  | Some (_, v) => Some v
  | None => None
  end.

(** [CREATE TABLE IF NOT EXISTS settings (...)] *)
Definition create_settings (t : option settings_table) : settings_table :=
  match t with
  | Some t => t
  | None => {| cols := map fst SETTINGS_COLUMNS; srows := [] |}
  end.

(** [ALTER TABLE settings ADD COLUMN c]: the rows get NULL in it. *)
Definition add_column (c : string) (t : settings_table) : settings_table :=
  {| cols := (cols t ++ [c])%list;
     srows := map (fun '(i, r) => (i, (r ++ [(c, None)])%list)) (srows t) |}.

(** The loop over [SETTINGS_COLUMNS]; [existing_columns] is read once,
    before the loop. *)
Definition add_missing_columns (t : settings_table) : settings_table :=
  let existing_columns := cols t in
  fold_left
    (fun t '(column_name, _) =>
       if existsb (String.eqb column_name) existing_columns then t
       else add_column column_name t)
    SETTINGS_COLUMNS t.

(** [INSERT OR IGNORE INTO settings (id, ...) VALUES (1, ...)]: nothing
    happens when the row with id 1 exists; a column the statement does not
    name gets NULL. *)
Definition insert_or_ignore (t : settings_table) : settings_table :=
  if existsb (fun '(i, _) => i =? 1) (srows t) then t
  else {| cols := cols t;
          srows := (srows t ++ [(1, map (fun c => (c, default_of c)) (cols t))])%list |}.

(** [COALESCE(c, ?)] on the entries of one row. *)
Definition coalesce_row (c : string) (d : value) (r : row) : row :=
  map (fun '(k, v) =>
         if String.eqb k c
         then (k, match v with Some x => Some x | None => Some d end)
         else (k, v))
      r.

(** [UPDATE settings SET c = COALESCE(c, ?) WHERE id = 1] *)
Definition coalesce (c : string) (d : value) (t : settings_table) : settings_table :=
  {| cols := cols t;
     srows := map (fun '(i, r) => if i =? 1 then (i, coalesce_row c d r) else (i, r))
                  (srows t) |}.

Definition backfill (t : settings_table) : settings_table :=
  fold_left (fun t '(column_name, default_value) => coalesce column_name default_value t)
            SETTINGS_DEFAULTS t.

(** What the backfill makes of a row: every NULL in a column that has a
    default becomes the default. *)
Definition fill_row (r : row) : row :=
  map (fun '(k, v) => (k, match v with Some x => Some x | None => default_of k end)) r.

(** The columns [add_missing_columns] adds to a table with the columns
    [existing]. *)
Definition missing_columns (existing : list string) : list string :=
  List.filter (fun c => negb (existsb (String.eqb c) existing)) (map fst SETTINGS_COLUMNS).

(** [_ensure_settings_schema] *)
Definition _ensure_settings_schema (t : option settings_table) : settings_table :=
  backfill (insert_or_ignore (add_missing_columns (create_settings t))).

(** The users part of [init_db]: the table is created when missing, and the
    default admin when the table has no row. *)
Definition ensure_users (t : option users_table) : users_table :=
  let t := match t with Some t => t | None => {| urows := []; useq := 0 |} end in
  if (length (urows t) =? 0)%nat then
    let default_password :=
      getenv_default getenv "ADMIN_DEFAULT_PASSWORD" "change-me-please" in
    {| urows := (urows t ++ [{| uid := useq t + 1; username := "admin";
                               password_hash := pbkdf2_hash default_password;
                               is_admin := 1 |}])%list;
       useq := useq t + 1 |}
  else t.

(** [init_db] *)
Definition init_db (d : database) : database :=
  {| donors_t :=
       Some (match donors_t d with
             | Some s => s
             | None => {| Admin.drows := []; Admin.last_id := 0 |}
             end);
     settings_t := Some (_ensure_settings_schema (settings_t d));
     users_t := Some (ensure_users (users_t d)) |}.

End Init.

(** Every row has one entry per column, in the order of the columns. *)
Definition aligned (t : settings_table) : Prop :=
  Forall (fun '(_, r) => map fst r = cols t) (srows t).

Definition empty_database : database :=
  {| donors_t := None; settings_t := None; users_t := None |}.

(** The value stored in column [c] of the settings row 1; [None] when the
    table, the row or the column is missing, or the value is NULL. *)
Definition stored (d : database) (c : string) : option value :=
  match settings_t d with
  | Some t => match row1 t with Some r => get c r | None => None end
  | None => None
  end.

(** Whether the table has a row with id 1. *)
Definition has_row1 (t : settings_table) : bool :=
  existsb (fun '(i, _) => i =? 1) (srows t).

Definition has_key (c : string) (r : row) : bool :=
  existsb (fun '(k, _) => String.eqb k c) r.

(** A database of an older version: [settings] has two columns only, one
    value is set and one is NULL; there are no users. *)
Definition legacy : database :=
  {| donors_t := None;
     settings_t :=
       Some {| cols := ["background_image"; "font_size"];
               srows := [(1, [("background_image", Some (VText "gala.png"));
                              ("font_size", None)])] |};
     users_t := Some {| urows := []; useq := 3 |} |}.

End Schema.

(* ------------------------------------------------------------------------- *)
(** * Login, logout and the admin guard ([src/auth/routes.py],
      [admin_required] of [src/admin/routes.py])

    Of the session only the keys the code reads and writes are kept:
    [user_id] and [is_admin]; [None] is a key that is not in the session. *)

Module Auth.

Record session : Type := { user_id : option Z; is_admin : option bool }.

Definition no_session : session := {| user_id := None; is_admin := None |}.

(** The pages a request ends on. *)
Inductive page : Type :=
| LoginPage          (* render_template('login.html') or redirect to auth.login *)
| ConfigRedirect     (* redirect(url_for('admin.config_index')) *)
| Handler.           (* the wrapped view runs *)

Section Routes.
(** [pbkdf2_sha256.verify(password, password_hash)]; it raises on a
    password that is not a string and on a malformed hash. *)
Variable verify : option string -> string -> exc bool.

(** [SELECT ... FROM users WHERE username = ?] and [fetchone()]; a null
    username matches no row. *)
Definition find_user (users : list Schema.user) (username : option string)
  : option Schema.user :=
  match username with
  | Some u => List.find (fun r => String.eqb (Schema.username r) u) users
  | None => None
  end.

(** [login]: [post] is the form of a POST request ([username],
    [password]), [None] a GET request. *)
Definition login (post : option (option string * option string))
           (users : list Schema.user) (s : session) : exc page * session :=
  match post with
  | None => (Ret LoginPage, s)
  | Some (username, password) =>
      match find_user users username with
      | None => (Ret LoginPage, s)
      | Some row =>
          match verify password (Schema.password_hash row) with
          | Raise e => (Raise e, s)
          | Ret true =>
              (Ret ConfigRedirect,
               {| user_id := Some (Schema.uid row);
                  is_admin := Some (negb (Schema.is_admin row =? 0)) |})
          | Ret false => (Ret LoginPage, s)
          end
      end
  end.

(** [logout]: [session.clear()] *)
Definition logout (s : session) : page * session := (LoginPage, no_session).

End Routes.

(** [admin_required]: the wrapped view runs when [user_id] is in the
    session and [session.get('is_admin')] is true. *)
Definition admin_required (s : session) : page :=
  match user_id s, is_admin s with
  | Some _, Some true => Handler
  | _, _ => LoginPage
  end.

(** A password check that compares the password with the stored text. *)
Definition plain_verify (password : option string) (password_hash : string) : exc bool :=
  match password with
  | Some p => Ret (String.eqb p password_hash)
  | None => Raise ValueError
  end.

Definition two_users : list Schema.user := [
  {| Schema.uid := 1; Schema.username := "admin"; Schema.password_hash := "s3cret";
     Schema.is_admin := 1 |};
  {| Schema.uid := 2; Schema.username := "guest"; Schema.password_hash := "guest";
     Schema.is_admin := 0 |}
].

End Auth.

(* ------------------------------------------------------------------------- *)
(** * The static-page scraper ([scrape_donors_from_page] of
      [src/donor/routes.py]) *)

Module StaticPage.
Import Html.

(** [node.select(c)] for a compound selector [c]: the descendants of the
    node that match it, in document order. *)
Definition select_within (c : compound) (n : node) : list node :=
  List.filter (fun d => match attrs_of d with
                        | Some a => matches_compound c a
                        | None => false
                        end)
              (descendants n).

(** [node.select_one(c)] *)
Definition select_one_within (c : compound) (n : node) : option node :=
  hd_error (select_within c n).

(** [div.get_text(strip=True) if div else None] *)
Definition text_of (div : option node) : option string :=
  option_map (get_text "") div.

(** The tuple of one entry. *)
Definition entry_tuple (entry : node) : option string * option string :=
  (text_of (select_one_within (by_class ["text-xl"]) entry),
   text_of (select_one_within (by_class ["gg-branding-supporting"; "text-xl"]) entry)).

(** [scrape_donors_from_page]; [requests.get(url)] and
    [raise_for_status()] are the request of the run's remote site. *)
Definition scrape_donors_from_page (E : env) (url : string)
  : M (list (option string * option string)) :=
  soup <<- session_get E url ;;
  match hd_error (select (descend [] (by_id "profile-recent-donors")) soup) with
  | None => ret []
  | Some recent_donors_section =>
      ret (map entry_tuple
               (select_within (by_class ["donor-listing"; "mb-2"]) recent_donors_section))
  end.

(** An entry whose amount element comes before its name element. *)
Definition amount_first : soup := [
  el_id "div" "profile-recent-donors" [
    el "div" ["donor-listing"; "mb-2"] [
      el "div" ["gg-branding-supporting"; "text-xl"] [Text "$25"];
      el "div" ["text-xl"] [Text "Ann Lee"]
    ]
  ]
].

End StaticPage.

(* ------------------------------------------------------------------------- *)
(** * The settings form ([config_index] of [src/admin/routes.py])

    The nine values the POST branch hands to its [UPDATE]: each is the
    form's value when that is truthy, and the current one otherwise
    ([form_value or current_settings[i]]). *)

Module Config.

(** The nine settings: as read from the row ([None] is NULL) and as the
    form gives them ([None]: the field is missing, or [type=int] could not
    convert it). *)
Record settings : Type := {
  font_size : option Z;
  font_color : option string;
  scroll_speed : option Z;
  scroll_direction : option string;
  scroll_position : option string;
  google_sheet_id : option string;
  donor_website : option string;
  scroll_width : option Z;
  scroll_height : option Z
}.

(** Python truthiness of an optional [int] and of an optional [str]. *)
Definition truthy_int (x : option Z) : bool :=
  match x with Some n => negb (n =? 0) | None => false end.

Definition truthy_text (x : option string) : bool :=
  match x with Some s => PyStr.truthy s | None => false end.

(** [x or y] *)
Definition or_int (x y : option Z) : option Z := if truthy_int x then x else y.
Definition or_text (x y : option string) : option string := if truthy_text x then x else y.

(** The values of the [UPDATE]. *)
Definition resolve (form current : settings) : settings :=
  {| font_size := or_int (font_size form) (font_size current);
     font_color := or_text (font_color form) (font_color current);
     scroll_speed := or_int (scroll_speed form) (scroll_speed current);
     scroll_direction := or_text (scroll_direction form) (scroll_direction current);
     scroll_position := or_text (scroll_position form) (scroll_position current);
     google_sheet_id := or_text (google_sheet_id form) (google_sheet_id current);
     donor_website := or_text (donor_website form) (donor_website current);
     scroll_width := or_int (scroll_width form) (scroll_width current);
     scroll_height := or_int (scroll_height form) (scroll_height current) |}.

(** The settings that are set (truthy), as nine booleans. *)
Definition which_set (s : settings) : list bool := [
  truthy_int (font_size s); truthy_text (font_color s); truthy_int (scroll_speed s);
  truthy_text (scroll_direction s); truthy_text (scroll_position s);
  truthy_text (google_sheet_id s); truthy_text (donor_website s);
  truthy_int (scroll_width s); truthy_int (scroll_height s)
].

End Config.

(* ========================================================================= *)
(** * Properties *)

Open Scope list_scope.

(* ------------------------------------------------------------------------- *)
(** ** Strings *)

Section StringFacts.
Import PyStr.
Variable p : ascii -> bool.

Lemma forallb_lstrip_by (q : ascii -> bool) (s : string) :
  forallb p s = true -> forallb p (lstrip_by q s) = true.
Proof.
  induction s as [|c r IH]; simpl; intro H; [reflexivity|].
  apply andb_true_iff in H as [Hc Hr].
  destruct (q c); [auto | simpl; now rewrite Hc, Hr].
Qed.

Lemma forallb_rstrip_by (q : ascii -> bool) (s : string) :
  forallb p s = true -> forallb p (rstrip_by q s) = true.
Proof.
  induction s as [|c r IH]; simpl; intro H; [reflexivity|].
  apply andb_true_iff in H as [Hc Hr]. specialize (IH Hr).
  destruct (rstrip_by q r) as [|c' r'].
  - destruct (q c); simpl; [reflexivity | now rewrite Hc].
  - change (forallb p (String c (String c' r')) = true).
    simpl in *. now rewrite Hc, IH.
Qed.

Lemma forallb_filter (s : string) : forallb p (filter p s) = true.
Proof.
  induction s as [|c r IH]; simpl; [reflexivity|].
  destruct (p c) eqn:E; simpl; [now rewrite E | assumption].
Qed.

Lemma forallb_app (s t : string) :
  forallb p (s ++ t) = (forallb p s && forallb p t)%bool.
Proof.
  induction s as [|c r IH]; simpl; [reflexivity|].
  now rewrite IH, andb_assoc.
Qed.

Lemma span_fst_forallb (s : string) : forallb p (fst (span p s)) = true.
Proof.
  induction s as [|c r IH]; simpl; [reflexivity|].
  destruct (p c) eqn:E; [|reflexivity].
  destruct (span p r) as [a b]; simpl in *. now rewrite E, IH.
Qed.

End StringFacts.

Lemma forallb_drop_underscores (p : ascii -> bool) (s : string) :
  forall prev t,
    PyStr.forallb p s = true ->
    FloatParse.drop_underscores prev s = Some t ->
    PyStr.forallb p t = true.
Proof.
  induction s as [|c r IH]; simpl; intros prev t H E.
  - destruct (match prev with Some a => Ascii.eqb a "_" | None => false end);
      [discriminate | now injection E as <-].
  - apply andb_true_iff in H as [Hc Hr].
    destruct (Ascii.eqb c "_").
    + destruct prev as [a|]; [|discriminate].
      destruct (PyStr.is_ascii_digit a); [eauto | discriminate].
    + match type of E with
      | (if ?b then _ else _) = _ => destruct b; [discriminate|]
      end.
      destruct (FloatParse.drop_underscores (Some c) r) as [t'|] eqn:E';
        [|discriminate].
      injection E as <-. simpl. rewrite Hc. eauto.
Qed.

(* ------------------------------------------------------------------------- *)
(** ** Rounding keeps the sign *)

Lemma pow2_pos (k : Z) : (0 < PyFloat.pow2 k)%Q.
Proof.
  unfold PyFloat.pow2. destruct (0 <=? k) eqn:E.
  - apply Z.leb_le in E. unfold Qlt; simpl. rewrite Z.mul_1_r.
    apply Z.pow_pos_nonneg; lia.
  - apply Z.leb_gt in E. apply Qinv_lt_0_compat.
    unfold Qlt; simpl. rewrite Z.mul_1_r. apply Z.pow_pos_nonneg; lia.
Qed.

Lemma pow10_pos (k : Z) : (0 < FloatParse.pow10 k)%Q.
Proof.
  unfold FloatParse.pow10. destruct (0 <=? k) eqn:E.
  - apply Z.leb_le in E. unfold Qlt; simpl. rewrite Z.mul_1_r.
    apply Z.pow_pos_nonneg; lia.
  - apply Z.leb_gt in E. apply Qinv_lt_0_compat.
    unfold Qlt; simpl. rewrite Z.mul_1_r. apply Z.pow_pos_nonneg; lia.
Qed.

Lemma round_half_even_nonneg (x : Q) : (0 <= x)%Q -> 0 <= PyFloat.round_half_even x.
Proof.
  intro H. unfold PyFloat.round_half_even.
  assert (0 <= Qfloor x) as Hf.
  { change 0 with (Qfloor 0). now apply Qfloor_resp_le. }
  destruct (Qcompare _ _); [destruct (Z.even _)| |]; lia.
Qed.

Lemma round_pos_ge0 (q : Q) : (0 <= q)%Q -> PyFloat.ge0 (PyFloat.round_pos q) = true.
Proof.
  intro H. unfold PyFloat.round_pos.
  set (u := Z.max (PyFloat.ilog2 q) (-1022) - 52).
  set (m := PyFloat.round_half_even (q / PyFloat.pow2 u)).
  destruct (Qle_bool _ _); [reflexivity|].
  unfold PyFloat.ge0. apply Qle_bool_iff. rewrite Qred_correct.
  apply Qmult_le_0_compat.
  - change 0%Q with (inject_Z 0). rewrite <- Zle_Qle.
    apply round_half_even_nonneg. apply Qle_shift_div_l; [apply pow2_pos|].
    now rewrite Qmult_0_l.
  - apply Qlt_le_weak, pow2_pos.
Qed.

Lemma round_ge0 (q : Q) : (0 <= q)%Q -> PyFloat.ge0 (PyFloat.round q) = true.
Proof.
  intro H. unfold PyFloat.round.
  destruct (Qcompare q 0) eqn:E.
  - reflexivity.
  - apply Qlt_alt in E. exfalso. apply (Qlt_irrefl q).
    apply Qlt_le_trans with 0%Q; assumption.
  - now apply round_pos_ge0.
Qed.

(* ------------------------------------------------------------------------- *)
(** ** [float()] of an unsigned string *)

Lemma digit_val_nonneg (c : ascii) :
  PyStr.is_ascii_digit c = true -> 0 <= PyStr.digit_val c.
Proof.
  unfold PyStr.is_ascii_digit, PyStr.digit_val. cbv zeta. intro H.
  apply andb_true_iff in H as [H _]. apply N.leb_le in H. lia.
Qed.

Lemma digits_val_nonneg (s : string) :
  forall acc, 0 <= acc ->
    PyStr.forallb PyStr.is_ascii_digit s = true ->
    0 <= FloatParse.digits_val acc s.
Proof.
  induction s as [|c r IH]; intros acc Ha H; [assumption|].
  cbn [PyStr.forallb] in H. cbn [FloatParse.digits_val].
  apply andb_true_iff in H as [Hc Hr].
  apply IH; [|assumption]. pose proof (digit_val_nonneg c Hc). lia.
Qed.

(** A decimal literal without a minus sign denotes a non-negative float. *)
Lemma decimal_ge0 (s : string) (x : PyFloat.t) :
  fst (FloatParse.sign s) = false ->
  FloatParse.decimal s = Some x ->
  PyFloat.ge0 x = true.
Proof.
  unfold FloatParse.decimal. destruct (FloatParse.sign s) as [sneg r0].
  simpl. intros ->.
  pose proof (span_fst_forallb PyStr.is_ascii_digit r0) as Hip.
  destruct (PyStr.span PyStr.is_ascii_digit r0) as [ip r1]. simpl in Hip.
  assert (forall fp r2,
             match r1 with
             | String c r =>
                 if Ascii.eqb c "." then PyStr.span PyStr.is_ascii_digit r
                 else (EmptyString, r1)
             | EmptyString => (EmptyString, r1)
             end = (fp, r2) ->
             PyStr.forallb PyStr.is_ascii_digit fp = true) as Hfp.
  { intros fp r2 E. destruct r1 as [|c r]; [now injection E as <- _|].
    destruct (Ascii.eqb c "."); [|now injection E as <- _].
    pose proof (span_fst_forallb PyStr.is_ascii_digit r) as H.
    rewrite E in H. exact H. }
  destruct (match r1 with EmptyString => _ | String _ _ => _ end) as [fp r2].
  specialize (Hfp fp r2 eq_refl).
  destruct (ip ++ fp)%string eqn:Eapp; [discriminate|]. rewrite <- Eapp.
  destruct (FloatParse.exponent r2) as [e|]; [|discriminate].
  intros [= <-]. apply round_ge0.
  apply Qmult_le_0_compat; [|apply Qlt_le_weak, pow10_pos].
  change 0%Q with (inject_Z 0). rewrite <- Zle_Qle.
  apply digits_val_nonneg; [lia|]. rewrite forallb_app. now rewrite Hip, Hfp.
Qed.

Lemma digit_or_period_not_letter (c : ascii) :
  digit_or_period c = true ->
  (Ascii.eqb c "-" || Ascii.eqb c "+"
   || Ascii.eqb (PyStr.tolower c) "i" || Ascii.eqb (PyStr.tolower c) "n")%bool = false.
Proof.
  destruct c as [[] [] [] [] [] [] [] []]; vm_compute; intro; congruence.
Qed.

(** [float()] of a string of digits and periods, when it succeeds, is
    non-negative: such a string carries no sign and spells neither [inf]
    nor [nan]. *)
Lemma float_digits_periods_ge0 (s : string) (x : PyFloat.t) :
  PyStr.forallb digit_or_period s = true ->
  FloatParse.float s = Some x ->
  PyFloat.ge0 x = true.
Proof.
  intros Hs. unfold FloatParse.float.
  destruct (FloatParse.drop_underscores None s) as [s1|] eqn:E1; [|discriminate].
  pose proof (forallb_drop_underscores _ _ _ _ Hs E1) as H1.
  apply (forallb_lstrip_by _ PyStr.float_isspace) in H1.
  apply (forallb_rstrip_by _ PyStr.float_isspace) in H1.
  set (s2 := PyStr.rstrip_by _ _) in *. clearbody s2.
  assert (FloatParse.sign s2 = (false, s2) /\ FloatParse.inf_or_nan s2 = None)
    as [Hsign Hinf].
  { unfold FloatParse.inf_or_nan. destruct s2 as [|c r]; [split; reflexivity|].
    cbn [PyStr.forallb] in H1. apply andb_true_iff in H1 as [Hc _].
    apply digit_or_period_not_letter in Hc.
    apply orb_false_iff in Hc as [Hc Hn]. apply orb_false_iff in Hc as [Hc Hi].
    apply orb_false_iff in Hc as [Hm Hp].
    cbn [FloatParse.sign]. rewrite Hm, Hp. split; [reflexivity|].
    cbn [PyStr.lower String.eqb]. now rewrite Hi, Hn. }
  destruct (FloatParse.decimal s2) as [y|] eqn:Ed.
  - intros [= <-]. apply (decimal_ge0 s2); [now rewrite Hsign | assumption].
  - rewrite Hinf. discriminate.
Qed.

(* ------------------------------------------------------------------------- *)
(** ** The amount normalizers *)

(** [parse_amount_to_number] returns on every input. *)
Lemma parse_amount_to_number_value (raw : option string) :
  parse_amount_to_number raw = Ret (amount_value raw).
Proof.
  destruct raw as [s|]; [|reflexivity].
  unfold parse_amount_to_number, amount_value, py_float.
  destruct (PyStr.truthy s); cbn [negb];
    destruct (FloatParse.float (cleaned s)); reflexivity.
Qed.

(** C2, as the code has it: on every input ([None], the empty string, any
    string) both normalizers return and neither raises; each returns [0]
    where its [float()] call fails, and on [None] and on the empty string;
    the digits-and-period stripper always returns a non-negative float; the
    direct parser returns whatever [float()] makes of the trimmed text,
    negative values and NaN included. *)
Theorem amount_normalizers_total (raw : option string) :
  (exists v, parse_amount_to_number raw = Ret v /\ PyFloat.ge0 v = true) /\
  parse_amount_to_number raw =
    Ret (match raw with
         | None => PyFloat.zero
         | Some s =>
             match FloatParse.float (cleaned s) with
             | Some x => if PyStr.truthy s then x else PyFloat.zero
             | None => PyFloat.zero
             end
         end) /\
  _parse_amount raw =
    Ret (match raw with
         | None => PyFloat.zero
         | Some s =>
             match FloatParse.float (PyStr.strip s) with
             | Some x => if String.eqb (PyStr.strip s) "None" then PyFloat.zero else x
             | None => PyFloat.zero
             end
         end).
Proof.
  pose proof (parse_amount_to_number_value raw) as Hdonor.
  unfold amount_value in Hdonor.
  split; [|split; [exact Hdonor|]].
  - rewrite Hdonor. eexists; split; [reflexivity|].
    destruct raw as [s|]; [|reflexivity].
    destruct (FloatParse.float (cleaned s)) as [x|] eqn:E; [|reflexivity].
    destruct (PyStr.truthy s); [|reflexivity].
    apply (float_digits_periods_ge0 (cleaned s)); [apply forallb_filter | exact E].
  - destruct raw as [s|]; [|reflexivity]. unfold _parse_amount, py_float.
    destruct (String.eqb (PyStr.strip s) "") eqn:E0.
    + apply String.eqb_eq in E0. rewrite E0. reflexivity.
    + cbn [orb]. destruct (String.eqb (PyStr.strip s) "None");
        destruct (FloatParse.float (PyStr.strip s)); reflexivity.
Qed.

(** C2 as stated fails on the direct parser: [_parse_amount("-5")] is
    [-5.0], which is not [>= 0]. *)
Lemma direct_parser_negative :
  _parse_amount (Some "-5") = Ret (PyFloat.Fin (-5 # 1)) /\
  PyFloat.ge0 (PyFloat.Fin (-5 # 1)) = false.
Proof. split; vm_compute; reflexivity. Qed.

(** The values the spec lists for the normalizer. *)
Example parse_amount_examples :
  parse_amount_to_number (Some "$1,200.50") = Ret (PyFloat.Fin (2401 # 2)) /\
  parse_amount_to_number None = Ret PyFloat.zero /\
  parse_amount_to_number (Some "") = Ret PyFloat.zero /\
  parse_amount_to_number (Some "N/A") = Ret PyFloat.zero /\
  _parse_amount (Some "nan") = Ret PyFloat.NaN.
Proof. repeat split; vm_compute; reflexivity. Qed.

(* ------------------------------------------------------------------------- *)
(** ** The scheduler's interval *)

(** X29: Whenever an interval is computed it is at least 30 seconds. *)
Lemma interval_seconds_floor (env : string -> option string) (s : Z) :
  interval_seconds env = Ret s -> 30 <= s.
Proof.
  unfold interval_seconds, bind.
  destruct (try_except _ _) as [m|e]; [|discriminate].
  destruct (PyFloat.ceil _) as [c|]; [intros [= <-]; lia|].
  destruct (PyFloat.mul_const _ _); discriminate.
Qed.

(** X30: A value [float()] rejects, and a value that is [<= 0], are replaced by
    the default of 15 minutes: the interval is 900 seconds. *)
Lemma interval_seconds_fallback (env : string -> option string) :
  match FloatParse.float (getenv_default env "SCRAPE_INTERVAL_MINUTES" "15") with
  | None => True
  | Some x => PyFloat.le0 x = true
  end ->
  interval_seconds env = Ret 900.
Proof.
  unfold interval_seconds, py_float.
  destruct (FloatParse.float _) as [x|]; cbn [try_except bind].
  - intros ->. reflexivity.
  - intros _. reflexivity.
Qed.

(** C9: the configured value [nan] passes [float()] and the [<= 0] test, and
    [math.ceil] then raises outside the [try]: no interval is computed and
    no fallback to the default takes place. *)
Theorem interval_seconds_nan_raises :
  interval_seconds
    (fun name => if String.eqb name "SCRAPE_INTERVAL_MINUTES" then Some "nan" else None)
  = Raise ValueError.
Proof. vm_compute. reflexivity. Qed.

(** The same happens on [inf], with [OverflowError]. *)
Example interval_seconds_inf_raises :
  interval_seconds
    (fun name => if String.eqb name "SCRAPE_INTERVAL_MINUTES" then Some "inf" else None)
  = Raise OverflowError.
Proof. vm_compute. reflexivity. Qed.

Example interval_seconds_examples :
  interval_seconds (fun _ => None) = Ret 900 /\
  interval_seconds (fun _ => Some "0.1") = Ret 30 /\
  interval_seconds (fun _ => Some "0.51") = Ret 31 /\
  interval_seconds (fun _ => Some "soon") = Ret 900 /\
  interval_seconds (fun _ => Some "-3") = Ret 900.
Proof. repeat split; vm_compute; reflexivity. Qed.

(* ------------------------------------------------------------------------- *)
(** ** [strip] *)

Lemma rstrip_by_idem (p : ascii -> bool) (s : string) :
  PyStr.rstrip_by p (PyStr.rstrip_by p s) = PyStr.rstrip_by p s.
Proof.
  induction s as [|c r IH]; [reflexivity|]. cbn [PyStr.rstrip_by].
  destruct (PyStr.rstrip_by p r) as [|c' r'] eqn:E.
  - destruct (p c) eqn:Ec; [reflexivity|]. cbn. now rewrite Ec.
  - cbn [PyStr.rstrip_by]. cbn [PyStr.rstrip_by] in IH. now rewrite IH.
Qed.

Lemma lstrip_by_head (p : ascii -> bool) (s : string) :
  match PyStr.lstrip_by p s with
  | EmptyString => True
  | String c _ => p c = false
  end.
Proof.
  induction s as [|c r IH]; cbn; [exact I|].
  destruct (p c) eqn:E; [exact IH | exact E].
Qed.

Lemma lstrip_by_rstrip_by (p : ascii -> bool) (s : string) :
  match s with EmptyString => True | String c _ => p c = false end ->
  PyStr.lstrip_by p (PyStr.rstrip_by p s) = PyStr.rstrip_by p s.
Proof.
  destruct s as [|c r]; [reflexivity|]. intro Hc. cbn [PyStr.rstrip_by].
  destruct (PyStr.rstrip_by p r); rewrite ?Hc; cbn; now rewrite Hc.
Qed.

Lemma strip_idem (s : string) : PyStr.strip (PyStr.strip s) = PyStr.strip s.
Proof.
  unfold PyStr.strip.
  rewrite (lstrip_by_rstrip_by _ _ (lstrip_by_head PyStr.isspace s)).
  apply rstrip_by_idem.
Qed.

Lemma truthy_nonempty (s : string) : PyStr.truthy s = true <-> s <> "".
Proof. destruct s; cbn; split; congruence. Qed.

(* ------------------------------------------------------------------------- *)
(** ** Keeping first occurrences *)

Section Dedup.
Import Extractor.

Lemma mem_In (x : string) (l : list string) : mem x l = true <-> In x l.
Proof.
  unfold mem. rewrite existsb_exists. split.
  - intros (y & Hy & E). apply String.eqb_eq in E. now subst.
  - intro H. exists x. split; [assumption | apply String.eqb_refl].
Qed.

Lemma mem_app (x : string) (l k : list string) :
  mem x (l ++ k) = (mem x l || mem x k)%bool.
Proof. apply existsb_app. Qed.

Lemma In_dedup_first (x : string) (l : list string) :
  In x (dedup_first l) <-> In x l.
Proof.
  induction l as [|a r IH]; cbn; [tauto|].
  rewrite filter_In, IH, negb_true_iff, String.eqb_neq.
  destruct (String.eqb_spec a x); subst; tauto.
Qed.

Lemma NoDup_dedup_first (l : list string) : NoDup (dedup_first l).
Proof.
  induction l as [|a r IH]; cbn; constructor.
  - rewrite filter_In, negb_true_iff, String.eqb_neq. tauto.
  - now apply NoDup_filter.
Qed.

(** On a list without repetition there is nothing to remove. *)
Lemma dedup_first_NoDup (l : list string) : NoDup l -> dedup_first l = l.
Proof.
  induction 1 as [|a r Hnotin Hnd IH]; cbn; [reflexivity|].
  rewrite IH. f_equal. apply forallb_filter_id. apply forallb_forall.
  intros y Hy. apply negb_true_iff, String.eqb_neq. congruence.
Qed.

Lemma filter_filter {A : Type} (p q : A -> bool) (l : list A) :
  List.filter p (List.filter q l) = List.filter (fun x => q x && p x) l.
Proof.
  induction l as [|a r IH]; cbn; [reflexivity|].
  destruct (q a); cbn; [destruct (p a)|]; now rewrite IH.
Qed.

(** [dedup_first] of a concatenation: the second part loses what the
    first already holds. *)
Lemma dedup_first_app (l k : list string) :
  dedup_first (l ++ k) =
  dedup_first l ++ List.filter (fun y => negb (mem y l)) (dedup_first k).
Proof.
  induction l as [|a r IH]; cbn.
  - symmetry. apply forallb_filter_id. now apply forallb_forall.
  - f_equal. rewrite IH, filter_app, filter_filter. f_equal.
    apply filter_ext. intro y. unfold mem; cbn [existsb].
    rewrite (String.eqb_sym y a).
    destruct (String.eqb a y), (existsb (String.eqb y) r); reflexivity.
Qed.

End Dedup.

(* ------------------------------------------------------------------------- *)
(** ** The accumulators of the extractor *)

Section Accumulators.
Import Extractor.

Lemma consistent_empty : consistent empty.
Proof. intro y. reflexivity. Qed.

Lemma add_name_unfold (raw : string) (st : acc) :
  _add_name raw st =
  if PyStr.truthy (normalize raw) && negb (mem (normalize raw) (seen st))
  then {| names := names st ++ [normalize raw]; seen := normalize raw :: seen st |}
  else st.
Proof. reflexivity. Qed.

Lemma add_name_consistent (raw : string) (st : acc) :
  consistent st -> consistent (_add_name raw st).
Proof.
  intros H. rewrite add_name_unfold.
  destruct (_ && _); [|assumption].
  intro y. cbn [names seen]. rewrite mem_app. unfold mem at 1 3. cbn [existsb].
  fold (mem y (seen st)). rewrite H. unfold mem.
  destruct (String.eqb y (normalize raw)), (existsb (String.eqb y) (names st));
    reflexivity.
Qed.

(** What a run of [_add_name] over [raws] leaves in [names]: what was
    there, then the first occurrences of the new names. *)
Lemma add_all_names (raws : list string) :
  forall st, consistent st ->
    names (add_all raws st) =
    names st ++ List.filter (fun y => negb (mem y (names st))) (dedup_first (clean raws))
    /\ consistent (add_all raws st).
Proof.
  induction raws as [|raw l IH]; intros st Hst.
  - cbn. now rewrite app_nil_r.
  - change (add_all (raw :: l) st) with (add_all l (_add_name raw st)).
    destruct (IH _ (add_name_consistent raw st Hst)) as [IHn IHc].
    split; [|exact IHc]. rewrite IHn. clear IHn IHc IH.
    rewrite add_name_unfold. unfold clean. cbn [map List.filter].
    fold (clean l). rewrite Hst.
    destruct (PyStr.truthy (normalize raw)) eqn:Et; cbn [andb].
    + destruct (mem (normalize raw) (names st)) eqn:Em;
        cbn [negb names dedup_first List.filter]; rewrite Em; cbn [negb].
      * f_equal. rewrite filter_filter. apply filter_ext. intro y.
        destruct (String.eqb_spec (normalize raw) y) as [<-|]; cbn;
          [now rewrite Em | reflexivity].
      * rewrite <- app_assoc. cbn [app]. do 2 f_equal.
        rewrite filter_filter. apply filter_ext. intro y.
        rewrite mem_app. unfold mem at 2. cbn [existsb].
        rewrite (String.eqb_sym y), orb_false_r, negb_orb. apply andb_comm.
    + reflexivity.
Qed.

Lemma add_all_app (l k : list string) (st : acc) :
  add_all (l ++ k) st = add_all k (add_all l st).
Proof. apply fold_left_app. Qed.

Lemma fold_add_map {A : Type} (g : A -> string) (l : list A) (st : acc) :
  fold_left (fun st n => _add_name (g n) st) l st = add_all (map g l) st.
Proof. revert st. induction l as [|a r IH]; intro st; cbn; [reflexivity | apply IH]. Qed.

Lemma fold_add_flat_map {A : Type} (g : A -> list string) (l : list A) (st : acc) :
  fold_left (fun st x => add_all (g x) st) l st = add_all (flat_map g l) st.
Proof.
  revert st. induction l as [|a r IH]; intro st; cbn; [reflexivity|].
  now rewrite add_all_app, IH.
Qed.

Lemma row_step_add (st : acc) (row : Html.node) :
  row_step st row = add_all (row_candidate row) st.
Proof.
  unfold row_step, row_candidate.
  destruct (Html.find _ row) as [first_col|]; [|reflexivity].
  destruct (Html.find _ first_col); reflexivity.
Qed.

Lemma fold_left_pointwise {A B : Type} (g h : A -> B -> A) (l : list B) :
  (forall a b, g a b = h a b) ->
  forall a, fold_left g l a = fold_left h l a.
Proof.
  intro E. induction l as [|b r IH]; intro a; cbn; [reflexivity|].
  now rewrite E, IH.
Qed.

(** The two loops of the extractor are one run of [_add_name] over the
    candidates. *)
Lemma loops_add_all (f : Html.soup) (st : acc) :
  row_loop f (selector_loop f st) = add_all (candidates f) st.
Proof.
  unfold candidates. rewrite add_all_app. unfold row_loop, selector_loop.
  rewrite <- !fold_add_flat_map.
  rewrite (fold_left_pointwise _ _ _ row_step_add). f_equal.
  apply fold_left_pointwise. intros a sel. apply fold_add_map.
Qed.

Lemma extract_names_dedup (f : Html.soup) :
  _extract_donor_names f = dedup_first (clean (candidates f)).
Proof.
  unfold _extract_donor_names. rewrite loops_add_all.
  destruct (add_all_names (candidates f) empty consistent_empty) as [-> _].
  cbn [names empty app]. apply forallb_filter_id. now apply forallb_forall.
Qed.

Lemma clean_trimmed (raws : list string) :
  Forall (fun n => n <> "" /\ PyStr.strip n = n) (clean raws).
Proof.
  apply Forall_forall. intros n Hn. unfold clean in Hn.
  apply filter_In in Hn as [Hn Ht]. apply truthy_nonempty in Ht.
  split; [assumption|].
  apply in_map_iff in Hn as (raw & <- & _). unfold normalize in *.
  destruct (PyStr.truthy raw); [apply strip_idem | congruence].
Qed.

End Accumulators.

(* ------------------------------------------------------------------------- *)
(** ** The extractor *)

Section SecondPass.
Import Extractor.

(** A run over texts whose names are all in [seen] already adds nothing. *)
Lemma add_all_fixed (raws : list string) (st : acc) :
  (forall x, In x (clean raws) -> mem x (seen st) = true) ->
  add_all raws st = st.
Proof.
  induction raws as [|raw l IH]; intro H; [reflexivity|].
  change (add_all (raw :: l) st) with (add_all l (_add_name raw st)).
  assert (_add_name raw st = st) as ->.
  { rewrite add_name_unfold.
    destruct (PyStr.truthy (normalize raw)) eqn:Et; [|reflexivity].
    rewrite H; [reflexivity|]. unfold clean. cbn [map List.filter].
    rewrite Et. now left. }
  apply IH. intros x Hx. apply H. unfold clean in *. cbn [map List.filter].
  destruct (PyStr.truthy (normalize raw)); [now right | assumption].
Qed.

Lemma add_all_seen (raws : list string) (st : acc) (x : string) :
  consistent st -> In x (clean raws) -> mem x (seen (add_all raws st)) = true.
Proof.
  intros Hst Hx. destruct (add_all_names raws st Hst) as [En Hc].
  rewrite Hc, En, mem_app.
  destruct (mem x (names st)) eqn:Em; [reflexivity|]. cbn [orb].
  apply mem_In, filter_In. rewrite Em. split; [|reflexivity].
  now apply In_dedup_first.
Qed.

End SecondPass.

(** C3, as the code has it: for every document the extractor returns names
    that are non-empty, whitespace-trimmed and pairwise distinct; a name
    matched more than once (by one selector or by several) appears once, at
    the place of its first occurrence in the order in which the code meets
    the candidates: the selectors one after the other in the order of the
    list, the matches of each selector in document order, then the rows of
    the "all donors" table. *)
Theorem extract_donor_names_first_occurrence (f : Html.soup) :
  Extractor._extract_donor_names f
  = Extractor.dedup_first (Extractor.clean (Extractor.candidates f))
  /\ NoDup (Extractor._extract_donor_names f)
  /\ Forall (fun n => n <> "" /\ PyStr.strip n = n) (Extractor._extract_donor_names f)
  /\ (forall n, In n (Extractor._extract_donor_names f)
                <-> In n (Extractor.clean (Extractor.candidates f))).
Proof.
  rewrite extract_names_dedup. split; [reflexivity|]. split; [apply NoDup_dedup_first|].
  split.
  - apply Forall_forall. intros n Hn. apply (proj1 (In_dedup_first _ _)) in Hn.
    exact (proj1 (Forall_forall _ _) (clean_trimmed _) n Hn).
  - intro n. apply In_dedup_first.
Qed.

(** C3 as stated fails: in this document Alice's element comes before
    Bob's, and the extractor returns Bob first, because the selector that
    matches Bob stands earlier in the list than the one that matches
    Alice. *)
Lemma extract_order_not_document_order :
  flat_map Html.strings Samples.alice_before_bob = ["Alice"; "Bob"]
  /\ Extractor.document_order_names Samples.alice_before_bob = ["Alice"; "Bob"]
  /\ Extractor._extract_donor_names Samples.alice_before_bob = ["Bob"; "Alice"].
Proof. repeat split; vm_compute; reflexivity. Qed.

(** C8: the extractor keeps no state between runs.  A second run on the same
    document returns what the first returned, and so would a run that
    started from the accumulators the first one left behind: going over the
    document again adds nothing. *)
Theorem extract_donor_names_idempotent (f : Html.soup) :
  let run := fun st => Extractor.row_loop f (Extractor.selector_loop f st) in
  Extractor._extract_donor_names f = Extractor.names (run Extractor.empty)
  /\ run (run Extractor.empty) = run Extractor.empty
  /\ Extractor.names (run (run Extractor.empty)) = Extractor._extract_donor_names f.
Proof.
  cbv zeta. split; [reflexivity|].
  assert (Extractor.row_loop f (Extractor.selector_loop f
            (Extractor.row_loop f (Extractor.selector_loop f Extractor.empty)))
          = Extractor.row_loop f (Extractor.selector_loop f Extractor.empty)) as E.
  { rewrite !loops_add_all. apply add_all_fixed. intros x Hx.
    apply add_all_seen; [apply consistent_empty | assumption]. }
  split; [exact E|]. now rewrite E.
Qed.

(* ------------------------------------------------------------------------- *)
(** ** The deduplication loops *)

Section DedupeLoop.
Import Extractor.
Variable keep : string -> bool.

Lemma dedupe_loop_cons (x : string) (r d s : list string) :
  dedupe_loop keep (x :: r) (d, s) =
  dedupe_loop keep r
    (if keep x && negb (mem x s) then (d ++ [x], x :: s) else (d, s)).
Proof. reflexivity. Qed.

Lemma dedupe_loop_spec (l : list string) :
  forall d s, (forall y, mem y s = mem y d) ->
    fst (dedupe_loop keep l (d, s)) =
    d ++ List.filter (fun y => negb (mem y d)) (dedup_first (List.filter keep l)).
Proof.
  induction l as [|x r IH]; intros d s Hs.
  - cbn. now rewrite app_nil_r.
  - rewrite dedupe_loop_cons. cbn [List.filter]. rewrite Hs.
    destruct (keep x) eqn:Ek; cbn [andb]; [|now apply IH].
    destruct (mem x d) eqn:Em; cbn [negb dedup_first List.filter]; rewrite Em;
      cbn [negb].
    + rewrite (IH d s Hs). f_equal. rewrite filter_filter. apply filter_ext.
      intro y. destruct (String.eqb_spec x y) as [<-|]; cbn;
        [now rewrite Em | reflexivity].
    + rewrite IH.
      * rewrite <- app_assoc. cbn [app]. do 2 f_equal.
        rewrite filter_filter. apply filter_ext. intro y.
        rewrite mem_app. unfold mem at 2. cbn [existsb].
        rewrite (String.eqb_sym y), orb_false_r, negb_orb. apply andb_comm.
      * intro y. rewrite mem_app. unfold mem at 1 3. cbn [existsb].
        fold (mem y s). rewrite Hs. unfold mem.
        destruct (String.eqb y x), (existsb (String.eqb y) d); reflexivity.
Qed.

Lemma dedupe_loop_start (l : list string) :
  fst (dedupe_loop keep l ([], [])) = dedup_first (List.filter keep l).
Proof.
  rewrite dedupe_loop_spec by reflexivity. cbn [app].
  apply forallb_filter_id. now apply forallb_forall.
Qed.

End DedupeLoop.

Lemma filter_all {A : Type} (p : A -> bool) (l : list A) :
  Forall (fun x => p x = true) l -> List.filter p l = l.
Proof. intro H. apply forallb_filter_id. apply forallb_forall, Forall_forall, H. Qed.

Lemma dedupe_dedup_first (l : list string) : dedupe l = Extractor.dedup_first l.
Proof.
  unfold dedupe. rewrite dedupe_loop_start. f_equal.
  apply filter_all, Forall_forall. reflexivity.
Qed.

Lemma dedupe_truthy_dedup_first (l : list string) :
  dedupe_truthy l = Extractor.dedup_first (List.filter PyStr.truthy l).
Proof. apply dedupe_loop_start. Qed.

Lemma extract_names_NoDup (f : Html.soup) : NoDup (Extractor._extract_donor_names f).
Proof. rewrite extract_names_dedup. apply NoDup_dedup_first. Qed.

Lemma extract_names_truthy (f : Html.soup) :
  Forall (fun n => PyStr.truthy n = true) (Extractor._extract_donor_names f).
Proof.
  rewrite extract_names_dedup. apply Forall_forall. intros n Hn.
  apply (proj1 (In_dedup_first _ _)) in Hn. unfold Extractor.clean in Hn.
  now apply filter_In in Hn.
Qed.

(* ------------------------------------------------------------------------- *)
(** ** The remote fetcher *)

(** Caching never raises, and touches nothing but the files. *)
Lemma cache_response_ret (E : env) (doc : Html.soup) (p : string) (w : world) :
  exists files,
    _cache_response E doc p w
    = (Ret tt, {| fs := files; requests := requests w; donors := donors w |}).
Proof.
  unfold _cache_response, tryM, write_text, ret. destruct w as [files reqs tbl].
  cbn [fs requests donors].
  destruct (PyStr.truthy p); cbn [negb]; [|now eexists].
  destruct (write_fails E p); now eexists.
Qed.

(** What the fetcher returns and leaves behind once the primary page has
    been fetched: it does not raise, it returns the first occurrences of
    the primary names followed by the secondary ones, each without amount,
    and it has sent the primary request and, when a campaign id was found,
    the secondary one. *)
Lemma scrape_givecampus_ok (E : env) (url : string) (w : world) (soup : Html.soup) :
  remote E (length (requests w)) url = Ret soup ->
  exists files,
    scrape_givecampus_recent_donors E url w =
    (Ret (map no_amount
              (Extractor.dedup_first
                 (Extractor._extract_donor_names soup
                  ++ secondary_names E (S (length (requests w))) soup))),
     {| fs := files;
        requests := requests w ++ url :: secondary_requests soup;
        donors := donors w |}).
Proof.
  intro H. unfold scrape_givecampus_recent_donors, bindM at 1, session_get at 1.
  rewrite H.
  destruct (cache_response_ret E soup
              (getenv_default (getenv E) "DONOR_CACHE_MAIN_FILE" "honors-winter-gala.html")
              {| fs := fs w; requests := requests w ++ [url]; donors := donors w |})
    as [files1 Hc1].
  unfold bindM at 1. rewrite Hc1. cbn [requests donors].
  unfold secondary_names, secondary_requests, secondary_outcome.
  unfold bindM at 1.
  destruct (_find_campaign_id soup) as [campaign_id|];
    [destruct (PyStr.truthy campaign_id)|].
  - unfold tryM, bindM at 1, session_get. cbn [requests fs donors].
    rewrite length_app, Nat.add_1_r.
    destruct (remote E (S (length (requests w))) (modal_url campaign_id))
      as [modal_soup|e].
    + destruct (cache_response_ret E modal_soup
                  (getenv_default (getenv E) "DONOR_CACHE_MODAL_FILE"
                                  "campaign_donors_72810_all.html")
                  {| fs := files1;
                     requests := (requests w ++ [url]) ++ [modal_url campaign_id];
                     donors := donors w |}) as [files2 Hc2].
      unfold bindM at 1. rewrite Hc2. cbn [requests donors]. unfold ret.
      exists files2. rewrite dedupe_dedup_first, <- app_assoc. reflexivity.
    + unfold ret. exists files1.
      rewrite dedupe_dedup_first, app_nil_r, <- app_assoc. reflexivity.
  - unfold ret. exists files1. rewrite dedupe_dedup_first, app_nil_r. reflexivity.
  - unfold ret. exists files1. rewrite dedupe_dedup_first, app_nil_r. reflexivity.
Qed.

(** C4: once the primary page has been fetched, the fetcher returns: an
    error raised by the request for the "all donors" page is swallowed and
    the primary names are the output; when that page is fetched the output
    is the primary names followed by the secondary ones, every name kept at
    its first occurrence only; every tuple has a null amount. *)
Theorem scrape_givecampus_union (E : env) (url : string) (w : world) (soup : Html.soup) :
  remote E (length (requests w)) url = Ret soup ->
  let primary := Extractor._extract_donor_names soup in
  let out := fst (scrape_givecampus_recent_donors E url w) in
  match secondary_outcome E (S (length (requests w))) soup with
  | Some (Ret modal_soup) =>
      out = Ret (map no_amount
                     (Extractor.dedup_first
                        (primary ++ Extractor._extract_donor_names modal_soup)))
  | Some (Raise _) => out = Ret (map no_amount primary)
  | None => out = Ret (map no_amount primary)
  end
  /\ exists names,
      out = Ret (map no_amount names)
      /\ NoDup names
      /\ Forall (fun t => snd t = None) (map no_amount names)
      /\ forall n, In n names <->
                   In n primary \/ In n (secondary_names E (S (length (requests w))) soup).
Proof.
  intros H primary out. subst primary.
  destruct (scrape_givecampus_ok E url w soup H) as [files Hok].
  assert (out = Ret (map no_amount
                       (Extractor.dedup_first
                          (Extractor._extract_donor_names soup
                           ++ secondary_names E (S (length (requests w))) soup))))
    as Hout by (unfold out; now rewrite Hok).
  split.
  - rewrite Hout. unfold secondary_names.
    destruct (secondary_outcome E (S (length (requests w))) soup) as [[modal_soup|e]|];
      [reflexivity | |];
      now rewrite app_nil_r, (dedup_first_NoDup _ (extract_names_NoDup soup)).
  - eexists. split; [exact Hout|]. split; [apply NoDup_dedup_first|]. split.
    + apply Forall_forall. intros t Ht. apply in_map_iff in Ht as (n & <- & _).
      reflexivity.
    + intro n. rewrite In_dedup_first. apply in_app_iff.
Qed.

(* ------------------------------------------------------------------------- *)
(** ** The campaign id and the URL of the "all donors" page *)

(** Group 1 of either regular expression is a non-empty run of digits. *)
Lemma search_digits (pre suf s g : string) :
  Re.search pre suf s = Some g ->
  PyStr.truthy g = true /\ PyStr.forallb PyStr.is_ascii_digit g = true.
Proof.
  induction s as [|c r IH]; cbn [Re.search]; unfold Re.match_here.
  - destruct (Re.after_prefix pre "") as [t|]; [|discriminate].
    pose proof (span_fst_forallb PyStr.is_ascii_digit t) as Hd.
    destruct (PyStr.span PyStr.is_ascii_digit t) as [ds t']. cbn [fst] in Hd.
    destruct (PyStr.truthy ds) eqn:Et; [|discriminate].
    destruct (Re.after_prefix suf t'); [|discriminate].
    intros [= <-]. now split.
  - destruct (Re.after_prefix pre (String c r)) as [t|]; [|exact IH].
    pose proof (span_fst_forallb PyStr.is_ascii_digit t) as Hd.
    destruct (PyStr.span PyStr.is_ascii_digit t) as [ds t']. cbn [fst] in Hd.
    destruct (PyStr.truthy ds) eqn:Et; [|exact IH].
    destruct (Re.after_prefix suf t'); [|exact IH].
    intros [= <-]. now split.
Qed.

(** Where [_find_campaign_id] takes the id from: the first element whose
    [id] matches the modal pattern, or else, when no [id] matches, the
    first anchor whose [href] matches the donors pattern. *)
Lemma find_campaign_id_source (f : Html.soup) (campaign_id : string) :
  _find_campaign_id f = Some campaign_id ->
  (exists a i, In a (Html.find_all (fun _ => true) f)
               /\ Html.id a = Some i /\ Re.modal_id i = Some campaign_id)
  \/ ((forall a i, In a (Html.find_all (fun _ => true) f) ->
                   Html.id a = Some i -> Re.modal_id i = None)
      /\ exists a h, In a (Html.find_all (fun _ => true) f)
                     /\ Html.tag a = "a" /\ Html.href a = Some h
                     /\ Re.donors_href h = Some campaign_id).
Proof.
  unfold _find_campaign_id.
  destruct (List.find _ (Html.find_all (fun _ => true) f)) as [a|] eqn:Ef.
  - apply find_some in Ef as [Hin Hp].
    destruct (Html.id a) as [i|] eqn:Ei; [|discriminate].
    destruct (Re.modal_id i) as [g|] eqn:Eg; [|discriminate].
    assert (PyStr.truthy i = true) as ->.
    { destruct i; [discriminate Eg | reflexivity]. }
    intros [= <-]. left. now exists a, i.
  - intro H. right. split.
    + intros a i Hin Ei. pose proof (find_none _ _ Ef a Hin) as Hn.
      cbv beta in Hn. rewrite Ei in Hn. now destruct (Re.modal_id i).
    + clear Ef. unfold Html.find_all in *.
      set (all := flat_map _ (Html.elements [] f)) in *. clearbody all.
      rewrite (filter_all (fun _ : Html.attrs => true) all)
        by (apply Forall_forall; reflexivity).
      induction all as [|a r IH]; [discriminate|].
      cbn [List.filter] in H.
      destruct (String.eqb (Html.tag a) "a" && is_some (Html.href a)) eqn:Ea.
      * cbn [fold_right] in H. apply andb_true_iff in Ea as [Et Eh].
        apply String.eqb_eq in Et.
        destruct (Html.href a) as [h|] eqn:Ehref; [|discriminate].
        destruct (Re.donors_href h) as [g|] eqn:Eg.
        -- injection H as <-. exists a, h. cbn. auto.
        -- destruct (IH H) as (a' & h' & Hin & Hrest).
           exists a', h'. split; [now right | assumption].
      * destruct (IH H) as (a' & h' & Hin & Hrest).
        exists a', h'. split; [now right | assumption].
Qed.

Lemma find_campaign_id_digits (f : Html.soup) (campaign_id : string) :
  _find_campaign_id f = Some campaign_id ->
  PyStr.truthy campaign_id = true
  /\ PyStr.forallb PyStr.is_ascii_digit campaign_id = true.
Proof.
  intro H. apply find_campaign_id_source in H as [(a & i & _ & _ & Hm)|(_ & a & h & _ & _ & _ & Hm)];
    exact (search_digits _ _ _ _ Hm).
Qed.

(** C10: when a campaign id is found in the primary page, the second
    request of the fetcher goes to
    [https://give.njit.edu/campaigns/<id>/campaign_donors.html?show=all],
    whatever the URL of the primary page; the id is a non-empty run of
    digits, taken from an element id matching [myModal<digits>_all] or
    else, when no element id matches, from an anchor href matching
    [/campaigns/<digits>/campaign_donors.html]. *)
Theorem modal_url_fixed_host
        (E : env) (url : string) (w : world) (soup : Html.soup) (campaign_id : string) :
  remote E (length (requests w)) url = Ret soup ->
  _find_campaign_id soup = Some campaign_id ->
  requests (snd (scrape_givecampus_recent_donors E url w))
  = requests w
    ++ [url;
        ("https://give.njit.edu/campaigns/" ++ campaign_id
         ++ "/campaign_donors.html?show=all")%string]
  /\ campaign_id <> ""
  /\ PyStr.forallb PyStr.is_ascii_digit campaign_id = true
  /\ ((exists a i, In a (Html.find_all (fun _ => true) soup)
                   /\ Html.id a = Some i /\ Re.modal_id i = Some campaign_id)
      \/ ((forall a i, In a (Html.find_all (fun _ => true) soup) ->
                       Html.id a = Some i -> Re.modal_id i = None)
          /\ exists a h, In a (Html.find_all (fun _ => true) soup)
                         /\ Html.tag a = "a" /\ Html.href a = Some h
                         /\ Re.donors_href h = Some campaign_id)).
Proof.
  intros H Hid.
  destruct (find_campaign_id_digits soup campaign_id Hid) as [Ht Hd].
  destruct (scrape_givecampus_ok E url w soup H) as [files Hok].
  rewrite Hok. cbn [snd requests]. unfold secondary_requests. rewrite Hid, Ht.
  split; [reflexivity|]. split; [now apply truthy_nonempty|]. split; [exact Hd|].
  now apply find_campaign_id_source.
Qed.

Lemma modal_url_fixed_host_witness :
  remote (Scenario.run None (Scenario.site false) Scenario.never)
         (length (requests Scenario.no_files)) Scenario.primary_url
  = Ret Scenario.primary_page
  /\ _find_campaign_id Scenario.primary_page = Some "501"
  /\ requests (snd (scrape_givecampus_recent_donors
                      (Scenario.run None (Scenario.site false) Scenario.never)
                      Scenario.primary_url Scenario.no_files))
     = [Scenario.primary_url;
        "https://give.njit.edu/campaigns/501/campaign_donors.html?show=all"].
Proof.
  split; [reflexivity|]. split; [reflexivity|].
  exact (proj1 (modal_url_fixed_host
                  (Scenario.run None (Scenario.site false) Scenario.never)
                  Scenario.primary_url Scenario.no_files Scenario.primary_page "501"
                  eq_refl eq_refl)).
Defined.

Lemma scrape_givecampus_union_witness :
  remote (Scenario.run None (Scenario.site false) Scenario.never)
         (length (requests Scenario.no_files)) Scenario.primary_url
  = Ret Scenario.primary_page
  /\ fst (scrape_givecampus_recent_donors
            (Scenario.run None (Scenario.site false) Scenario.never)
            Scenario.primary_url Scenario.no_files)
     = Ret [("Ann Lee", None); ("Ben Ode", None)].
Proof.
  split; [reflexivity|].
  exact (proj1 (scrape_givecampus_union
                  (Scenario.run None (Scenario.site false) Scenario.never)
                  Scenario.primary_url Scenario.no_files Scenario.primary_page
                  eq_refl)).
Defined.

(** With the "all donors" page up, its names follow the primary ones and
    the shared name stays where the primary page put it. *)
Example scrape_givecampus_both_pages :
  fst (scrape_givecampus_recent_donors
         (Scenario.run None (Scenario.site true) Scenario.never)
         Scenario.primary_url Scenario.no_files)
  = Ret [("Ann Lee", None); ("Ben Ode", None); ("Cy Day", None); ("Di Eng", None)].
Proof. vm_compute. reflexivity. Qed.

(* ------------------------------------------------------------------------- *)
(** ** The local fallback loader *)

Lemma collect_spec (file_candidates : list (option string)) :
  forall collected w,
    collect file_candidates collected w
    = (Ret (collected ++ flat_map (candidate_names (fs w)) file_candidates), w).
Proof.
  induction file_candidates as [|path_str rest IH]; intros collected w.
  - cbn. now rewrite app_nil_r.
  - cbn [collect flat_map]. destruct path_str as [path|]; [|now rewrite IH].
    destruct (PyStr.truthy path) eqn:Et; cbn [negb].
    + unfold bindM at 1, path_exists.
      destruct (fs w path) as [| |doc] eqn:Ef; cbn [negb].
      * rewrite IH. unfold candidate_names. now rewrite Et, Ef.
      * unfold bindM at 1, tryM, bindM at 1, read_text, ret. rewrite Ef, IH.
        unfold candidate_names. now rewrite Et, Ef.
      * unfold bindM at 1, tryM, bindM at 1, read_text, ret. rewrite Ef, IH.
        unfold candidate_names. now rewrite Et, Ef, app_assoc.
    + rewrite IH. unfold candidate_names. now rewrite Et.
Qed.

Lemma candidate_names_truthy (files : string -> file) (cands : list (option string)) :
  Forall (fun n => PyStr.truthy n = true) (flat_map (candidate_names files) cands).
Proof.
  apply Forall_forall. intros n Hn. apply in_flat_map in Hn as (c & _ & Hn).
  unfold candidate_names in Hn. destruct c as [path|]; [|destruct Hn].
  destruct (PyStr.truthy path); [|destruct Hn].
  destruct (files path) as [| |doc]; try destruct Hn.
  exact (proj1 (Forall_forall _ _) (extract_names_truthy doc) n Hn).
Qed.

Lemma load_local_donors_spec (cands : list (option string)) (w : world) :
  _load_local_donors cands w
  = (Ret (Extractor.dedup_first (flat_map (candidate_names (fs w)) cands)), w).
Proof.
  unfold _load_local_donors, bindM. rewrite collect_spec. cbn [app]. unfold ret.
  now rewrite dedupe_truthy_dedup_first, (filter_all _ _ (candidate_names_truthy _ _)).
Qed.


(** The case the spec singles out: candidate A is missing (or holds no
    name), candidate B holds the names X and Y; the loader returns X, Y. *)
Example load_local_donors_skips_missing :
  let doc_b := [Html.el "div" ["donor-listing"]
                  [Html.el "span" ["donor-name"] [Html.Text "X"];
                   Html.el "span" ["donor-name"] [Html.Text "Y"]]] in
  let files_missing := fun p => if String.eqb p "b.html" then Content doc_b else Missing in
  let files_empty := update files_missing "a.html" (Content [Html.el "p" [] []]) in
  let files_broken := update files_missing "a.html" Unreadable in
  forall reqs tbl,
    fst (_load_local_donors [Some "a.html"; None; Some ""; Some "b.html"]
           {| fs := files_missing; requests := reqs; donors := tbl |}) = Ret ["X"; "Y"]
    /\ fst (_load_local_donors [Some "a.html"; Some "b.html"]
              {| fs := files_empty; requests := reqs; donors := tbl |}) = Ret ["X"; "Y"]
    /\ fst (_load_local_donors [Some "a.html"; Some "b.html"]
              {| fs := files_broken; requests := reqs; donors := tbl |}) = Ret ["X"; "Y"].
Proof.
  intros. rewrite !load_local_donors_spec. repeat split; vm_compute; reflexivity.
Qed.

(* ------------------------------------------------------------------------- *)
(** ** The destination store *)

Lemma rows_cons (name : string) (amount : option string)
      (rest : list (string * option string)) :
  rows ((name, amount) :: rest) =
  if PyStr.truthy name then (name, amount_value amount) :: rows rest else rows rest.
Proof. unfold rows. cbn [List.filter]. now destruct (PyStr.truthy name). Qed.

(** The insert loop: it raises exactly when one of its [execute] calls is
    made to fail, and otherwise leaves the rows appended to the view. *)
Lemma insert_loop_spec (E : env) (donors_list : list (string * option string)) :
  forall c,
    match insert_loop E donors_list c with
    | (Ret _, c') =>
        existsb (db_fault E) (seq (ops c) (length (rows donors_list))) = false
        /\ c' = {| view := view c ++ rows donors_list;
                   ops := ops c + length (rows donors_list) |}
    | (Raise e, _) =>
        existsb (db_fault E) (seq (ops c) (length (rows donors_list))) = true
        /\ e = DatabaseError
    end.
Proof.
  induction donors_list as [|[name amount] rest IH]; intro c.
  - cbn. destruct c as [v n]. cbn. now rewrite app_nil_r, Nat.add_0_r.
  - cbn [insert_loop]. rewrite rows_cons.
    destruct (PyStr.truthy name); cbn [negb]; [|apply IH].
    unfold bindM at 1, lift. rewrite parse_amount_to_number_value.
    unfold bindM at 1, execute. cbn [length seq existsb].
    destruct (db_fault E (ops c)) eqn:Ef; cbn [orb]; [now split|].
    specialize (IH {| view := apply_stmt (InsertDonor name (amount_value amount)) (view c);
                      ops := S (ops c) |}).
    cbn [view ops apply_stmt] in IH.
    destruct (insert_loop E rest _) as [[[]|e] c']; [|exact IH].
    destruct IH as [IHf ->]. split; [exact IHf|].
    now rewrite <- app_assoc, Nat.add_succ_r.
Qed.

Lemma seq_block (n : nat) : seq 0 (n + 3) = 0%nat :: 1%nat :: seq 2 n ++ [(2 + n)%nat].
Proof.
  replace (n + 3)%nat with (2 + S n)%nat by lia.
  rewrite seq_app. change (0 + 2)%nat with 2%nat. rewrite (seq_S n 2). reflexivity.
Qed.

Lemma replace_donors_spec (E : env) (donors_list : list (string * option string))
      (w : world) :
  replace_donors E donors_list w =
  if existsb (db_fault E) (seq 0 (length (rows donors_list) + 3))
  then (Raise DatabaseError, w)
  else (Ret tt, {| fs := fs w; requests := requests w; donors := rows donors_list |}).
Proof.
  rewrite seq_block. cbn [existsb]. rewrite existsb_app.
  cbn [existsb]. rewrite orb_false_r.
  unfold replace_donors, get_db.
  destruct (db_fault E 0); cbn [orb]; [reflexivity|].
  unfold bindM at 1, execute. cbn [ops view apply_stmt].
  destruct (db_fault E 1); cbn [orb]; [reflexivity|].
  pose proof (insert_loop_spec E donors_list {| view := []; ops := 2 |}) as H.
  cbn [ops view app] in H.
  destruct (insert_loop E donors_list _) as [[[]|e] c'].
  - destruct H as [-> ->]. cbn [orb ops view]. now destruct (db_fault E _).
  - destruct H as [-> ->]. reflexivity.
Qed.

(** C1: the replace is all-or-nothing.  The operations of the block are, in
    order, the connection (0), the [DELETE] (1), one [INSERT] for every
    tuple with a non-empty name (2 .. n+1) and the commit (n+2).  When one
    of them fails the block raises and the world, the donor records in it
    included, is as it was before; when none fails the donor records are
    exactly the new rows.  The committed table never holds anything else:
    it changes in the commit only. *)
Theorem replace_donors_all_or_nothing
        (E : env) (donors_list : list (string * option string)) (w : world) :
  replace_donors E donors_list w =
  (if existsb (db_fault E) (seq 0 (length (rows donors_list) + 3))
   then (Raise DatabaseError, w)
   else (Ret tt, {| fs := fs w; requests := requests w; donors := rows donors_list |}))
  /\ (donors (snd (replace_donors E donors_list w)) = donors w
      \/ donors (snd (replace_donors E donors_list w)) = rows donors_list).
Proof.
  split; [apply replace_donors_spec|]. rewrite replace_donors_spec.
  destruct (existsb _ _); [now left | now right].
Qed.

(** A failure after the [DELETE] and the first [INSERT], at the second
    [INSERT]: the old rows are still there. *)
Example replace_donors_fails_mid_insert :
  replace_donors (Scenario.run None Scenario.offline (Nat.eqb 3))
                 [("Ann Lee", None); ("Ben Ode", None); ("Cy Day", None)]
                 Scenario.no_files
  = (Raise DatabaseError, Scenario.no_files)
  /\ donors Scenario.no_files = [("Old Donor", PyFloat.Fin 25)].
Proof. split; [rewrite replace_donors_spec|]; reflexivity. Qed.

(* ------------------------------------------------------------------------- *)
(** ** The sync entry point *)

(** The fetcher never touches the donor records. *)
Lemma scrape_givecampus_donors (E : env) (url : string) (w : world) :
  donors (snd (scrape_givecampus_recent_donors E url w)) = donors w.
Proof.
  destruct (remote E (length (requests w)) url) as [soup|e] eqn:H.
  - destruct (scrape_givecampus_ok E url w soup H) as [files ->]. reflexivity.
  - unfold scrape_givecampus_recent_donors, bindM at 1, session_get at 1.
    rewrite H. reflexivity.
Qed.

(** The names the fetcher returns are non-empty and pairwise distinct. *)
Lemma scrape_givecampus_shape (E : env) (url : string) (w w' : world)
      (out : list (string * option string)) :
  scrape_givecampus_recent_donors E url w = (Ret out, w') ->
  exists names,
    out = map no_amount names
    /\ Forall (fun n => PyStr.truthy n = true) names /\ NoDup names.
Proof.
  destruct (remote E (length (requests w)) url) as [soup|e] eqn:H.
  - destruct (scrape_givecampus_ok E url w soup H) as [files ->].
    intros [= <- _]. eexists. split; [reflexivity|].
    split; [|apply NoDup_dedup_first].
    apply Forall_forall. intros n Hn. apply (proj1 (In_dedup_first _ _)) in Hn.
    apply in_app_iff in Hn as [Hn|Hn].
    + exact (proj1 (Forall_forall _ _) (extract_names_truthy soup) n Hn).
    + unfold secondary_names in Hn.
      destruct (secondary_outcome _ _ _) as [[modal_soup|]|]; try destruct Hn.
      exact (proj1 (Forall_forall _ _) (extract_names_truthy modal_soup) n Hn).
  - unfold scrape_givecampus_recent_donors, bindM at 1, session_get at 1.
    rewrite H. discriminate.
Qed.

Lemma well_formed_nil : well_formed [].
Proof. exists []. repeat split; constructor. Qed.

Lemma remote_step_spec (E : env) (row : option (option string)) (w : world) :
  exists donors_list w',
    remote_step E row w = (Ret donors_list, w')
    /\ donors w' = donors w /\ well_formed donors_list.
Proof.
  unfold remote_step.
  destruct row as [[donor_website|]|];
    try (exists [], w; repeat split; apply well_formed_nil).
  destruct (PyStr.truthy donor_website);
    [|exists [], w; repeat split; apply well_formed_nil].
  unfold tryM.
  pose proof (scrape_givecampus_donors E donor_website w) as Hd.
  pose proof (scrape_givecampus_shape E donor_website w) as Hs.
  destruct (scrape_givecampus_recent_donors E donor_website w) as [[out|e] w'].
  - exists out, w'. split; [reflexivity|]. split; [exact Hd|]. now apply (Hs w').
  - exists [], w'. split; [reflexivity|]. split; [exact Hd | apply well_formed_nil].
Qed.

Lemma fallback_step_spec (E : env) (donors_list : list (string * option string))
      (w : world) :
  well_formed donors_list ->
  exists donors_list',
    fallback_step E donors_list w = (Ret donors_list', w)
    /\ well_formed donors_list'.
Proof.
  intro Hwf. unfold fallback_step.
  destruct donors_list as [|t r]; cbn [is_empty]; [|now exists (t :: r)].
  unfold bindM. rewrite load_local_donors_spec. cbn [app]. unfold ret.
  eexists. split; [reflexivity|]. eexists. split; [reflexivity|].
  split; [|apply NoDup_dedup_first].
  apply Forall_forall. intros n Hn. apply (proj1 (In_dedup_first _ _)) in Hn.
  exact (proj1 (Forall_forall _ _) (candidate_names_truthy _ _) n Hn).
Qed.

(** What the two steps gather leaves the donor records alone, and holds
    non-empty, pairwise distinct names without amounts. *)
Lemma gather_spec (E : env) (w w1 : world) (donors_list : list (string * option string)) :
  gather E w = (Ret donors_list, w1) ->
  donors w1 = donors w /\ well_formed donors_list.
Proof.
  unfold gather, bindM at 1, lift.
  destruct (settings_row E) as [row|e]; [|discriminate].
  unfold bindM.
  destruct (remote_step_spec E row w) as (dl & w' & -> & Hd & Hwf).
  destruct (fallback_step_spec E dl w' Hwf) as (dl' & -> & Hwf').
  intros [= <- <-]. now split.
Qed.

Lemma scrape_donors_gather (E : env) (w : world) :
  scrape_donors E w =
  bindM (gather E)
        (fun donors_list =>
           if is_empty donors_list then ret no_data
           else bindM (replace_donors E donors_list)
                      (fun _ => ret (success (length donors_list)))) w.
Proof.
  unfold scrape_donors, gather, bindM, lift.
  destruct (settings_row E) as [row|e]; [|reflexivity].
  destruct (remote_step E row w) as [[dl|e] w']; [|reflexivity].
  destruct (fallback_step E dl w') as [[dl'|e] w'']; reflexivity.
Qed.

Lemma rows_well_formed (names : list string) :
  Forall (fun n => PyStr.truthy n = true) names ->
  rows (map no_amount names) = map (fun n => (n, PyFloat.zero)) names.
Proof.
  induction 1 as [|n r Hn _ IH]; [reflexivity|].
  cbn [map]. unfold no_amount at 1. rewrite rows_cons, Hn, IH. reflexivity.
Qed.

(** C5: when the remote step and the fallback step together yield no
    tuple, the entry point answers with the no-data response, status 400
    (success is status 200), and the donor records are those it found. *)
Theorem scrape_donors_no_data (E : env) (w w1 : world) :
  gather E w = (Ret [], w1) ->
  scrape_donors E w = (Ret no_data, w1)
  /\ donors w1 = donors w
  /\ status no_data = 400%nat
  /\ donors_count no_data = None
  /\ forall count, status (success count) = 200%nat.
Proof.
  intro H. destruct (gather_spec E w w1 [] H) as [Hd _].
  rewrite scrape_donors_gather. unfold bindM at 1. rewrite H.
  repeat split; assumption.
Qed.

Lemma scrape_donors_no_data_witness :
  gather (Scenario.run None Scenario.offline Scenario.never) Scenario.no_files
  = (Ret [], Scenario.no_files)
  /\ scrape_donors (Scenario.run None Scenario.offline Scenario.never) Scenario.no_files
     = (Ret no_data, Scenario.no_files)
  /\ donors Scenario.no_files = Scenario.old_rows.
Proof.
  split; [reflexivity|].
  pose proof (scrape_donors_no_data
                (Scenario.run None Scenario.offline Scenario.never)
                Scenario.no_files Scenario.no_files eq_refl) as [H _].
  split; [exact H | reflexivity].
Defined.

(** C7: when the entry point reports success, the count it reports is the
    number of donor records in the store after the run, all of them
    inserted by this run, one for every name gathered; the names are
    non-empty and pairwise distinct, and every amount is [0.0]. *)
Theorem scrape_donors_count (E : env) (w w' : world) (r : response) :
  scrape_donors E w = (Ret r, w') ->
  status r = 200%nat ->
  donors_count r = Some (length (donors w'))
  /\ exists names,
      donors w' = map (fun n => (n, PyFloat.zero)) names
      /\ NoDup names
      /\ Forall (fun n => n <> "") names.
Proof.
  rewrite scrape_donors_gather. unfold bindM at 1.
  destruct (gather E w) as [[donors_list|e] w1] eqn:Hg; [|discriminate].
  destruct (gather_spec E w w1 donors_list Hg) as [_ (names & -> & Ht & Hnd)].
  destruct (is_empty (map no_amount names)); [intros [= <- _]; discriminate|].
  unfold bindM. rewrite replace_donors_spec.
  destruct (existsb _ _); [discriminate|].
  unfold ret. intros [= <- <-] _. cbn [donors donors_count success].
  rewrite (rows_well_formed names Ht), !length_map.
  split; [reflexivity|]. exists names. split; [reflexivity|]. split; [assumption|].
  apply Forall_forall. intros n Hn. apply truthy_nonempty.
  exact (proj1 (Forall_forall _ _) Ht n Hn).
Qed.

(** The remote site is unreachable and the snapshot file holds five names:
    success, count 5, five records with amount [0.0]. *)
Lemma scrape_donors_count_witness :
  scrape_donors (Scenario.run (Some Scenario.primary_url) Scenario.offline Scenario.never)
                Scenario.with_snapshot
  = (Ret (success 5),
     snd (scrape_donors
            (Scenario.run (Some Scenario.primary_url) Scenario.offline Scenario.never)
            Scenario.with_snapshot))
  /\ status (success 5) = 200%nat
  /\ donors_count (success 5)
     = Some (length (donors (snd (scrape_donors
                                    (Scenario.run (Some Scenario.primary_url)
                                                  Scenario.offline Scenario.never)
                                    Scenario.with_snapshot))))
  /\ donors (snd (scrape_donors
                    (Scenario.run (Some Scenario.primary_url)
                                  Scenario.offline Scenario.never)
                    Scenario.with_snapshot))
     = [("Ann Lee", PyFloat.zero); ("Ben Ode", PyFloat.zero); ("Cy Day", PyFloat.zero);
        ("Di Eng", PyFloat.zero); ("Ed Fox", PyFloat.zero)].
Proof.
  split; [vm_compute; reflexivity|]. split; [reflexivity|].
  split; [|vm_compute; reflexivity].
  exact (proj1 (scrape_donors_count
                  (Scenario.run (Some Scenario.primary_url) Scenario.offline Scenario.never)
                  Scenario.with_snapshot _ (success 5) eq_refl eq_refl)).
Defined.

(* ========================================================================= *)
(** * Further properties of the pipeline *)

(* ------------------------------------------------------------------------- *)
(** ** [parse_amount_to_number] looks at digits and periods only *)

Lemma float_empty : FloatParse.float "" = None.
Proof. reflexivity. Qed.

Lemma parse_amount_same_cleaned (s t : string) :
  cleaned s = cleaned t ->
  parse_amount_to_number (Some s) = parse_amount_to_number (Some t).
Proof.
  intro H. rewrite !parse_amount_to_number_value. unfold amount_value.
  rewrite <- H. destruct (FloatParse.float (cleaned s)) as [x|] eqn:Ef; [|reflexivity].
  destruct s as [|c s']; [cbn in Ef; discriminate|].
  destruct t as [|d t']; [|reflexivity].
  rewrite H in Ef. cbn in Ef. discriminate.
Qed.

(** X1: Two amount strings with the same digits and periods, in the same
    order, normalize to the same number: currency symbols, separators,
    letters and signs are all ignored. *)
Theorem parse_amount_ignores_symbols (s t : string) :
  cleaned s = cleaned t ->
  parse_amount_to_number (Some s) = parse_amount_to_number (Some t).
Proof. apply parse_amount_same_cleaned. Qed.

Lemma parse_amount_ignores_symbols_witness :
  cleaned "$1,200.50" = cleaned "USD 1200.50"
  /\ parse_amount_to_number (Some "$1,200.50")
     = parse_amount_to_number (Some "USD 1200.50").
Proof.
  split; [reflexivity|].
  apply (parse_amount_ignores_symbols "$1,200.50" "USD 1200.50"). reflexivity.
Defined.

(** X2: A minus sign is among the characters dropped: the amount ["-x"]
    normalizes to what ["x"] normalizes to, so a negative amount is stored
    as a positive one. *)
Theorem parse_amount_drops_minus (s : string) :
  parse_amount_to_number (Some (String "-" s)) = parse_amount_to_number (Some s).
Proof. apply parse_amount_same_cleaned. reflexivity. Qed.

(* ------------------------------------------------------------------------- *)
(** ** The snapshot cache *)






(* ------------------------------------------------------------------------- *)
(** ** The fetcher: requests and failure *)

Lemma scrape_givecampus_fail (E : env) (url : string) (w : world) (e : exn) :
  remote E (length (requests w)) url = Raise e ->
  scrape_givecampus_recent_donors E url w =
  (Raise e, {| fs := fs w; requests := requests w ++ [url]; donors := donors w |}).
Proof.
  intro H. unfold scrape_givecampus_recent_donors, bindM at 1, session_get at 1.
  now rewrite H.
Qed.

Lemma secondary_requests_length (soup : Html.soup) :
  (length (secondary_requests soup) <= 1)%nat.
Proof.
  unfold secondary_requests. destruct (_find_campaign_id soup) as [i|]; cbn; [|lia].
  destruct (PyStr.truthy i); cbn; lia.
Qed.

Lemma scrape_givecampus_requests_spec (E : env) (url : string) (w : world) :
  exists more,
    requests (snd (scrape_givecampus_recent_donors E url w)) = requests w ++ url :: more
    /\ (length more <= 1)%nat
    /\ match remote E (length (requests w)) url with
       | Ret soup => more = secondary_requests soup
       | Raise e => more = [] /\ fst (scrape_givecampus_recent_donors E url w) = Raise e
       end.
Proof.
  destruct (remote E (length (requests w)) url) as [soup|e] eqn:H.
  - destruct (scrape_givecampus_ok E url w soup H) as [files ->].
    exists (secondary_requests soup). cbn [snd requests].
    split; [reflexivity|]. split; [apply secondary_requests_length | reflexivity].
  - rewrite (scrape_givecampus_fail E url w e H). exists []. cbn.
    repeat split. lia.
Qed.

(** X5: The fetcher sends the request for the primary page first and at most one
    more; when the primary request fails the error reaches the caller and no
    second request is sent. *)
Theorem scrape_givecampus_requests (E : env) (url : string) (w : world) :
  exists more,
    requests (snd (scrape_givecampus_recent_donors E url w)) = requests w ++ url :: more
    /\ (length more <= 1)%nat
    /\ match remote E (length (requests w)) url with
       | Ret soup => more = secondary_requests soup
       | Raise e => more = [] /\ fst (scrape_givecampus_recent_donors E url w) = Raise e
       end.
Proof. apply scrape_givecampus_requests_spec. Qed.

(* ------------------------------------------------------------------------- *)
(** ** The sync entry point: recovery, failure, requests *)

Lemma remote_step_requests (E : env) (row : option (option string)) (w : world) :
  exists l,
    requests (snd (remote_step E row w)) = requests w ++ l
    /\ (length l <= 2)%nat
    /\ match row with
       | Some (Some u) => if PyStr.truthy u then hd_error l = Some u else l = []
       | _ => l = []
       end.
Proof.
  unfold remote_step.
  destruct row as [[u|]|]; try (exists []; cbn; rewrite app_nil_r; repeat split; lia).
  destruct (PyStr.truthy u);
    [|exists []; cbn; rewrite app_nil_r; repeat split; lia].
  destruct (scrape_givecampus_requests_spec E u w) as (more & Hr & Hl & _).
  exists (u :: more). unfold tryM, ret.
  destruct (scrape_givecampus_recent_donors E u w) as [[out|e] w'];
    cbn [snd] in *; (split; [exact Hr|]); split; cbn; try reflexivity; lia.
Qed.

Lemma gather_total (E : env) (row : option (option string)) (w : world) :
  settings_row E = Ret row ->
  exists donors_list w1,
    gather E w = (Ret donors_list, w1)
    /\ w1 = snd (remote_step E row w).
Proof.
  intro Hs. unfold gather, bindM at 1, lift. rewrite Hs. unfold bindM.
  destruct (remote_step_spec E row w) as (dl & w' & Hr & _ & Hwf). rewrite Hr.
  destruct (fallback_step_spec E dl w' Hwf) as (dl' & -> & _).
  now exists dl', w'.
Qed.



Lemma gather_raise (E : env) (w w1 : world) (e : exn) :
  gather E w = (Raise e, w1) -> settings_row E = Raise e /\ w1 = w.
Proof.
  intro Hg. destruct (settings_row E) as [row|e'] eqn:Hs.
  - destruct (gather_total E row w Hs) as (dl & w1' & Hg' & _).
    rewrite Hg' in Hg. discriminate.
  - unfold gather, bindM at 1, lift in Hg. rewrite Hs in Hg.
    now injection Hg as -> ->.
Qed.

(** The three ways the entry point ends. *)
Lemma scrape_donors_outcome (E : env) (w : world) :
  match scrape_donors E w with
  | (Ret r, w') =>
      (r = no_data /\ w' = snd (gather E w) /\ donors w' = donors w)
      \/ (exists donors_list,
            fst (gather E w) = Ret donors_list
            /\ r = success (length donors_list)
            /\ w' = {| fs := fs (snd (gather E w));
                       requests := requests (snd (gather E w));
                       donors := rows donors_list |})
  | (Raise e, w') => w' = snd (gather E w) /\ donors w' = donors w
  end.
Proof.
  rewrite scrape_donors_gather. unfold bindM at 1.
  destruct (gather E w) as [[dl|e] w1] eqn:Hg; cbn [fst snd].
  - destruct (gather_spec E w w1 dl Hg) as [Hd _].
    destruct (is_empty dl); [left; now repeat split|].
    unfold bindM. rewrite replace_donors_spec.
    destruct (existsb _ _); [now split|].
    right. exists dl. now repeat split.
  - destruct (gather_raise E w w1 e Hg) as [_ ->]. now split.
Qed.

(** X7: Unless the entry point reports success the donor records are what they
    were: on the no-data response and on every exception alike. *)
Theorem scrape_donors_store_kept_unless_success (E : env) (w : world) :
  match fst (scrape_donors E w) with
  | Ret r => status r = 200%nat \/ donors (snd (scrape_donors E w)) = donors w
  | Raise _ => donors (snd (scrape_donors E w)) = donors w
  end.
Proof.
  pose proof (scrape_donors_outcome E w) as H.
  destruct (scrape_donors E w) as [[r|e] w']; cbn [fst snd].
  - destruct H as [(_ & _ & Hd)|(dl & _ & -> & _)]; [now right | now left].
  - apply H.
Qed.

(** X8: The entry point sends at most two requests; it sends none when no
    source URL is configured (no settings row, a null or an empty column),
    and otherwise the first one goes to the configured URL. *)
Theorem scrape_donors_requests (E : env) (w : world) :
  exists l,
    requests (snd (scrape_donors E w)) = requests w ++ l
    /\ (length l <= 2)%nat
    /\ match settings_row E with
       | Ret (Some (Some u)) => if PyStr.truthy u then hd_error l = Some u else l = []
       | _ => l = []
       end.
Proof.
  assert (requests (snd (scrape_donors E w)) = requests (snd (gather E w))) as ->.
  { pose proof (scrape_donors_outcome E w) as H.
    destruct (scrape_donors E w) as [[r|e] w']; cbn [snd].
    - destruct H as [(_ & -> & _)|(dl & _ & _ & ->)]; reflexivity.
    - now destruct H as [-> _]. }
  destruct (settings_row E) as [row|e] eqn:Hs.
  - destruct (gather_total E row w Hs) as (dl & w1 & -> & ->). cbn [snd].
    destruct (remote_step_requests E row w) as (l & Hr & Hl & Hm).
    exists l. split; [exact Hr|]. split; [exact Hl|].
    destruct row as [[u|]|]; exact Hm.
  - unfold gather, bindM at 1, lift. rewrite Hs. cbn [snd].
    exists []. rewrite app_nil_r. repeat split. cbn. lia.
Qed.

(** X9: Names from the remote site keep the snapshot files out: when the
    fetcher returns at least one name, the stored records are its names and
    nothing else, whatever the local files hold. *)
Theorem scrape_donors_remote_first
        (E : env) (url : string) (w w1 : world) (out : list (string * option string)) :
  settings_row E = Ret (Some (Some url)) ->
  PyStr.truthy url = true ->
  scrape_givecampus_recent_donors E url w = (Ret out, w1) ->
  out <> [] ->
  (forall n, db_fault E n = false) ->
  scrape_donors E w =
  (Ret (success (length out)),
   {| fs := fs w1; requests := requests w1; donors := rows out |}).
Proof.
  intros Hs Ht Hf Hne Hdb.
  unfold scrape_donors, bindM at 1, lift. rewrite Hs.
  unfold bindM at 1, remote_step, tryM. rewrite Ht, Hf.
  unfold bindM at 1, fallback_step.
  destruct out as [|t r]; [contradiction|]. cbn [is_empty]. unfold ret at 1.
  cbn [is_empty]. unfold bindM. rewrite replace_donors_spec.
  assert (existsb (db_fault E) (seq 0 (length (rows (t :: r)) + 3)) = false) as ->.
  { apply not_true_is_false. intro H. apply existsb_exists in H as (n & _ & Hn).
    rewrite Hdb in Hn. discriminate. }
  reflexivity.
Qed.

Lemma scrape_donors_remote_first_witness :
  settings_row (Scenario.run (Some Scenario.primary_url) (Scenario.site true)
                             Scenario.never)
  = Ret (Some (Some Scenario.primary_url))
  /\ PyStr.truthy Scenario.primary_url = true
  /\ (forall n, db_fault (Scenario.run (Some Scenario.primary_url) (Scenario.site true)
                                        Scenario.never) n = false)
  /\ donors (snd (scrape_donors
                    (Scenario.run (Some Scenario.primary_url) (Scenario.site true)
                                  Scenario.never)
                    Scenario.with_snapshot))
     = [("Ann Lee", PyFloat.zero); ("Ben Ode", PyFloat.zero);
        ("Cy Day", PyFloat.zero); ("Di Eng", PyFloat.zero)].
Proof.
  split; [reflexivity|]. split; [reflexivity|]. split; [reflexivity|].
  rewrite (scrape_donors_remote_first
             (Scenario.run (Some Scenario.primary_url) (Scenario.site true) Scenario.never)
             Scenario.primary_url Scenario.with_snapshot
             (snd (scrape_givecampus_recent_donors
                     (Scenario.run (Some Scenario.primary_url) (Scenario.site true)
                                   Scenario.never)
                     Scenario.primary_url Scenario.with_snapshot))
             [("Ann Lee", None); ("Ben Ode", None); ("Cy Day", None); ("Di Eng", None)]
             eq_refl eq_refl).
  - reflexivity.
  - vm_compute. reflexivity.
  - discriminate.
  - reflexivity.
Defined.

(* ------------------------------------------------------------------------- *)
(** ** The extractor on a document made of two parts *)

Lemma select_app (sel : Html.selector) (f g : Html.soup) :
  Html.select sel (f ++ g) = Html.select sel f ++ Html.select sel g.
Proof.
  unfold Html.select, Html.elements. now rewrite flat_map_app, filter_app, map_app.
Qed.

Lemma candidates_app (f g : Html.soup) (raw : string) :
  In raw (Extractor.candidates (f ++ g))
  <-> In raw (Extractor.candidates f) \/ In raw (Extractor.candidates g).
Proof.
  unfold Extractor.candidates. rewrite !in_app_iff, !in_flat_map. split.
  - intros [(sel & Hs & Hr)|(row & Hrow & Hr)].
    + rewrite select_app, map_app in Hr. apply in_app_iff in Hr as [Hr|Hr];
        [left | right]; left; now exists sel.
    + rewrite select_app in Hrow. apply in_app_iff in Hrow as [Hrow|Hrow];
        [left | right]; right; now exists row.
  - intros [[(sel & Hs & Hr)|(row & Hrow & Hr)]|[(sel & Hs & Hr)|(row & Hrow & Hr)]].
    + left. exists sel. split; [assumption|]. rewrite select_app, map_app.
      apply in_app_iff. now left.
    + right. exists row. split; [|assumption]. rewrite select_app.
      apply in_app_iff. now left.
    + left. exists sel. split; [assumption|]. rewrite select_app, map_app.
      apply in_app_iff. now right.
    + right. exists row. split; [|assumption]. rewrite select_app.
      apply in_app_iff. now right.
Qed.

Lemma In_clean (l : list string) (n : string) :
  In n (Extractor.clean l)
  <-> exists raw, In raw l /\ Extractor.normalize raw = n /\ PyStr.truthy n = true.
Proof.
  unfold Extractor.clean. rewrite filter_In, in_map_iff. split.
  - intros [(raw & Hn & Hin) Ht]. now exists raw.
  - intros (raw & Hin & Hn & Ht). split; [now exists raw | assumption].
Qed.

(** X10: The names found in two documents put one after the other are those
    found in the first together with those found in the second: no name is
    lost and none appears. *)
Theorem extract_donor_names_app (f g : Html.soup) (n : string) :
  In n (Extractor._extract_donor_names (f ++ g))
  <-> In n (Extractor._extract_donor_names f) \/ In n (Extractor._extract_donor_names g).
Proof.
  rewrite !extract_names_dedup, !In_dedup_first, !In_clean. split.
  - intros (raw & Hin & Hn & Ht). apply candidates_app in Hin as [Hin|Hin];
      [left | right]; now exists raw.
  - intros [(raw & Hin & Hn & Ht)|(raw & Hin & Hn & Ht)]; exists raw;
      (split; [apply candidates_app; auto | now split]).
Qed.

(* ------------------------------------------------------------------------- *)
(** ** The donor list API *)

Section Pagination.
Import Api.

Lemma fits_int64_spec (n : Z) : fits_int64 n = true <-> - 2 ^ 63 <= n < 2 ^ 63.
Proof. unfold fits_int64. rewrite andb_true_iff, Z.leb_le, Z.ltb_lt. tauto. Qed.

Lemma get_donors_regular (page per_page : Z) (t : table) :
  1 <= page -> 0 <= per_page -> (page - 1) * per_page < 2 ^ 63 -> per_page < 2 ^ 63 ->
  get_donors page per_page t =
  Ret (firstn (Z.to_nat per_page) (skipn (Z.to_nat ((page - 1) * per_page)) t)).
Proof.
  intros Hp Hn Ho Hn'. unfold get_donors.
  assert (fits_int64 per_page = true) as -> by (apply fits_int64_spec; lia).
  assert (fits_int64 ((page - 1) * per_page) = true) as ->
      by (apply fits_int64_spec; nia).
  cbn [andb]. unfold sql_limit, sql_offset.
  now destruct (Z.ltb_spec per_page 0); [lia|].
Qed.

End Pagination.

(** X11: A page holds at most [per_page] rows, taken from the table in order
    after the rows of the pages before it. *)
Theorem get_donors_page (page per_page : Z) (t : table) :
  1 <= page -> 0 <= per_page -> (page - 1) * per_page < 2 ^ 63 -> per_page < 2 ^ 63 ->
  exists rows_of_page,
    Api.get_donors page per_page t = Ret rows_of_page
    /\ rows_of_page
       = firstn (Z.to_nat per_page) (skipn (Z.to_nat ((page - 1) * per_page)) t)
    /\ (length rows_of_page <= Z.to_nat per_page)%nat.
Proof.
  intros Hp Hn Ho Hn'. eexists. split; [now apply get_donors_regular|].
  split; [reflexivity|]. apply firstn_le_length.
Qed.

Lemma get_donors_page_witness :
  exists rows_of_page,
    Api.get_donors 2 2 [("a", PyFloat.zero); ("b", PyFloat.zero); ("c", PyFloat.zero)]
    = Ret rows_of_page
    /\ rows_of_page
       = firstn (Z.to_nat 2) (skipn (Z.to_nat ((2 - 1) * 2))
                 [("a", PyFloat.zero); ("b", PyFloat.zero); ("c", PyFloat.zero)])
    /\ (length rows_of_page <= Z.to_nat 2)%nat.
Proof. apply get_donors_page; lia. Defined.

Lemma firstn_plus {A : Type} (a b : nat) (l : list A) :
  firstn (a + b) l = firstn a l ++ firstn b (skipn a l).
Proof.
  revert l. induction a as [|a IH]; intro l; [reflexivity|].
  destruct l as [|x r]; cbn; [now rewrite firstn_nil | now rewrite IH].
Qed.

(** X12: With a positive page size the pages 1 .. k, read one after the other,
    are the first [k * per_page] rows of the table: no row is skipped and
    none is served twice. *)
Theorem get_donors_pages_cover (k : nat) (per_page : Z) (t : table) :
  0 < per_page ->
  Z.of_nat k * per_page < 2 ^ 63 ->
  per_page < 2 ^ 63 ->
  exists chunks,
    Api.pages k per_page t = map Ret chunks
    /\ concat chunks = firstn (k * Z.to_nat per_page) t.
Proof.
  intros Hn Hk Hn'. unfold Api.pages. induction k as [|k IH].
  - exists []. split; reflexivity.
  - destruct IH as (chunks & Hc & Hcat); [nia|].
    rewrite seq_S, map_app, Hc. cbn [map Nat.add].
    rewrite get_donors_regular by nia.
    eexists (chunks ++ [_]). split; [now rewrite map_app|].
    rewrite concat_app, Hcat. cbn [concat]. rewrite app_nil_r.
    replace (Z.to_nat ((Z.of_nat (S k) - 1) * per_page))
      with (k * Z.to_nat per_page)%nat by nia.
    rewrite <- firstn_plus. f_equal. lia.
Qed.

Lemma get_donors_pages_cover_witness :
  exists chunks,
    Api.pages 2 2 [("a", PyFloat.zero); ("b", PyFloat.zero); ("c", PyFloat.zero)]
    = map Ret chunks
    /\ concat chunks
       = firstn (2 * Z.to_nat 2)
                [("a", PyFloat.zero); ("b", PyFloat.zero); ("c", PyFloat.zero)].
Proof. apply get_donors_pages_cover; lia. Defined.

(** X13: A page number below one is served like page one: the offset it gives
    is negative, and SQLite counts a negative offset as zero. *)
Theorem get_donors_page_below_one (page per_page : Z) (t : table) :
  page <= 0 ->
  0 <= per_page < 2 ^ 63 ->
  - 2 ^ 63 <= (page - 1) * per_page ->
  Api.get_donors page per_page t = Api.get_donors 1 per_page t.
Proof.
  intros Hp Hn Ho. unfold Api.get_donors.
  assert (Api.fits_int64 per_page = true) as -> by (apply fits_int64_spec; lia).
  assert (Api.fits_int64 ((page - 1) * per_page) = true) as ->
      by (apply fits_int64_spec; nia).
  assert (Api.fits_int64 ((1 - 1) * per_page) = true) as ->
      by (apply fits_int64_spec; lia).
  cbn [andb]. unfold Api.sql_offset. do 2 f_equal.
  replace (Z.to_nat ((page - 1) * per_page)) with 0%nat by nia.
  now replace (Z.to_nat ((1 - 1) * per_page)) with 0%nat by lia.
Qed.

Lemma get_donors_page_below_one_witness :
  Api.get_donors (-3) 2 [("a", PyFloat.zero); ("b", PyFloat.zero); ("c", PyFloat.zero)]
  = Api.get_donors 1 2 [("a", PyFloat.zero); ("b", PyFloat.zero); ("c", PyFloat.zero)].
Proof. apply get_donors_page_below_one; lia. Defined.

(** X14: A negative page size lifts the limit: from page one on, the whole
    table is returned whatever the page. *)
Theorem get_donors_negative_per_page (page per_page : Z) (t : table) :
  1 <= page ->
  - 2 ^ 63 <= per_page < 0 ->
  - 2 ^ 63 <= (page - 1) * per_page ->
  Api.get_donors page per_page t = Ret t.
Proof.
  intros Hp Hn Ho. unfold Api.get_donors.
  assert (Api.fits_int64 per_page = true) as -> by (apply fits_int64_spec; lia).
  assert (Api.fits_int64 ((page - 1) * per_page) = true) as ->
      by (apply fits_int64_spec; nia).
  cbn [andb]. unfold Api.sql_limit, Api.sql_offset.
  destruct (Z.ltb_spec per_page 0); [|lia].
  now replace (Z.to_nat ((page - 1) * per_page)) with 0%nat by nia.
Qed.

Lemma get_donors_negative_per_page_witness :
  Api.get_donors 5 (-1) [("a", PyFloat.zero); ("b", PyFloat.zero); ("c", PyFloat.zero)]
  = Ret [("a", PyFloat.zero); ("b", PyFloat.zero); ("c", PyFloat.zero)].
Proof. apply get_donors_negative_per_page; lia. Defined.

(* ------------------------------------------------------------------------- *)
(** ** Upload file names *)

Section UploadFacts.
Import Upload.

Lemma after_last_dot_none (s : string) :
  after_last_dot s = None <-> has_dot s = false.
Proof.
  induction s as [|c r IH]; cbn; [tauto|].
  destruct (after_last_dot r) as [e|].
  - split; [discriminate|]. intro H. apply orb_false_iff in H as [_ H].
    apply IH in H. discriminate.
  - destruct (Ascii.eqb c "."); cbn; [split; discriminate | tauto].
Qed.

Lemma after_last_dot_some (s ext : string) :
  after_last_dot s = Some ext <->
  exists name, s = (name ++ "." ++ ext)%string /\ has_dot ext = false.
Proof.
  revert ext. induction s as [|c r IH]; intro ext.
  - cbn. split; [discriminate|]. intros (name & H & _). destruct name; discriminate.
  - cbn [after_last_dot]. destruct (after_last_dot r) as [e|] eqn:Er.
    + split.
      * intros [= <-]. destruct (proj1 (IH e) eq_refl) as (name & -> & Hd).
        exists (String c name). now split.
      * intros (name & H & Hd). destruct name as [|d name].
        -- cbn in H. injection H as -> ->. apply after_last_dot_none in Hd.
           rewrite Hd in Er. discriminate.
        -- cbn in H. injection H as -> ->.
           exact (proj2 (IH ext) (ex_intro _ name (conj eq_refl Hd))).
    + apply after_last_dot_none in Er. split.
      * destruct (Ascii.eqb_spec c "."); [|discriminate]. intros [= <-]. subst c.
        exists EmptyString. now split.
      * intros (name & H & Hd). destruct name as [|d name].
        -- cbn in H. injection H as -> ->. reflexivity.
        -- cbn in H. injection H as -> ->. exfalso. clear IH.
           induction name as [|x name IHn]; cbn in Er; [discriminate|].
           apply orb_false_iff in Er as [_ Er]. auto.
Qed.

End UploadFacts.

(** X15: A file name is accepted exactly when it has a period and what follows
    its last period is, up to the case of the letters, one of [png], [jpg],
    [jpeg], [gif]: only the last extension counts, and a name without a
    period is refused. *)
Theorem allowed_file_iff (filename : string) :
  Upload.allowed_file filename = true <->
  exists name ext,
    filename = (name ++ "." ++ ext)%string
    /\ Upload.has_dot ext = false
    /\ In (Upload.lower ext) Upload.ALLOWED_EXTENSIONS.
Proof.
  unfold Upload.allowed_file. split.
  - intro H. apply andb_true_iff in H as [_ H].
    destruct (Upload.after_last_dot filename) as [ext|] eqn:E; [|discriminate].
    apply after_last_dot_some in E as (name & -> & Hd).
    exists name, ext. split; [reflexivity|]. split; [assumption|].
    apply existsb_exists in H as (a & Ha & Heq). apply String.eqb_eq in Heq.
    now subst.
  - intros (name & ext & -> & Hd & Hin).
    rewrite (proj2 (after_last_dot_some _ ext) (ex_intro _ name (conj eq_refl Hd))).
    apply andb_true_iff. split.
    + destruct (Upload.has_dot (name ++ "." ++ ext)) eqn:E; [reflexivity|].
      apply after_last_dot_none in E.
      rewrite (proj2 (after_last_dot_some _ ext) (ex_intro _ name (conj eq_refl Hd))) in E.
      discriminate.
    + apply existsb_exists. exists (Upload.lower ext). split; [assumption|].
      apply String.eqb_refl.
Qed.

(* ------------------------------------------------------------------------- *)
(** ** The admin screens for donors *)

Lemma parse_amount_admin_value (text : string) :
  _parse_amount (Some text) = Ret (Admin.amount_of text).
Proof.
  unfold _parse_amount, Admin.amount_of, py_float.
  destruct (String.eqb (PyStr.strip text) "") eqn:E0.
  - apply String.eqb_eq in E0. rewrite E0. reflexivity.
  - cbn [orb]. destruct (String.eqb (PyStr.strip text) "None");
      destruct (FloatParse.float (PyStr.strip text)); reflexivity.
Qed.

Section AdminFacts.
Import Admin.

Lemma increasing_filter (p : donor -> bool) (l : list donor) :
  increasing l -> increasing (List.filter p l).
Proof.
  induction l as [|d r IH]; cbn; [trivial|]. intros [Hd Hr].
  destruct (p d); cbn; [|auto]. split; [|auto].
  apply Forall_forall. intros x Hx. apply filter_In in Hx as [Hx _].
  exact (proj1 (Forall_forall _ _) Hd x Hx).
Qed.

Lemma increasing_map (g : donor -> donor) (l : list donor) :
  (forall d, did (g d) = did d) -> increasing l -> increasing (map g l).
Proof.
  intro Hg. induction l as [|d r IH]; cbn; [trivial|]. intros [Hd Hr].
  split; [|auto]. apply Forall_forall. intros x Hx.
  apply in_map_iff in Hx as (y & <- & Hy). rewrite !Hg.
  exact (proj1 (Forall_forall _ _) Hd y Hy).
Qed.

Lemma increasing_snoc (l : list donor) (d : donor) :
  increasing l -> Forall (fun x => did x < did d) l -> increasing (l ++ [d]).
Proof.
  induction l as [|x r IH]; cbn; [now repeat split|]. intros [Hx Hr] Hlt.
  inversion Hlt as [|? ? Hxd Hrd]; subst. split; [|auto].
  apply Forall_app. split; [assumption | now constructor].
Qed.

Lemma increasing_NoDup (l : list donor) : increasing l -> NoDup (map did l).
Proof.
  induction l as [|d r IH]; cbn; [constructor|]. intros [Hd Hr].
  constructor; [|auto]. intro Hin. apply in_map_iff in Hin as (x & Hx & Hin).
  pose proof (proj1 (Forall_forall _ _) Hd x Hin) as Hle; cbv beta in Hle. lia.
Qed.

Lemma well_formed_insert (name : string) (amount : PyFloat.t) (s : store) :
  well_formed s -> well_formed (insert_donor name amount s).
Proof.
  intros [Hi Hb]. split; cbn [insert_donor drows last_id].
  - apply increasing_snoc; [assumption|]. cbn [did].
    apply Forall_forall. intros x Hx.
    pose proof (proj1 (Forall_forall _ _) Hb x Hx) as Hle; cbv beta in Hle. lia.
  - apply Forall_app. split.
    + apply Forall_forall. intros x Hx.
      pose proof (proj1 (Forall_forall _ _) Hb x Hx) as Hle; cbv beta in Hle. lia.
    + constructor; [cbn; lia | constructor].
Qed.

Lemma well_formed_delete (donor_id : Z) (s : store) :
  well_formed s -> well_formed (delete_where donor_id s).
Proof.
  intros [Hi Hb]. split; cbn [delete_where drows last_id].
  - now apply increasing_filter.
  - apply Forall_forall. intros x Hx. apply filter_In in Hx as [Hx _].
    exact (proj1 (Forall_forall _ _) Hb x Hx).
Qed.

Lemma well_formed_update (donor_id : Z) (name : string) (amount : PyFloat.t) (s : store) :
  well_formed s -> well_formed (update_where donor_id name amount s).
Proof.
  intros [Hi Hb]. split; cbn [update_where drows last_id].
  - apply increasing_map; [|assumption]. intro d. now destruct (did d =? donor_id).
  - apply Forall_forall. intros x Hx. apply in_map_iff in Hx as (y & <- & Hy).
    pose proof (proj1 (Forall_forall _ _) Hb y Hy) as Hle; cbv beta in Hle.
    now destruct (did y =? donor_id).
Qed.

(** Whatever fails, a handler leaves the store as it was or with its one
    change made. *)
Lemma manage_donors_store (fault : nat -> bool) (post : option form) (s : store) :
  snd (manage_donors fault post s) = s
  \/ exists name amount,
      post = Some {| f_name := Some name; f_amount := amount |}
      /\ PyStr.truthy name = true
      /\ snd (manage_donors fault post s) = insert_donor name (amount_of amount) s.
Proof.
  unfold manage_donors, get_db.
  destruct (fault 0%nat); [now left|].
  destruct post as [[name amount]|].
  - unfold bindM at 1 2, lift. cbn [f_amount f_name].
    rewrite parse_amount_admin_value. unfold given.
    destruct name as [name|].
    + destruct (PyStr.truthy name) eqn:Et.
      * unfold bindM, execute, commit, query. cbn [nops seen committed].
        destruct (fault 1%nat); [now left|]. cbn [nops seen committed].
        destruct (fault 2%nat); [now left|]. cbn [nops seen committed].
        right. exists name, amount. split; [reflexivity|]. split; [assumption|].
        destruct (fault 3%nat); [reflexivity|]. cbn [nops seen committed].
        now destruct (fault 4%nat).
      * unfold ret, query. cbn [nops seen committed].
        destruct (fault 1%nat); [now left|]. cbn [nops seen committed].
        now destruct (fault 2%nat); left.
    + unfold ret, query. cbn [nops seen committed].
      destruct (fault 1%nat); [now left|]. cbn [nops seen committed].
      now destruct (fault 2%nat); left.
  - unfold bindM, ret, query. cbn [nops seen committed].
    destruct (fault 1%nat); [now left|]. cbn [nops seen committed].
    now destruct (fault 2%nat); left.
Qed.

Lemma delete_donor_store (fault : nat -> bool) (donor_id : Z) (s : store) :
  snd (delete_donor fault donor_id s) = s
  \/ snd (delete_donor fault donor_id s) = delete_where donor_id s.
Proof.
  unfold delete_donor, get_db, bindM, execute, commit.
  destruct (fault 0%nat); [now left|]. cbn [nops seen committed].
  destruct (fault 1%nat); [now left|]. cbn [nops seen committed].
  destruct (fault 2%nat); [now left|]. cbn [nops seen committed].
  now destruct (fault 3%nat); right.
Qed.

Lemma edit_donor_store (fault : nat -> bool) (donor_id : Z) (post : option form)
      (s : store) :
  snd (edit_donor fault donor_id post s) = s
  \/ exists name amount,
      post = Some {| f_name := Some name; f_amount := amount |}
      /\ PyStr.truthy name = true
      /\ snd (edit_donor fault donor_id post s)
         = update_where donor_id name (amount_of amount) s.
Proof.
  unfold edit_donor, get_db.
  destruct (fault 0%nat); [now left|].
  destruct post as [[name amount]|].
  - unfold bindM at 1, lift. cbn [f_amount f_name].
    rewrite parse_amount_admin_value. unfold given.
    destruct name as [name|].
    + destruct (PyStr.truthy name) eqn:Et.
      * unfold bindM, execute, commit, ret. cbn [nops seen committed].
        destruct (fault 1%nat); [now left|]. cbn [nops seen committed].
        destruct (fault 2%nat); [now left|]. cbn [nops seen committed].
        right. exists name, amount. split; [reflexivity|]. split; [assumption|].
        now destruct (fault 3%nat).
      * unfold bindM, ret, query. cbn [nops seen committed].
        destruct (fault 1%nat); [now left|]. cbn [nops seen committed].
        now destruct (fault 2%nat); left.
    + unfold bindM, ret, query. cbn [nops seen committed].
      destruct (fault 1%nat); [now left|]. cbn [nops seen committed].
      now destruct (fault 2%nat); left.
  - unfold bindM, ret, query. cbn [nops seen committed].
    destruct (fault 1%nat); [now left|]. cbn [nops seen committed].
    now destruct (fault 2%nat); left.
Qed.

End AdminFacts.

Lemma filter_one_id (donor_id : Z) (l : list Admin.donor) :
  Admin.increasing l ->
  match List.find (fun d => Admin.did d =? donor_id) l with
  | None => List.filter (fun d => negb (Admin.did d =? donor_id)) l = l
  | Some _ =>
      length l = S (length (List.filter (fun d => negb (Admin.did d =? donor_id)) l))
  end.
Proof.
  induction l as [|d r IH]; cbn; [reflexivity|]. intros [Hd Hr].
  destruct (Z.eqb_spec (Admin.did d) donor_id) as [E|E]; cbn.
  - f_equal. f_equal. symmetry. apply filter_all. apply Forall_forall. intros x Hx.
    pose proof (proj1 (Forall_forall _ _) Hd x Hx) as Hlt. cbv beta in Hlt.
    apply negb_true_iff, Z.eqb_neq. lia.
  - specialize (IH Hr).
    destruct (List.find _ r); cbn; [now rewrite IH | now f_equal].
Qed.

(** X16: The ids stay unique: every handler of the admin screens, whatever
    fails while it runs, leaves the ids of the table growing along the rows
    and bounded by the sequence value, so that no two rows share an id. *)
Theorem admin_ids_stay_unique
        (fault : nat -> bool) (post : option Admin.form) (donor_id : Z) (s : Admin.store) :
  Admin.well_formed s ->
  Admin.well_formed (snd (Admin.manage_donors fault post s))
  /\ Admin.well_formed (snd (Admin.delete_donor fault donor_id s))
  /\ Admin.well_formed (snd (Admin.edit_donor fault donor_id post s))
  /\ NoDup (map Admin.did (Admin.drows s)).
Proof.
  intro Hwf. repeat split.
  - destruct (manage_donors_store fault post s) as [->|(name & amount & _ & _ & ->)];
      [apply Hwf | now apply well_formed_insert].
  - destruct (manage_donors_store fault post s) as [->|(name & amount & _ & _ & ->)];
      [apply Hwf | now apply well_formed_insert].
  - destruct (delete_donor_store fault donor_id s) as [->| ->];
      [apply Hwf | now apply well_formed_delete].
  - destruct (delete_donor_store fault donor_id s) as [->| ->];
      [apply Hwf | now apply well_formed_delete].
  - destruct (edit_donor_store fault donor_id post s) as [->|(name & amount & _ & _ & ->)];
      [apply Hwf | now apply well_formed_update].
  - destruct (edit_donor_store fault donor_id post s) as [->|(name & amount & _ & _ & ->)];
      [apply Hwf | now apply well_formed_update].
  - apply increasing_NoDup, Hwf.
Qed.

Lemma manage_donors_add_ok
        (fault : nat -> bool) (name amount : string) (s : Admin.store) :
  (forall n, fault n = false) ->
  PyStr.truthy name = true ->
  Admin.manage_donors fault
    (Some {| Admin.f_name := Some name; Admin.f_amount := amount |}) s
  = (Ret (Admin.drows s
          ++ [{| Admin.did := Admin.last_id s + 1; Admin.dname := name;
                 Admin.damount := Admin.amount_of amount |}]),
     {| Admin.drows :=
          Admin.drows s
          ++ [{| Admin.did := Admin.last_id s + 1; Admin.dname := name;
                 Admin.damount := Admin.amount_of amount |}];
        Admin.last_id := Admin.last_id s + 1 |}).
Proof.
  intros Hf Ht. unfold Admin.manage_donors, Admin.get_db.
  unfold bindM at 1 2, lift. cbn [Admin.f_amount Admin.f_name].
  rewrite parse_amount_admin_value. unfold Admin.given. rewrite Ht.
  unfold bindM, Admin.execute, Admin.commit, Admin.query.
  rewrite ?Hf. repeat (progress (cbn [Admin.nops Admin.seen Admin.committed]; rewrite ?Hf)).
  reflexivity.
Qed.


(** X18: Without a name nothing is stored: a POST whose name field is missing
    or empty, like a GET, leaves the table as it was, whatever else
    happens. *)
Theorem manage_donors_needs_name
        (fault : nat -> bool) (name : option string) (amount : string) (s : Admin.store) :
  Admin.given name = None ->
  snd (Admin.manage_donors fault
         (Some {| Admin.f_name := name; Admin.f_amount := amount |}) s) = s
  /\ snd (Admin.manage_donors fault None s) = s.
Proof.
  intro Hn. split.
  - destruct (manage_donors_store fault
                (Some {| Admin.f_name := name; Admin.f_amount := amount |}) s)
      as [H|(n & a & Hp & Ht & _)]; [exact H|].
    injection Hp as -> _. cbn in Hn. rewrite Ht in Hn. discriminate.
  - destruct (manage_donors_store fault None s) as [H|(n & a & Hp & _)];
      [exact H | discriminate].
Qed.

(** X19: The insert is committed before the table is listed: when the listing
    query fails the request ends in an error, and the new donor is in the
    table all the same. *)
Theorem manage_donors_insert_survives_failed_listing
        (fault : nat -> bool) (name amount : string) (s : Admin.store) :
  fault 0%nat = false -> fault 1%nat = false -> fault 2%nat = false ->
  fault 3%nat = true ->
  PyStr.truthy name = true ->
  Admin.manage_donors fault
    (Some {| Admin.f_name := Some name; Admin.f_amount := amount |}) s
  = (Raise DatabaseError, Admin.insert_donor name (Admin.amount_of amount) s).
Proof.
  intros H0 H1 H2 H3 Ht. unfold Admin.manage_donors, Admin.get_db. rewrite H0.
  unfold bindM at 1 2, lift. cbn [Admin.f_amount Admin.f_name].
  rewrite parse_amount_admin_value. unfold Admin.given. rewrite Ht.
  unfold bindM, Admin.execute, Admin.commit, Admin.query.
  cbn [Admin.nops Admin.seen Admin.committed]. rewrite H1.
  cbn [Admin.nops Admin.seen Admin.committed]. rewrite H2.
  cbn [Admin.nops Admin.seen Admin.committed]. rewrite H3. reflexivity.
Qed.

(** X20: Deleting by id: with a working database the rows with that id go and
    the others stay in place; as the ids are unique that is one row when
    the id is in the table, and nothing at all when it is not (the handler
    reports success either way). *)
Theorem delete_donor_removes_one (fault : nat -> bool) (donor_id : Z) (s : Admin.store) :
  (forall n, fault n = false) ->
  Admin.well_formed s ->
  fst (Admin.delete_donor fault donor_id s) = Ret tt
  /\ Admin.drows (snd (Admin.delete_donor fault donor_id s))
     = List.filter (fun d => negb (Admin.did d =? donor_id)) (Admin.drows s)
  /\ Admin.select_one donor_id (snd (Admin.delete_donor fault donor_id s)) = None
  /\ match Admin.select_one donor_id s with
     | None => snd (Admin.delete_donor fault donor_id s) = s
     | Some _ =>
         length (Admin.drows s)
         = S (length (Admin.drows (snd (Admin.delete_donor fault donor_id s))))
     end.
Proof.
  intros Hf [Hi _].
  assert (Admin.delete_donor fault donor_id s = (Ret tt, Admin.delete_where donor_id s))
    as ->.
  { unfold Admin.delete_donor, Admin.get_db, bindM, Admin.execute, Admin.commit.
    rewrite ?Hf.
    repeat (progress (cbn [Admin.nops Admin.seen Admin.committed]; rewrite ?Hf)).
    reflexivity. }
  cbn [fst snd]. unfold Admin.delete_where. cbn [Admin.drows]. repeat split.
  - unfold Admin.select_one. cbn [Admin.drows].
    match goal with |- ?x = None => destruct x as [d|] eqn:E; [|reflexivity] end.
    apply find_some in E as [Hin Hd]. apply filter_In in Hin as [_ Hn].
    rewrite Hd in Hn. discriminate.
  - pose proof (filter_one_id donor_id (Admin.drows s) Hi) as H.
    unfold Admin.select_one.
    destruct (List.find (fun d => Admin.did d =? donor_id) (Admin.drows s)).
    + exact H.
    + rewrite H. now destruct s.
Qed.


(** X22: Adding a donor and deleting the id it was given brings the rows back
    to what they were; only the sequence value has moved on, so the id is
    never given again. *)
Theorem add_then_delete
        (fault : nat -> bool) (name amount : string) (s : Admin.store) :
  (forall n, fault n = false) ->
  Admin.well_formed s ->
  PyStr.truthy name = true ->
  let added := snd (Admin.manage_donors fault
                      (Some {| Admin.f_name := Some name; Admin.f_amount := amount |}) s) in
  Admin.drows (snd (Admin.delete_donor fault (Admin.last_id s + 1) added)) = Admin.drows s
  /\ Admin.last_id (snd (Admin.delete_donor fault (Admin.last_id s + 1) added))
     = Admin.last_id s + 1.
Proof.
  intros Hf [_ Hb] Ht added. unfold added.
  rewrite (manage_donors_add_ok fault name amount s Hf Ht). cbn [snd].
  assert (forall s', Admin.delete_donor fault (Admin.last_id s + 1) s'
                     = (Ret tt, Admin.delete_where (Admin.last_id s + 1) s')) as ->.
  { intro s'. unfold Admin.delete_donor, Admin.get_db, bindM, Admin.execute, Admin.commit.
    rewrite ?Hf.
    repeat (progress (cbn [Admin.nops Admin.seen Admin.committed]; rewrite ?Hf)).
    reflexivity. }
  cbn [snd]. unfold Admin.delete_where. cbn [Admin.drows Admin.last_id].
  split; [|reflexivity]. rewrite filter_app. cbn [List.filter Admin.did].
  rewrite Z.eqb_refl. cbn [negb]. rewrite app_nil_r.
  apply filter_all. apply Forall_forall. intros d Hd.
  pose proof (proj1 (Forall_forall _ _) Hb d Hd) as Hle. cbv beta in Hle.
  apply negb_true_iff, Z.eqb_neq. lia.
Qed.

Ltac admin_well_formed :=
  unfold Admin.well_formed; repeat (first [progress cbn | lia | constructor]).

Lemma admin_ids_stay_unique_witness :
  Admin.well_formed AdminScenario.two_rows
  /\ Admin.well_formed
       (snd (Admin.manage_donors Admin.no_fault (Some AdminScenario.cy)
                                 AdminScenario.two_rows))
  /\ NoDup (map Admin.did (Admin.drows AdminScenario.two_rows)).
Proof.
  split; [admin_well_formed|].
  assert (Admin.well_formed AdminScenario.two_rows) as H by admin_well_formed.
  pose proof (admin_ids_stay_unique Admin.no_fault (Some AdminScenario.cy) 2
                                    AdminScenario.two_rows H) as (H1 & _ & _ & H4).
  split; assumption.
Defined.


Lemma manage_donors_needs_name_witness :
  Admin.given (Some "") = None
  /\ snd (Admin.manage_donors Admin.no_fault
            (Some {| Admin.f_name := Some ""; Admin.f_amount := "10" |})
            AdminScenario.two_rows) = AdminScenario.two_rows.
Proof.
  split; [reflexivity|].
  exact (proj1 (manage_donors_needs_name Admin.no_fault (Some "") "10"
                                         AdminScenario.two_rows eq_refl)).
Defined.

Lemma manage_donors_insert_survives_failed_listing_witness :
  AdminScenario.listing_fails 3 = true
  /\ Admin.manage_donors AdminScenario.listing_fails (Some AdminScenario.cy)
                         AdminScenario.two_rows
     = (Raise DatabaseError,
        Admin.insert_donor "Cy Day" (Admin.amount_of " 12.5 ") AdminScenario.two_rows).
Proof.
  split; [reflexivity|].
  exact (manage_donors_insert_survives_failed_listing
           AdminScenario.listing_fails "Cy Day" " 12.5 " AdminScenario.two_rows
           eq_refl eq_refl eq_refl eq_refl eq_refl).
Defined.

Lemma delete_donor_removes_one_witness :
  (forall n, Admin.no_fault n = false)
  /\ Admin.well_formed AdminScenario.two_rows
  /\ Admin.drows (snd (Admin.delete_donor Admin.no_fault 2 AdminScenario.two_rows))
     = [{| Admin.did := 5; Admin.dname := "Ben Ode"; Admin.damount := PyFloat.zero |}].
Proof.
  split; [reflexivity|]. split; [admin_well_formed|].
  assert (Admin.well_formed AdminScenario.two_rows) as H by admin_well_formed.
  pose proof (delete_donor_removes_one Admin.no_fault 2 AdminScenario.two_rows
                                       (fun n => eq_refl) H) as (_ & H2 & _).
  exact H2.
Defined.


Lemma add_then_delete_witness :
  (forall n, Admin.no_fault n = false)
  /\ Admin.well_formed AdminScenario.two_rows
  /\ PyStr.truthy "Cy Day" = true
  /\ Admin.drows
       (snd (Admin.delete_donor Admin.no_fault 8
               (snd (Admin.manage_donors Admin.no_fault (Some AdminScenario.cy)
                                         AdminScenario.two_rows))))
     = Admin.drows AdminScenario.two_rows.
Proof.
  split; [reflexivity|]. split; [admin_well_formed|]. split; [reflexivity|].
  assert (Admin.well_formed AdminScenario.two_rows) as H by admin_well_formed.
  exact (proj1 (add_then_delete Admin.no_fault "Cy Day" " 12.5 " AdminScenario.two_rows
                                (fun n => eq_refl) H eq_refl)).
Defined.

(* ------------------------------------------------------------------------- *)
(** ** The database schema *)

Section SchemaFacts.
Import Schema.
Variable getenv : string -> option string.
Variable pbkdf2_hash : string -> string.

Lemma fold_coalesce_row (L : list (string * value)) :
  forall r,
    fold_left (fun r '(c, d) => coalesce_row c d r) L r
    = map (fun '(k, v) =>
             (k, match v with
                 | Some x => Some x
                 | None => match List.find (fun '(k', _) => String.eqb k' k) L with
                           | Some (_, d) => Some d
                           | None => None
                           end
                 end)) r.
Proof.
  induction L as [|[c d] L IH]; intro r.
  - cbn. symmetry. rewrite <- (map_id r) at 2. apply map_ext.
    intros [k [x|]]; reflexivity.
  - cbn [fold_left]. rewrite IH. unfold coalesce_row. rewrite map_map.
    apply map_ext. intros [k v]. cbn [List.find].
    rewrite (String.eqb_sym c k).
    destruct (String.eqb k c); destruct v; reflexivity.
Qed.

Lemma fold_coalesce (L : list (string * value)) :
  forall t,
    fold_left (fun t '(c, d) => coalesce c d t) L t
    = {| cols := cols t;
         srows := map (fun '(i, r) =>
                         if i =? 1
                         then (i, fold_left (fun r '(c, d) => coalesce_row c d r) L r)
                         else (i, r))
                      (srows t) |}.
Proof.
  induction L as [|[c d] L IH]; intro t.
  - cbn. destruct t as [cs rs]. cbn. f_equal. symmetry.
    rewrite <- (map_id rs) at 2. apply map_ext. intros [i r].
    now destruct (i =? 1).
  - cbn [fold_left]. rewrite IH. unfold coalesce. cbn [cols srows]. f_equal.
    rewrite map_map. apply map_ext. intros [i r].
    destruct (i =? 1) eqn:E; [now rewrite E | now rewrite E].
Qed.

Lemma backfill_closed (t : settings_table) :
  backfill getenv t
  = {| cols := cols t;
       srows := map (fun '(i, r) => if i =? 1 then (i, fill_row getenv r) else (i, r))
                    (srows t) |}.
Proof.
  unfold backfill. rewrite fold_coalesce. f_equal. apply map_ext. intros [i r].
  destruct (i =? 1); [|reflexivity]. f_equal. apply fold_coalesce_row.
Qed.

Lemma fill_row_idem (r : row) : fill_row getenv (fill_row getenv r) = fill_row getenv r.
Proof.
  unfold fill_row. rewrite map_map. apply map_ext. intros [k [x|]]; [reflexivity|].
  now destruct (default_of getenv k).
Qed.

Lemma fold_add_columns (existing : list string) (L : list (string * string)) :
  forall t,
    fold_left
      (fun t '(column_name, _) =>
         if existsb (String.eqb column_name) existing then t
         else add_column column_name t)
      L t
    = let missing :=
          List.filter (fun c => negb (existsb (String.eqb c) existing)) (map fst L) in
      {| cols := cols t ++ missing;
         srows := map (fun '(i, r) => (i, r ++ map (fun c => (c, None)) missing))
                      (srows t) |}.
Proof.
  induction L as [|[c ty] L IH]; intro t; cbv zeta.
  - cbn. destruct t as [cs rs]. cbn. rewrite app_nil_r. f_equal. symmetry.
    rewrite <- (map_id rs) at 2. apply map_ext. intros [i r]. now rewrite app_nil_r.
  - cbn [fold_left map fst List.filter]. rewrite IH. cbv zeta.
    destruct (existsb (String.eqb c) existing); cbn [negb]; [reflexivity|].
    unfold add_column. cbn [cols srows]. rewrite <- app_assoc. f_equal.
    rewrite map_map. apply map_ext. intros [i r]. now rewrite <- app_assoc.
Qed.

Lemma add_missing_closed (t : settings_table) :
  add_missing_columns t
  = {| cols := cols t ++ missing_columns (cols t);
       srows := map (fun '(i, r) => (i, r ++ map (fun c => (c, None))
                                                 (missing_columns (cols t))))
                    (srows t) |}.
Proof. unfold add_missing_columns. now rewrite fold_add_columns. Qed.

Lemma missing_columns_none (cs : list string) :
  incl (map fst SETTINGS_COLUMNS) cs -> missing_columns cs = [].
Proof.
  intro H. unfold missing_columns.
  induction (map fst SETTINGS_COLUMNS) as [|c L IH]; [reflexivity|].
  cbn [List.filter].
  assert (existsb (String.eqb c) cs = true) as ->.
  { apply existsb_exists. exists c. split; [apply H; now left | apply String.eqb_refl]. }
  cbn [negb]. apply IH. intros x Hx. apply H. now right.
Qed.

Lemma columns_complete (cs : list string) :
  incl (map fst SETTINGS_COLUMNS) (cs ++ missing_columns cs).
Proof.
  intros c Hc. apply in_app_iff.
  destruct (existsb (String.eqb c) cs) eqn:E.
  - left. apply existsb_exists in E as (x & Hx & Heq).
    apply String.eqb_eq in Heq. now subst.
  - right. unfold missing_columns. apply filter_In. now rewrite E.
Qed.

Lemma row1_map (f : row -> row) (rs : list (Z * row)) :
  row1 {| cols := []; srows := map (fun '(i, r) => if i =? 1 then (i, f r) else (i, r)) rs |}
  = option_map f (row1 {| cols := []; srows := rs |}).
Proof.
  unfold row1. cbn [srows]. induction rs as [|[i r] rs IH]; [reflexivity|].
  cbn [map List.find]. destruct (i =? 1) eqn:E; cbn [List.find]; rewrite E;
    [reflexivity | exact IH].
Qed.

Lemma row1_map_all (f : row -> row) (rs : list (Z * row)) :
  row1 {| cols := []; srows := map (fun '(i, r) => (i, f r)) rs |}
  = option_map f (row1 {| cols := []; srows := rs |}).
Proof.
  unfold row1. cbn [srows]. induction rs as [|[i r] rs IH]; [reflexivity|].
  cbn [map List.find]. destruct (i =? 1); [reflexivity | exact IH].
Qed.

Lemma row1_cols (cs cs' : list string) (rs : list (Z * row)) :
  row1 {| cols := cs; srows := rs |} = row1 {| cols := cs'; srows := rs |}.
Proof. reflexivity. Qed.

Lemma get_app_nulls (c : string) (r : row) (ms : list string) :
  get c (r ++ map (fun k => (k, None)) ms) = get c r.
Proof.
  unfold get. induction r as [|[k v] r IH]; cbn [app List.find].
  - induction ms as [|m ms IHm]; [reflexivity|]. cbn [map List.find].
    destruct (String.eqb m c); [reflexivity | exact IHm].
  - destruct (String.eqb k c); [reflexivity | exact IH].
Qed.

Lemma get_fill_row (c : string) (r : row) :
  get c (fill_row getenv r)
  = match get c r with
    | Some v => Some v
    | None => if has_key c r then default_of getenv c else None
    end.
Proof.
  unfold get, fill_row, has_key. induction r as [|[k v] r IH]; [reflexivity|].
  cbn [map List.find existsb]. destruct (String.eqb k c) eqn:E; cbn [orb].
  - apply String.eqb_eq in E. subst k. now destruct v.
  - exact IH.
Qed.

Lemma get_defaults_row (c : string) (cs : list string) :
  In c cs -> get c (map (fun k => (k, default_of getenv k)) cs) = default_of getenv c.
Proof.
  unfold get. induction cs as [|k cs IH]; [contradiction|]. intros [->|Hin].
  - cbn [map List.find]. now rewrite String.eqb_refl.
  - cbn [map List.find]. destruct (String.eqb k c) eqn:E; [|auto].
    apply String.eqb_eq in E. now subst.
Qed.

Lemma has_key_spec (c : string) (r : row) : has_key c r = true <-> In c (map fst r).
Proof.
  unfold has_key. rewrite existsb_exists, in_map_iff. split.
  - intros ([k v] & Hin & E). apply String.eqb_eq in E. subst. now exists (c, v).
  - intros ([k v] & E & Hin). cbn in E. subst. exists (c, v).
    split; [assumption | apply String.eqb_refl].
Qed.

End SchemaFacts.


Section SchemaRun.
Import Schema.
Variable getenv : string -> option string.
Variable pbkdf2_hash : string -> string.

Lemma table_eta (t : settings_table) : {| cols := cols t; srows := srows t |} = t.
Proof. now destruct t. Qed.

Lemma has_row1_find (t : settings_table) :
  has_row1 t = match row1 t with Some _ => true | None => false end.
Proof.
  unfold has_row1, row1. induction (srows t) as [|[i r] rs IH]; [reflexivity|].
  cbn [existsb List.find]. destruct (i =? 1); [reflexivity | exact IH].
Qed.

Lemma row1_insert_or_ignore (t : settings_table) :
  row1 (insert_or_ignore getenv t)
  = match row1 t with
    | Some r => Some r
    | None => Some (map (fun c => (c, default_of getenv c)) (cols t))
    end.
Proof.
  unfold insert_or_ignore. fold (has_row1 t). rewrite has_row1_find.
  destruct (row1 t) as [r|] eqn:E; [exact E|].
  unfold row1 in *. cbn [srows].
  induction (srows t) as [|[i r] rs IH].
  - cbn. reflexivity.
  - cbn [app List.find] in *. destruct (i =? 1); [discriminate | now apply IH].
Qed.

Lemma row1_backfill (t : settings_table) :
  row1 (backfill getenv t) = option_map (fill_row getenv) (row1 t).
Proof.
  rewrite backfill_closed.
  rewrite (row1_cols _ [] _), (row1_map (fill_row getenv)).
  now rewrite <- (row1_cols (cols t) []), table_eta.
Qed.

Lemma row1_add_missing (t : settings_table) :
  row1 (add_missing_columns t)
  = option_map (fun r => r ++ map (fun c => (c, None)) (missing_columns (cols t)))
               (row1 t).
Proof.
  rewrite add_missing_closed.
  rewrite (row1_cols _ [] _),
    (row1_map_all (fun r => r ++ map (fun c => (c, None)) (missing_columns (cols t)))).
  now rewrite <- (row1_cols (cols t) []), table_eta.
Qed.

Lemma ensure_settings_idem (t : option settings_table) :
  _ensure_settings_schema getenv (Some (_ensure_settings_schema getenv t))
  = _ensure_settings_schema getenv t.
Proof.
  unfold _ensure_settings_schema at 1. cbn [create_settings].
  unfold _ensure_settings_schema.
  set (A := add_missing_columns (create_settings t)).
  set (B := insert_or_ignore getenv A).
  assert (incl (map fst (SETTINGS_COLUMNS)) (cols (backfill getenv B))) as Hcols.
  { rewrite backfill_closed. cbn [cols]. unfold B, insert_or_ignore.
    assert (incl (map fst SETTINGS_COLUMNS) (cols A)) as HA.
    { unfold A. rewrite add_missing_closed. cbn [cols]. apply columns_complete. }
    now destruct (existsb _ (srows A)). }
  assert (add_missing_columns (backfill getenv B) = backfill getenv B) as ->.
  { rewrite add_missing_closed, (missing_columns_none _ Hcols). cbn [map].
    rewrite app_nil_r. rewrite <- (table_eta (backfill getenv B)) at 3. f_equal.
    rewrite <- (map_id (srows (backfill getenv B))) at 2. apply map_ext.
    intros [i r]. now rewrite app_nil_r. }
  assert (insert_or_ignore getenv (backfill getenv B) = backfill getenv B) as ->.
  { unfold insert_or_ignore at 1. fold (has_row1 (backfill getenv B)).
    rewrite has_row1_find, row1_backfill. unfold B. rewrite row1_insert_or_ignore.
    now destruct (row1 A). }
  rewrite (backfill_closed getenv (backfill getenv B)).
  rewrite (backfill_closed getenv B) at 1 2. cbn [cols srows].
  rewrite (backfill_closed getenv B). f_equal.
  rewrite map_map. apply map_ext. intros [i r].
  destruct (i =? 1) eqn:E; rewrite E; [now rewrite fill_row_idem | reflexivity].
Qed.

Lemma ensure_users_idem (t : option users_table) :
  ensure_users getenv pbkdf2_hash (Some (ensure_users getenv pbkdf2_hash t))
  = ensure_users getenv pbkdf2_hash t.
Proof.
  unfold ensure_users at 1.
  assert ((length (urows (ensure_users getenv pbkdf2_hash t)) =? 0)%nat = false) as ->;
    [|reflexivity].
  unfold ensure_users.
  destruct (length (urows match t with Some t0 => t0 | None => _ end) =? 0)%nat eqn:E;
    [|exact E].
  cbn [urows]. rewrite length_app. cbn [length]. now rewrite Nat.add_1_r.
Qed.

End SchemaRun.

(** X23: Running [init_db] again changes nothing: every start of the
    application after the first leaves the three tables, the settings row
    and the users as the previous start left them. *)
Theorem init_db_idempotent
        (getenv : string -> option string) (pbkdf2_hash : string -> string)
        (d : Schema.database) :
  Schema.init_db getenv pbkdf2_hash (Schema.init_db getenv pbkdf2_hash d)
  = Schema.init_db getenv pbkdf2_hash d.
Proof.
  unfold Schema.init_db. cbn [Schema.donors_t Schema.settings_t Schema.users_t].
  now rewrite ensure_settings_idem, ensure_users_idem.
Qed.

Section SchemaValues.
Import Schema.
Variable getenv : string -> option string.

Lemma row1_aligned (t : settings_table) (r : row) :
  aligned t -> row1 t = Some r -> map fst r = cols t.
Proof.
  unfold aligned, row1. intros Ha E.
  destruct (List.find _ (srows t)) as [[i r']|] eqn:Ef; [|discriminate].
  injection E as ->. apply find_some in Ef as [Hin _].
  exact (proj1 (Forall_forall _ _) Ha (i, r) Hin).
Qed.

(** The value of a column with a default after [_ensure_settings_schema]:
    what the row held, or the default where it held nothing. *)
Lemma ensure_settings_value (t0 : option settings_table) (c : string) (dv : value) :
  match t0 with Some t => aligned t | None => True end ->
  In c (map fst SETTINGS_COLUMNS) ->
  default_of getenv c = Some dv ->
  exists r,
    row1 (_ensure_settings_schema getenv t0) = Some r
    /\ get c r
       = Some (match match t0 with
                     | Some t => match row1 t with Some r0 => get c r0 | None => None end
                     | None => None
                     end with
               | Some v => v
               | None => dv
               end).
Proof.
  intros Ha Hc Hd. unfold _ensure_settings_schema.
  rewrite row1_backfill, row1_insert_or_ignore, row1_add_missing.
  assert (aligned (create_settings t0)) as Ha1.
  { destruct t0 as [t|]; [exact Ha | constructor]. }
  assert (match t0 with
          | Some t => match row1 t with Some r0 => get c r0 | None => None end
          | None => None
          end
          = match row1 (create_settings t0) with Some r0 => get c r0 | None => None end)
    as ->.
  { now destruct t0. }
  set (t1 := create_settings t0) in *. clearbody t1.
  destruct (row1 t1) as [r0|] eqn:E1; cbn [option_map].
  - eexists. split; [reflexivity|].
    rewrite get_fill_row, get_app_nulls.
    destruct (get c r0) as [v|]; [reflexivity|].
    assert (has_key c (r0 ++ map (fun k => (k, None)) (missing_columns (cols t1))) = true)
      as ->.
    { apply has_key_spec. rewrite map_app, map_map. cbn [fst]. rewrite map_id.
      rewrite (row1_aligned t1 r0 Ha1 E1). now apply columns_complete. }
    now rewrite Hd.
  - eexists. split; [reflexivity|].
    rewrite get_fill_row, get_defaults_row, Hd; [reflexivity|].
    rewrite add_missing_closed. cbn [cols]. now apply columns_complete.
Qed.

End SchemaValues.

(** X24: After [init_db] the settings row 1 exists and every column with a
    default holds a value: the one it held before when there was one, and
    the default otherwise (a missing table, a missing row, a missing column
    or a NULL).  A value once stored is never replaced by a default. *)
Theorem init_db_settings_complete
        (getenv : string -> option string) (pbkdf2_hash : string -> string)
        (d : Schema.database) :
  match Schema.settings_t d with Some t => Schema.aligned t | None => True end ->
  exists t r,
    Schema.settings_t (Schema.init_db getenv pbkdf2_hash d) = Some t
    /\ Schema.row1 t = Some r
    /\ Forall (fun '(c, dv) =>
                 Schema.get c r
                 = Some (match Schema.stored d c with Some v => v | None => dv end))
              (Schema.SETTINGS_DEFAULTS getenv).
Proof.
  intro Ha. eexists. cbn [Schema.init_db Schema.settings_t].
  destruct (ensure_settings_value getenv (Schema.settings_t d) "background_image"
              (Schema.VText "default.jpg") Ha) as (r & Hr & _);
    [cbn; auto | reflexivity|].
  exists r. split; [reflexivity|]. split; [exact Hr|].
  unfold Schema.stored.
  repeat constructor;
    match goal with
    | |- Schema.get ?c r = Some ?x =>
        let H := fresh in
        edestruct (ensure_settings_value getenv (Schema.settings_t d) c) as (r' & Hr' & H);
          [exact Ha | cbn; auto 20 | reflexivity |];
          rewrite Hr in Hr'; injection Hr' as <-; exact H
    end.
Qed.

Lemma init_db_settings_complete_witness :
  Schema.aligned
    {| Schema.cols := ["background_image"; "font_size"];
       Schema.srows := [(1, [("background_image", Some (Schema.VText "gala.png"));
                             ("font_size", None)])] |}
  /\ exists t r,
      Schema.settings_t (Schema.init_db (fun _ => None) (fun p => p) Schema.legacy) = Some t
      /\ Schema.row1 t = Some r
      /\ Schema.get "background_image" r = Some (Schema.VText "gala.png")
      /\ Schema.get "font_size" r = Some (Schema.VInt 24)
      /\ Schema.get "donor_website" r = Some (Schema.VText "").
Proof.
  assert (Schema.aligned
            {| Schema.cols := ["background_image"; "font_size"];
               Schema.srows := [(1, [("background_image", Some (Schema.VText "gala.png"));
                                     ("font_size", None)])] |}) as Ha
      by (repeat constructor).
  split; [exact Ha|].
  destruct (init_db_settings_complete (fun _ => None) (fun p => p) Schema.legacy Ha)
    as (t & r & Ht & Hr & Hall).
  exists t, r. split; [exact Ht|]. split; [exact Hr|].
  repeat match goal with
         | H : Forall _ (_ :: _) |- _ => inversion H; subst; clear H
         | H : Forall _ (Schema.SETTINGS_DEFAULTS _) |- _ =>
             unfold Schema.SETTINGS_DEFAULTS in H
         end.
  repeat split; assumption.
Defined.

(* ------------------------------------------------------------------------- *)
(** ** Login and the admin guard *)

(** X25: Who gets to the admin screens: after a login request on a session
    without login, the guard lets the next request through exactly when the
    user name is in the table, the password check accepts the password, and
    the user is an admin.  A user who is not an admin is logged in and sent
    to the admin screen, and the guard sends it back to the login page. *)
Theorem login_grants_admin
        (verify : option string -> string -> exc bool)
        (username password : option string) (users : list Schema.user) :
  Auth.admin_required
    (snd (Auth.login verify (Some (username, password)) users Auth.no_session))
  = Auth.Handler
  <-> exists row,
      Auth.find_user users username = Some row
      /\ verify password (Schema.password_hash row) = Ret true
      /\ Schema.is_admin row <> 0.
Proof.
  unfold Auth.login. destruct (Auth.find_user users username) as [row|].
  - destruct (verify password (Schema.password_hash row)) as [[|]|e] eqn:Ev;
      cbn [snd]; unfold Auth.admin_required; cbn.
    + destruct (Z.eqb_spec (Schema.is_admin row) 0) as [E|E]; cbn; split.
      * discriminate.
      * intros (r & [= <-] & _ & Hn). contradiction.
      * intros _. now exists row.
      * reflexivity.
    + split; [discriminate|]. intros (r & [= <-] & Hv & _). congruence.
    + split; [discriminate|]. intros (r & [= <-] & Hv & _). congruence.
  - cbn. split; [discriminate|]. intros (r & Hr & _). discriminate.
Qed.

(** X26: A login that does not succeed leaves the session as it was: an unknown
    user, a wrong password and an exception in the password check change
    nothing, so whoever was logged in stays logged in. *)
Theorem failed_login_keeps_session
        (verify : option string -> string -> exc bool)
        (post : option (option string * option string))
        (users : list Schema.user) (s : Auth.session) :
  fst (Auth.login verify post users s) <> Ret Auth.ConfigRedirect ->
  snd (Auth.login verify post users s) = s.
Proof.
  unfold Auth.login. destruct post as [[username password]|]; [|reflexivity].
  destruct (Auth.find_user users username) as [row|]; [|reflexivity].
  destruct (verify password (Schema.password_hash row)) as [[|]|e]; cbn;
    [intro H; now contradiction H | reflexivity | reflexivity].
Qed.

Lemma failed_login_keeps_session_witness :
  fst (Auth.login Auth.plain_verify (Some (Some "guest", Some "wrong")) Auth.two_users
                  {| Auth.user_id := Some 1; Auth.is_admin := Some true |})
  <> Ret Auth.ConfigRedirect
  /\ Auth.admin_required
       (snd (Auth.login Auth.plain_verify (Some (Some "guest", Some "wrong"))
                        Auth.two_users
                        {| Auth.user_id := Some 1; Auth.is_admin := Some true |}))
     = Auth.Handler.
Proof.
  split; [discriminate|].
  rewrite (failed_login_keeps_session Auth.plain_verify
             (Some (Some "guest", Some "wrong")) Auth.two_users
             {| Auth.user_id := Some 1; Auth.is_admin := Some true |});
    [reflexivity | discriminate].
Defined.

(* ------------------------------------------------------------------------- *)
(** ** The static-page scraper *)

Lemma hd_filter_weaker {A : Type} (p q : A -> bool) (l : list A) :
  (forall x, q x = true -> p x = true) ->
  hd_error (List.filter q l) <> None -> hd_error (List.filter p l) <> None.
Proof.
  intros Hpq. induction l as [|x r IH]; cbn; [auto|].
  destruct (q x) eqn:Eq.
  - rewrite (Hpq x Eq). discriminate.
  - intro H. destruct (p x); [discriminate | auto].
Qed.

Lemma entry_amount_has_name (entry : Html.node) :
  snd (StaticPage.entry_tuple entry) <> None ->
  fst (StaticPage.entry_tuple entry) <> None.
Proof.
  unfold StaticPage.entry_tuple, StaticPage.text_of, StaticPage.select_one_within,
    StaticPage.select_within. cbn [fst snd]. intro H.
  assert (hd_error
            (List.filter
               (fun d => match Html.attrs_of d with
                         | Some a => Html.matches_compound (Html.by_class ["text-xl"]) a
                         | None => false
                         end)
               (Html.descendants entry)) <> None) as Hn.
  { eapply hd_filter_weaker; [|intro E; rewrite E in H; now apply H].
    intros d. cbv beta. destruct (Html.attrs_of d) as [a|]; [|auto].
    unfold Html.matches_compound, Html.by_class.
    cbn [Html.ctag Html.cid Html.cclasses Html.opt_matches forallb andb].
    intro Hq. apply andb_true_iff in Hq as [_ Hq]. exact Hq. }
  match goal with
  | Hn : ?x <> None |- option_map _ ?x <> None =>
      destruct x; [cbn; discriminate | contradiction]
  end.
Qed.

(** X27: In what the static-page scraper returns, a tuple with an amount has a
    name: the amount element carries the class the name is looked up by, so
    whenever it is found some name element is found too (the amount element
    itself, when it comes first in the entry).  Without the recent-donors
    section the result is empty. *)
Theorem static_page_amount_has_name (E : env) (url : string) (w : world)
        (soup : Html.soup) :
  remote E (length (requests w)) url = Ret soup ->
  exists out,
    fst (StaticPage.scrape_donors_from_page E url w) = Ret out
    /\ Forall (fun t => snd t <> None -> fst t <> None) out
    /\ match hd_error (Html.select (Html.descend [] (Html.by_id "profile-recent-donors"))
                                   soup) with
       | None => out = []
       | Some section =>
           length out
           = length (StaticPage.select_within (Html.by_class ["donor-listing"; "mb-2"])
                                              section)
       end.
Proof.
  intro H. unfold StaticPage.scrape_donors_from_page, bindM, session_get. rewrite H.
  destruct (hd_error _) as [section|]; unfold ret; cbn [fst].
  - eexists. split; [reflexivity|]. split; [|now rewrite length_map].
    apply Forall_forall. intros t Ht. apply in_map_iff in Ht as (entry & <- & _).
    apply entry_amount_has_name.
  - exists []. repeat split. constructor.
Qed.

Lemma static_page_amount_has_name_witness :
  remote (Scenario.run None (fun _ _ => Ret StaticPage.amount_first) Scenario.never)
         (length (requests Scenario.no_files)) "https://example.org/page"
  = Ret StaticPage.amount_first
  /\ exists out,
      fst (StaticPage.scrape_donors_from_page
             (Scenario.run None (fun _ _ => Ret StaticPage.amount_first) Scenario.never)
             "https://example.org/page" Scenario.no_files)
      = Ret out
      /\ Forall (fun t => snd t <> None -> fst t <> None) out
      /\ length out = 1%nat.
Proof.
  split; [reflexivity|].
  exact (static_page_amount_has_name
           (Scenario.run None (fun _ _ => Ret StaticPage.amount_first) Scenario.never)
           "https://example.org/page" Scenario.no_files StaticPage.amount_first
           eq_refl).
Defined.

(** The entry of that page has its amount element first, and the amount is
    returned as the name too. *)
Example static_page_amount_as_name :
  fst (StaticPage.scrape_donors_from_page
         (Scenario.run None (fun _ _ => Ret StaticPage.amount_first) Scenario.never)
         "https://example.org/page" Scenario.no_files)
  = Ret [(Some "$25", Some "$25")].
Proof. reflexivity. Qed.

(* ------------------------------------------------------------------------- *)
(** ** The settings form *)

Lemma or_int_set (x y : option Z) :
  Config.truthy_int (Config.or_int x y) = (Config.truthy_int x || Config.truthy_int y)%bool.
Proof. unfold Config.or_int. destruct (Config.truthy_int x) eqn:E; [exact E | reflexivity]. Qed.

Lemma or_text_set (x y : option string) :
  Config.truthy_text (Config.or_text x y)
  = (Config.truthy_text x || Config.truthy_text y)%bool.
Proof. unfold Config.or_text. destruct (Config.truthy_text x) eqn:E; [exact E | reflexivity]. Qed.

Lemma or_int_idem (x y : option Z) : Config.or_int x (Config.or_int x y) = Config.or_int x y.
Proof. unfold Config.or_int. now destruct (Config.truthy_int x). Qed.

Lemma or_text_idem (x y : option string) :
  Config.or_text x (Config.or_text x y) = Config.or_text x y.
Proof. unfold Config.or_text. now destruct (Config.truthy_text x). Qed.

(** X28: The settings form cannot clear a setting: a setting is set after the
    POST exactly when it was set before or the form sets it, so an empty
    field, a zero and an unreadable number keep the current value, and a
    configured source URL can be replaced but not removed.  Posting the same
    form twice is the same as posting it once. *)
Theorem config_never_clears (form current : Config.settings) :
  Config.which_set (Config.resolve form current)
  = map (fun p => (fst p || snd p)%bool)
        (combine (Config.which_set form) (Config.which_set current))
  /\ Config.resolve form (Config.resolve form current) = Config.resolve form current.
Proof.
  split.
  - unfold Config.which_set, Config.resolve. cbn.
    now rewrite !or_int_set, !or_text_set.
  - unfold Config.resolve. cbn.
    now rewrite !or_int_idem, !or_text_idem.
Qed.

(* ------------------------------------------------------------------------- *)
(** ** The scheduler's interval, on the values it accepts *)

Lemma interval_seconds_floor_witness :
  interval_seconds (fun _ => Some "0.1") = Ret 30 /\ 30 <= 30.
Proof.
  split; [reflexivity|].
  exact (interval_seconds_floor (fun _ => Some "0.1") 30 eq_refl).
Defined.

Lemma interval_seconds_fallback_witness :
  match FloatParse.float (getenv_default (fun _ => Some "soon")
                                         "SCRAPE_INTERVAL_MINUTES" "15") with
  | None => True
  | Some x => PyFloat.le0 x = true
  end
  /\ interval_seconds (fun _ => Some "soon") = Ret 900.
Proof.
  split; [exact I|].
  exact (interval_seconds_fallback (fun _ => Some "soon") I).
Defined.
